(** * Epic Report Generator: metrics engine, chart renderer and report sidebar

    A shallow embedding of [core/data_models.py], [core/metrics.py] and the
    parts of [core/chart_generator.py] and [core/pdf_generator.py] that decide
    what a report shows, with the properties of the specification proved
    about it.

    Conventions of the embedding.
    - Python [int] is [Z]; [len] is [Z.of_nat (length _)].
    - Python [float] is read as an exact rational [Q]: sums, quotients and
      comparisons are those of the rationals, so rounding, infinities and
      NaN are outside the model.  Equality of two computed numbers is
      stated with [==] ([Qeq]) unless both sides are the same fraction.
    - A [date] is its proleptic Gregorian ordinal ([date.toordinal()]), a
      [Z].  Python's dates are the ordinals from 1 to [_MAXORDINAL]
      (31 December 9999) and an addition that leaves them raises
      [OverflowError]; the day numbers of the model go on, and the one
      addition of the code that can leave the range, that of [_forecast],
      is stated against [date_add_checked], which has the bound.
    - A timezone-aware [datetime] is its local wall clock, in microseconds
      since the midnight that starts ordinal 0, together with its UTC
      offset in microseconds: the datetimes of the code carry a fixed
      offset ([_parse_dt] reads the numeric offset of a Jira timestamp,
      [.astimezone()] attaches a [timezone] of the offset in force), and
      such datetimes compare and subtract by instant.  A [tzinfo] object
      of varying offset shared by two datetimes, for which Python compares
      and subtracts wall clocks, is outside the model.
    - A [timedelta] is a number of microseconds.
    - The three readings of the system clock the code makes
      ([datetime.now().astimezone()], [date.today()] and the local zone
      used by [.astimezone()] on a naive datetime) are the fields of a
      [Clock] passed explicitly. *)

From Stdlib Require Import String Ascii DecimalString.
From Stdlib.Strings Require Import Byte.
From Stdlib Require Import ZArith QArith Qround Qabs Bool Lia Lqa List.
From Stdlib Require Import Permutation.
From Equations Require Import Equations.
Import ListNotations.

Local Open Scope Z_scope.

(** ** Dates, datetimes and timedeltas *)

Module Time.

Definition US_PER_SECOND : Z := 1000000.
Definition US_PER_DAY : Z := 86400 * US_PER_SECOND.
Definition US_PER_WEEK : Z := 7 * US_PER_DAY.

(** [date]: the ordinal of the day. *)
Definition date := Z.

(** [timedelta]: microseconds. *)
Definition timedelta := Z.

Definition timedelta_days (n : Z) : timedelta := n * US_PER_DAY.
Definition timedelta_weeks (n : Z) : timedelta := n * US_PER_WEEK.

(** The [days] attribute of a normalised timedelta (seconds and
    microseconds are kept non-negative, so the days round down). *)
Definition td_days (td : timedelta) : Z := td / US_PER_DAY.

Record datetime : Set := mkDatetime {
  wall : Z;
  utcoffset : Z
}.

(** Microseconds since the epoch of the model, in UTC. *)
Definition instant (dt : datetime) : Z := wall dt - utcoffset dt.

(** [a <= b], [a < b] on aware datetimes. *)
Definition dt_leb (a b : datetime) : bool := instant a <=? instant b.
Definition dt_ltb (a b : datetime) : bool := instant a <? instant b.

(** [dt.date()]: the calendar day of the wall clock. *)
Definition dt_date (dt : datetime) : date := wall dt / US_PER_DAY.

(** [dt + td] and [dt - td] keep the zone of [dt]. *)
Definition dt_add (dt : datetime) (td : timedelta) : datetime :=
  {| wall := wall dt + td; utcoffset := utcoffset dt |}.
Definition dt_sub (dt : datetime) (td : timedelta) : datetime :=
  {| wall := wall dt - td; utcoffset := utcoffset dt |}.

(** [date + td] uses the days of the timedelta only.  This is the day
    number the addition arrives at, whether or not it is still a date. *)
Definition date_add (d : date) (td : timedelta) : date := d + td_days td.

(** [date.max.toordinal()]: 31 December 9999. *)
Definition _MAXORDINAL : Z := 3652059.

(** The ordinals a [date] of Python can hold. *)
Definition is_date (o : Z) : bool := (1 <=? o) && (o <=? _MAXORDINAL).

(** [date + td] with the range of Python's dates: for a date [d], the
    day [d + td.days] when [0 < o <= _MAXORDINAL] holds of its ordinal
    [o], and nothing where Python raises [OverflowError]. *)
Definition date_add_checked (d : date) (td : timedelta) : option date :=
  let o := d + td_days td in
  if is_date d && is_date o then Some o else None.

(** Rounding of an exact number of microseconds to the nearest integer,
    ties to even, as the [timedelta] constructor does with a fractional
    argument. *)
Definition round_half_even (q : Q) : Z :=
  let f := Qfloor q in
  match Qcompare (q - inject_Z f) (1 # 2) with
  | Lt => f
  | Gt => f + 1
  | Eq => if Z.even f then f else f + 1
  end.

(** [timedelta(weeks=w)] for a float [w]. *)
Definition timedelta_of_weeks (w : Q) : timedelta :=
  round_half_even (w * inject_Z US_PER_WEEK).

(** The readings of the system clock. *)
Record Clock : Type := mkClock {
  now : datetime;               (* datetime.now().astimezone() *)
  today : date;                 (* date.today() *)
  local_utcoffset : Z -> Z      (* offset of the local zone at a naive wall time *)
}.

(** [datetime(day.year, day.month, day.day, 23, 59, 59).astimezone()] *)
Definition day_end (clk : Clock) (day : date) : datetime :=
  let w := day * US_PER_DAY + (23 * 3600 + 59 * 60 + 59) * US_PER_SECOND in
  {| wall := w; utcoffset := local_utcoffset clk w |}.

End Time.
Import Time.

(** ** Data model ([core/data_models.py]) *)

Record JiraIssue : Type := mkJiraIssue {
  key : string;
  summary : string;
  status : string;
  status_category : string;
  resolution : option string;
  issue_type : string;
  story_points : option Q;
  created : option datetime;
  resolved : option datetime;
  assignee : option string
}.

Record EpicData : Type := mkEpicData {
  epic_key : string;
  epic_summary : string;
  epic_status : string;
  epic_priority : option string;
  epic_assignee : option string;
  epic_reporter : option string;
  epic_created : option datetime;
  epic_updated : option datetime;
  labels : list string;
  fix_versions : list string;
  children : list JiraIssue
}.

Record EpicMetrics : Type := mkEpicMetrics {
  total_issues : Z;
  completed_issues : Z;
  open_issues : Z;
  unestimated_issues : Z;
  total_sp : Q;
  completed_sp : Q;
  remaining_sp : Q;
  progress : Q;
  avg_cycle_time_days : option Q;
  velocity_sp_per_week : option Q;
  scope_change_pct : option Q;
  blocked_issues : Z;
  forecast_date : option date;
  dates : list date;
  total_sp_over_time : list Q;
  completed_sp_over_time : list Q;
  cumulative_issues : list Z;
  cumulative_unestimated : list Z
}.

(** [EpicMetrics()]: every field at its dataclass default. *)
Definition EpicMetrics_default : EpicMetrics :=
  {| total_issues := 0;
     completed_issues := 0;
     open_issues := 0;
     unestimated_issues := 0;
     total_sp := 0%Q;
     completed_sp := 0%Q;
     remaining_sp := 0%Q;
     progress := 0%Q;
     avg_cycle_time_days := None;
     velocity_sp_per_week := None;
     scope_change_pct := None;
     blocked_issues := 0;
     forecast_date := None;
     dates := [];
     total_sp_over_time := [];
     completed_sp_over_time := [];
     cumulative_issues := [];
     cumulative_unestimated := [] |}.

(** ** Python built-ins used by the metrics *)

(** [sum(xs)] over floats, starting from [0] and adding left to right. *)
Definition sumQ (xs : list Q) : Q := fold_left Qplus xs 0%Q.

(** [sum(1 for x in xs if p(x))] *)
Definition count {A : Type} (p : A -> bool) (xs : list A) : Z :=
  Z.of_nat (length (filter p xs)).

Definition len {A : Type} (xs : list A) : Z := Z.of_nat (length xs).

Definition Qltb (a b : Q) : bool := negb (Qle_bool b a).

(** [max(a, b)] and [min(a, b)] return their first argument on a tie. *)
Definition py_max (a b : Q) : Q := if Qltb a b then b else a.
Definition py_min (a b : Q) : Q := if Qltb b a then b else a.

(** Truth value of an optional float: [None] and [0] are falsy. *)
Definition truthy (sp : option Q) : bool :=
  match sp with
  | Some q => negb (Qeq_bool q 0)
  | None => false
  end.

(** [x or 0] *)
Definition or_zero (sp : option Q) : Q :=
  match sp with
  | Some q => if Qeq_bool q 0 then 0%Q else q
  | None => 0%Q
  end.

(** The story points of an issue where the code has already tested them
    truthy. *)
Definition sp_value (c : JiraIssue) : Q :=
  match story_points c with Some q => q | None => 0%Q end.

Definition is_done (c : JiraIssue) : bool := (status_category c =? "Done")%string.

(** ** Metrics engine ([core/metrics.py]) *)

Definition _progress (completed_sp total_sp : Q)
                     (completed_issues total_issues : Z) : Q :=
  if total_issues =? 0 then 0%Q
  else if Qeq_bool total_sp 0 then
    py_max 0 (py_min 100 ((inject_Z completed_issues / inject_Z total_issues) * 100))%Q
  else
    let value := ((completed_sp / total_sp)
                  * (inject_Z completed_issues / inject_Z total_issues) * 100)%Q in
    py_max 0 (py_min 100 value)%Q.

(** The list [durations] of [_avg_cycle_time]:
    [(c.resolved - c.created).total_seconds() / 86400] of the measured
    children.  The difference is the time elapsed between the two
    instants, as Python takes it for two aware datetimes that carry
    fixed offsets, which is what [_parse_dt] builds from the timestamps
    of Jira. *)
Definition cycle_durations (children : list JiraIssue) : list Q :=
  flat_map (fun c =>
    match created c, resolved c with
    | Some cr, Some rs =>
        if is_done c
        then [(inject_Z (instant rs - instant cr) / inject_Z US_PER_DAY)%Q]
        else []
    | _, _ => []
    end) children.

Definition _avg_cycle_time (children : list JiraIssue) : option Q :=
  match cycle_durations children with
  | [] => None
  | durations => Some (sumQ durations / inject_Z (len durations))%Q
  end.

Definition resolved_since (cutoff : datetime) (c : JiraIssue) : bool :=
  match resolved c with
  | Some rs => dt_leb cutoff rs
  | None => false
  end.

Definition _velocity (clk : Clock) (children : list JiraIssue) (weeks : Z)
  : option Q :=
  let cutoff := dt_sub (now clk) (timedelta_weeks weeks) in
  let sp := sumQ (map sp_value
                   (filter (fun c => truthy (story_points c)
                                     && is_done c
                                     && resolved_since cutoff c) children)) in
  if Qeq_bool sp 0 then None else Some (sp / inject_Z weeks)%Q.

(** The pairs [(c, c.created)] of the children that carry a creation time. *)
Definition dated_children (children : list JiraIssue)
  : list (JiraIssue * datetime) :=
  flat_map (fun c =>
    match created c with
    | Some dt => [(c, dt)]
    | None => []
    end) children.

(** [list.sort(key=...)]: a stable sort; an element goes in front of the
    first one that is not strictly smaller. *)
Fixpoint insert_by_created (p : JiraIssue * datetime)
                           (l : list (JiraIssue * datetime)) :=
  match l with
  | [] => [p]
  | q :: r => if dt_ltb (snd q) (snd p)
              then q :: insert_by_created p r
              else p :: q :: r
  end.

Definition sort_by_created (l : list (JiraIssue * datetime)) :=
  fold_right insert_by_created [] l.

Definition _scope_change (children : list JiraIssue) : option Q :=
  if len children <? 2 then None
  else
    let dated := sort_by_created (dated_children children) in
    if len dated <? 2 then None
    else
      match dated with
      | [] => None
      | (_, first_created) :: _ =>
          let threshold := dt_add first_created (timedelta_days 7) in
          let added_later := count (fun p => dt_ltb threshold (snd p)) dated in
          Some ((inject_Z added_later / inject_Z (len children)) * 100)%Q
      end.

Definition _forecast (clk : Clock) (remaining_sp : Q) (velocity : option Q)
  : option date :=
  match velocity with
  | None => None
  | Some v =>
      if Qeq_bool v 0 || Qle_bool v 0 || Qle_bool remaining_sp 0 then None
      else
        let weeks_remaining := (remaining_sp / v)%Q in
        Some (date_add (today clk) (timedelta_of_weeks weeks_remaining))
  end.

(** The five lists that [_build_time_series] fills, one entry a day. *)
Record Series : Type := mkSeries {
  s_dates : list date;
  s_total_sp : list Q;
  s_completed_sp : list Q;
  s_cum_issues : list Z;
  s_cum_unest : list Z
}.

Definition Series_empty : Series := mkSeries [] [] [] [] [].

(** [min(dt for _, dt in dated)] keeps the first of the smallest. *)
Fixpoint min_datetime (cur : datetime) (rest : list datetime) : datetime :=
  match rest with
  | [] => cur
  | x :: r => min_datetime (if dt_ltb x cur then x else cur) r
  end.

Definition created_by (dated : list (JiraIssue * datetime)) (day : date)
  : list JiraIssue :=
  map fst (filter (fun p => dt_date (snd p) <=? day) dated).

Definition resolved_by (day_end : datetime) (c : JiraIssue) : bool :=
  match resolved c with
  | Some rs => dt_leb rs day_end
  | None => false
  end.

Definition done_by (clk : Clock) (dated : list (JiraIssue * datetime))
                   (day : date) : list JiraIssue :=
  filter (fun c => is_done c && resolved_by (day_end clk day) c)
         (created_by dated day).

Definition total_sp_on (dated : list (JiraIssue * datetime)) (day : date) : Q :=
  sumQ (map (fun c => or_zero (story_points c)) (created_by dated day)).
Definition completed_sp_on (clk : Clock) (dated : list (JiraIssue * datetime))
                           (day : date) : Q :=
  sumQ (map (fun c => or_zero (story_points c)) (done_by clk dated day)).
Definition cum_issues_on (dated : list (JiraIssue * datetime)) (day : date) : Z :=
  len (created_by dated day).
Definition cum_unest_on (dated : list (JiraIssue * datetime)) (day : date) : Z :=
  count (fun c => negb (truthy (story_points c))) (created_by dated day).

(** One turn of the loop body: the five [append]s. *)
Definition append_day (clk : Clock) (dated : list (JiraIssue * datetime))
                      (day : date) (acc : Series) : Series :=
  {| s_dates := s_dates acc ++ [day];
     s_total_sp := s_total_sp acc ++ [total_sp_on dated day];
     s_completed_sp := s_completed_sp acc ++ [completed_sp_on clk dated day];
     s_cum_issues := s_cum_issues acc ++ [cum_issues_on dated day];
     s_cum_unest := s_cum_unest acc ++ [cum_unest_on dated day] |}.

(** [while day <= max_date: ...; day += timedelta(days=1)] *)
Equations? series_loop (clk : Clock) (dated : list (JiraIssue * datetime))
                       (max_date day : date) (acc : Series)
  : Series by wf (Z.to_nat (max_date + 1 - day)) lt :=
  series_loop clk dated max_date day acc with Z_le_dec day max_date => {
    | left _ := series_loop clk dated max_date (day + 1)
                            (append_day clk dated day acc);
    | right _ := acc }.
Proof. lia. Qed.

Definition _build_time_series (clk : Clock) (m : EpicMetrics)
                              (children : list JiraIssue) : EpicMetrics :=
  let dated := dated_children children in
  match dated with
  | [] => m
  | (_, dt0) :: rest =>
      let min_date := dt_date (min_datetime dt0 (map snd rest)) in
      let max_date := today clk in
      if max_date <=? min_date then m
      else
        let s := series_loop clk dated max_date min_date Series_empty in
        {| total_issues := total_issues m;
           completed_issues := completed_issues m;
           open_issues := open_issues m;
           unestimated_issues := unestimated_issues m;
           total_sp := total_sp m;
           completed_sp := completed_sp m;
           remaining_sp := remaining_sp m;
           progress := progress m;
           avg_cycle_time_days := avg_cycle_time_days m;
           velocity_sp_per_week := velocity_sp_per_week m;
           scope_change_pct := scope_change_pct m;
           blocked_issues := blocked_issues m;
           forecast_date := forecast_date m;
           dates := s_dates s;
           total_sp_over_time := s_total_sp s;
           completed_sp_over_time := s_completed_sp s;
           cumulative_issues := s_cum_issues s;
           cumulative_unestimated := s_cum_unest s |}
  end.

(** [str.lower()] on the ASCII letters. *)
Definition lower_ascii (a : ascii) : ascii :=
  let n := nat_of_ascii a in
  if ((65 <=? n) && (n <=? 90))%nat then ascii_of_nat (n + 32) else a.

Fixpoint lower (s : string) : string :=
  match s with
  | EmptyString => EmptyString
  | String a r => String (lower_ascii a) (lower r)
  end.

(** [needle in s] *)
Fixpoint contains (needle s : string) : bool :=
  String.prefix needle s
  || match s with
     | EmptyString => false
     | String _ r => contains needle r
     end.

Definition is_blocked (c : JiraIssue) : bool :=
  contains "blocked" (lower (status c)) && negb (is_done c).

Definition calculate_metrics (clk : Clock) (epic : EpicData) : EpicMetrics :=
  let children := children epic in
  match children with
  | [] => EpicMetrics_default
  | _ :: _ =>
      let total_issues := len children in
      let completed_issues := count is_done children in
      let open_issues := total_issues - completed_issues in
      let unestimated_issues :=
        count (fun c => negb (truthy (story_points c))) children in
      let total_sp :=
        sumQ (map sp_value (filter (fun c => truthy (story_points c)) children)) in
      let completed_sp :=
        sumQ (map sp_value
                (filter (fun c => truthy (story_points c) && is_done c) children)) in
      let remaining_sp := (total_sp - completed_sp)%Q in
      let progress :=
        _progress completed_sp total_sp completed_issues total_issues in
      let avg_cycle_time_days := _avg_cycle_time children in
      let velocity_sp_per_week := _velocity clk children 4 in
      let scope_change_pct := _scope_change children in
      let blocked_issues := count is_blocked children in
      let forecast_date := _forecast clk remaining_sp velocity_sp_per_week in
      _build_time_series clk
        {| total_issues := total_issues;
           completed_issues := completed_issues;
           open_issues := open_issues;
           unestimated_issues := unestimated_issues;
           total_sp := total_sp;
           completed_sp := completed_sp;
           remaining_sp := remaining_sp;
           progress := progress;
           avg_cycle_time_days := avg_cycle_time_days;
           velocity_sp_per_week := velocity_sp_per_week;
           scope_change_pct := scope_change_pct;
           blocked_issues := blocked_issues;
           forecast_date := forecast_date;
           dates := [];
           total_sp_over_time := [];
           completed_sp_over_time := [];
           cumulative_issues := [];
           cumulative_unestimated := [] |}
        children
  end.

(** ** Chart renderer ([core/chart_generator.py]) *)

(** [d.weekday()]: Monday is 0; ordinal 1 is a Monday. *)
Definition weekday (d : date) : Z := (d + 6) mod 7.

(** State of the loop of [_draw_weekend_bands]: the flag, the start of the
    open band and the bands handed to [ax.axvspan] so far. *)
Record BandState : Type := mkBandState {
  in_weekend : bool;
  band_start : option date;
  bands : list (date * date)
}.

Definition band_step (st : BandState) (d : date) : BandState :=
  if 5 <=? weekday d then
    if negb (in_weekend st)
    then {| in_weekend := true; band_start := Some d; bands := bands st |}
    else st
  else
    match in_weekend st, band_start st with
    | true, Some start =>
        {| in_weekend := false; band_start := band_start st;
           bands := bands st ++ [(start, d)] |}
    | _, _ => st
    end.

Definition _draw_weekend_bands (dates : list date) : list (date * date) :=
  match dates with
  | [] => []
  | _ :: _ =>
      let st := fold_left band_step dates (mkBandState false None []) in
      match in_weekend st, band_start st with
      | true, Some start => bands st ++ [(start, last dates 0)]
      | _, _ => bands st
      end
  end.

(** What the function hands to matplotlib before [fig.savefig]. *)
Record Figure : Type := mkFigure {
  fig_dark : bool;
  fig_dpi : Z;
  fig_weekends : list (date * date);
  fig_xs : list date;
  fig_total_sp : list Q;
  fig_done_sp : list Q;
  fig_cum_issues : list Z;
  fig_cum_unest : list Z
}.

(** The eight bytes every PNG stream starts with. *)
Definition PNG_SIGNATURE : list byte :=
  [x89; x50; x4e; x47; x0d; x0a; x1a; x0a].

(** How a call of [generate_epic_chart] ends: it returns, or one of the
    calls of matplotlib raises [ValueError]. *)
Inductive ChartOutcome : Type :=
| ChartReturned (data : option (list byte))
| ChartValueError.

(** Modelled from the spec: matplotlib is not part of the repository, so
    the checks its plotting calls make on their arguments are written
    here after its documentation.  The specification has the series as
    parallel arrays of the length of [dates].
    [ax.fill_between(x, y1)] brings [x] and [y1] to one shape by the
    broadcasting of numpy, for which two lengths go together when they
    are equal or one of them is 1, and raises [ValueError] otherwise. *)
Definition fill_between_accepts {A B : Type} (x : list A) (y1 : list B) : bool :=
  ((length x =? length y1) || (length x =? 1) || (length y1 =? 1))%nat.

(** Modelled from the spec: [ax.step(x, y)] of matplotlib raises
    [ValueError] unless [x] and [y] have the same first dimension. *)
Definition step_accepts {A B : Type} (x : list A) (y : list B) : bool :=
  (length x =? length y)%nat.

Section Chart.

(** matplotlib is not part of the repository: the chunks that
    [fig.savefig(buf, format="png", ...)] writes after the signature are
    a parameter of the model. *)
Variable png_chunks : Figure -> list byte.

(** Modelled from the spec: nothing under [src/] computes the bytes that
    [fig.savefig(buf, format="png", ...)] of matplotlib writes.  The
    specification has the renderer return an encoded raster image byte
    buffer that begins with the magic header of the image format, and
    [tests/test_chart_generator.py] expects the header of PNG: the
    buffer is the signature of PNG followed by the chunks.  The
    resolution is taken to be one that matplotlib renders; the
    repository asks for 150 dpi. *)
Definition savefig_png (fig : Figure) : list byte :=
  PNG_SIGNATURE ++ png_chunks fig.

(** What is plotted: the arguments of the calls between
    [plt.subplots] and [fig.savefig]. *)
Definition chart_figure (metrics : EpicMetrics) (dpi : Z) (dark : bool) : Figure :=
  {| fig_dark := dark;
     fig_dpi := dpi;
     fig_weekends := _draw_weekend_bands (dates metrics);
     fig_xs := dates metrics;
     fig_total_sp := total_sp_over_time metrics;
     fig_done_sp := completed_sp_over_time metrics;
     fig_cum_issues := cumulative_issues metrics;
     fig_cum_unest := cumulative_unestimated metrics |}.

(** The value [generate_epic_chart] returns where it returns: [None] on
    the guard of empty [dates], and otherwise the bytes read back from
    the buffer.  Whether the calls of matplotlib in between raise is
    told by [generate_epic_chart_outcome]. *)
Definition generate_epic_chart (metrics : EpicMetrics) (dpi : Z) (dark : bool)
  : option (list byte) :=
  match dates metrics with
  | [] => None
  | _ :: _ =>
      let fig :=
        {| fig_dark := dark;
           fig_dpi := dpi;
           fig_weekends := _draw_weekend_bands (dates metrics);
           fig_xs := dates metrics;
           fig_total_sp := total_sp_over_time metrics;
           fig_done_sp := completed_sp_over_time metrics;
           fig_cum_issues := cumulative_issues metrics;
           fig_cum_unest := cumulative_unestimated metrics |} in
      Some (savefig_png fig)
  end.

(** [generate_epic_chart] with the calls of matplotlib in the order of
    the code: the guard, the two filled areas, the two step lines, and
    the image read back from the buffer. *)
Definition generate_epic_chart_outcome (metrics : EpicMetrics) (dpi : Z)
                                       (dark : bool) : ChartOutcome :=
  match dates metrics with
  | [] => ChartReturned None
  | _ :: _ =>
      let dates := dates metrics in
      if negb (fill_between_accepts dates (total_sp_over_time metrics))
      then ChartValueError
      else if negb (fill_between_accepts dates (completed_sp_over_time metrics))
      then ChartValueError
      else if negb (step_accepts dates (cumulative_issues metrics))
      then ChartValueError
      else if negb (step_accepts dates (cumulative_unestimated metrics))
      then ChartValueError
      else ChartReturned (Some (savefig_png (chart_figure metrics dpi dark)))
  end.

End Chart.

(** ** Document renderer: the sidebar of an Epic page
       ([core/pdf_generator.py]) *)

Definition _MONTHS_FULL : list string :=
  ["January"; "February"; "March"; "April"; "May"; "June";
   "July"; "August"; "September"; "October"; "November"; "December"]%string.

Definition _MONTHS_ABBR : list string :=
  ["Jan"; "Feb"; "Mar"; "Apr"; "May"; "Jun";
   "Jul"; "Aug"; "Sep"; "Oct"; "Nov"; "Dec"]%string.

Definition _DAYS_IN_MONTH : list Z := [31; 28; 31; 30; 31; 30; 31; 31; 30; 31; 30; 31].

Definition is_leap (y : Z) : bool :=
  (y mod 4 =? 0) && (negb (y mod 100 =? 0) || (y mod 400 =? 0)).

Definition days_in_month (y m : Z) : Z :=
  if (m =? 2) && is_leap y then 29
  else nth (Z.to_nat (m - 1)) _DAYS_IN_MONTH 0.

(** Walk the months of a year: [n] is the zero-based day of the year. *)
Fixpoint month_day (fuel : nat) (y m n : Z) : Z * Z :=
  match fuel with
  | O => (m, n + 1)
  | S k => let dim := days_in_month y m in
           if n <? dim then (m, n + 1) else month_day k y (m + 1) (n - dim)
  end.

(** [(d.year, d.month, d.day)] of an ordinal. *)
Definition ymd (d : date) : Z * Z * Z :=
  let n := d - 1 in
  let n400 := n / 146097 in
  let n := n mod 146097 in
  let n100 := n / 36524 in
  let n := n mod 36524 in
  let n4 := n / 1461 in
  let n := n mod 1461 in
  let n1 := n / 365 in
  let n := n mod 365 in
  let year := n400 * 400 + 1 + n100 * 100 + n4 * 4 + n1 in
  if (n1 =? 4) || (n100 =? 4) then (year - 1, 12, 31)
  else let '(m, dd) := month_day 11 year 1 n in (year, m, dd).

Definition str_int (z : Z) : string := NilZero.string_of_int (Z.to_int z).

Fixpoint zeros (n : nat) : string :=
  match n with
  | O => EmptyString
  | S k => String "0" (zeros k)
  end.

(** Decimal digits of a natural number, at least [width] of them. *)
Definition zero_padded (width : nat) (z : Z) : string :=
  let s := str_int z in
  (zeros (width - String.length s) ++ s)%string.

(** [s.replace(old, new)] for a two-character [old]. *)
Fixpoint replace2 (a b : ascii) (new s : string) : string :=
  match s with
  | String x (String y r as t) =>
      if Ascii.eqb x a && Ascii.eqb y b
      then (new ++ replace2 a b new r)%string
      else String x (replace2 a b new t)
  | _ => s
  end.

(** [d.strftime(fmt)] for the directives the repository uses, [%d] and
    [%Y], and the escape [%%]; any other text is copied. *)
Fixpoint strftime (d : date) (fmt : string) : string :=
  match fmt with
  | String "%" (String c r as t) =>
      let '(y, _, dd) := ymd d in
      if Ascii.eqb c "d" then (zero_padded 2 dd ++ strftime d r)%string
      else if Ascii.eqb c "Y" then (zero_padded 4 y ++ strftime d r)%string
      else if Ascii.eqb c "%" then String "%" (strftime d r)
      else String "%" (strftime d t)
  | String x r => String x (strftime d r)
  | EmptyString => EmptyString
  end.

Definition month_of (d : date) : Z := snd (fst (ymd d)).

Definition _fmt_date (d : date) (fmt : string) : string :=
  let result :=
    replace2 "%" "B" (nth (Z.to_nat (month_of d - 1)) _MONTHS_FULL EmptyString) fmt in
  let result :=
    replace2 "%" "b" (nth (Z.to_nat (month_of d - 1)) _MONTHS_ABBR EmptyString) result in
  strftime d result.

(** [f"{x:.Nf}"]: the nearest decimal with [prec] places, ties to even. *)
Definition format_fixed (prec : nat) (x : Q) : string :=
  let scaled := round_half_even (Qabs x * inject_Z (10 ^ Z.of_nat prec)) in
  let digits := zero_padded (S prec) scaled in
  let cut := (String.length digits - prec)%nat in
  let whole := String.substring 0 cut digits in
  let frac := String.substring cut prec digits in
  let sign := if Qltb x 0 then "-"%string else EmptyString in
  match prec with
  | O => (sign ++ whole)%string
  | S _ => (sign ++ whole ++ "." ++ frac)%string
  end.

(** A cell of a table: a [Paragraph(text, styles[style])] or a bare
    string. *)
Inductive Cell : Type :=
| Paragraph (text : string) (style : string)
| Plain (text : string).

Definition metric_row (label value : string) : list Cell :=
  [Paragraph label "metric_label"; Paragraph value "metric_value"].

(** The rows of [_build_summary_box]; the [TableStyle] commands, which
    only colour and pad the cells, are left out. *)
Definition _build_summary_box (metrics : EpicMetrics) : list (list Cell) :=
  [ [Paragraph "<b>Summary</b>" "section_heading"; Plain EmptyString];
    metric_row "Total Issues" (str_int (total_issues metrics));
    metric_row "Completed" (str_int (completed_issues metrics));
    metric_row "Open" (str_int (open_issues metrics));
    metric_row "Unestimated" (str_int (unestimated_issues metrics));
    metric_row "Total SP" (format_fixed 0 (total_sp metrics));
    metric_row "Done SP" (format_fixed 0 (completed_sp metrics));
    metric_row "Remaining SP" (format_fixed 0 (remaining_sp metrics));
    metric_row "Avg Cycle Time"
      (* [... if metrics.avg_cycle_time_days else "N/A"]: a truth test *)
      (match avg_cycle_time_days metrics with
       | Some x => if Qeq_bool x 0 then "N/A"%string
                   else (format_fixed 1 x ++ " days")%string
       | None => "N/A"%string
       end);
    [Paragraph "<b>Additional</b>" "section_heading"; Plain EmptyString];
    metric_row "Velocity (4wk)"
      (* [... if metrics.velocity_sp_per_week else "N/A"]: a truth test *)
      (match velocity_sp_per_week metrics with
       | Some x => if Qeq_bool x 0 then "N/A"%string
                   else (format_fixed 1 x ++ " SP/wk")%string
       | None => "N/A"%string
       end);
    metric_row "Scope Change"
      (* [... if metrics.scope_change_pct is not None else "N/A"] *)
      (match scope_change_pct metrics with
       | Some x => (format_fixed 0 x ++ "%")%string
       | None => "N/A"%string
       end);
    metric_row "Blocked" (str_int (blocked_issues metrics));
    metric_row "Forecast"
      (* [... if metrics.forecast_date else "N/A"]: a date is always true *)
      (match forecast_date metrics with
       | Some d => _fmt_date d "%b %d, %Y"
       | None => "N/A"%string
       end) ].

(** ** Vocabulary of the specification *)

(** [clamp(x, lo, hi)]: [x] cut to the interval from [lo] to [hi]. *)
Definition clamp (x lo hi : Q) : Q :=
  if Qltb x lo then lo else if Qltb hi x then hi else x.

(** The days [day], [day + 1], ..., [max_date], in order. *)
Definition day_range (day max_date : date) : list date :=
  map (fun i => day + Z.of_nat i) (seq 0 (Z.to_nat (max_date + 1 - day))).

(** Each entry of a list is at most the next one. *)
Definition nondecreasing {A : Type} (le : A -> A -> Prop) (l : list A) : Prop :=
  forall (i : nat) (x y : A),
    nth_error l i = Some x -> nth_error l (S i) = Some y -> le x y.

(** Story points are never negative (the data model of the Issue). *)
Definition nonnegative_points (cs : list JiraIssue) : Prop :=
  forall c q, In c cs -> story_points c = Some q -> (0 <= q)%Q.

(** The local zone never puts the end of a day before the end of the
    day before. *)
Definition day_ends_ordered (clk : Clock) : Prop :=
  forall d : date, instant (day_end clk d) <= instant (day_end clk (d + 1)).



(** The number of instants more than seven days after [t0]. *)
Definition created_later (t0 : Z) (times : list Z) : Z :=
  count (fun t => t0 + 7 * US_PER_DAY <? t) times.

(** The issue carries a [created] timestamp. *)
Definition has_created (c : JiraIssue) : bool :=
  match created c with Some _ => true | None => false end.

(** The issue was created more than seven days after the instant [t0]. *)
Definition created_after_week (t0 : Z) (c : JiraIssue) : bool :=
  match created c with
  | Some dt => t0 + 7 * US_PER_DAY <? instant dt
  | None => false
  end.

(** The invariant of [EpicMetrics]: the four series are parallel to
    [dates]. *)
Definition parallel_series (m : EpicMetrics) : Prop :=
  length (total_sp_over_time m) = length (dates m) /\
  length (completed_sp_over_time m) = length (dates m) /\
  length (cumulative_issues m) = length (dates m) /\
  length (cumulative_unestimated m) = length (dates m).


(** The head of a list is no later than any of its elements. *)
Definition head_earliest (l : list (JiraIssue * datetime)) : Prop :=
  match l with
  | [] => True
  | q :: _ => Forall (fun x => instant (snd q) <= instant (snd x)) l
  end.

(** ** Sample data, after [tests/test_metrics.py] *)

Module Sample.

(** Noon UTC of the day with ordinal [d]. *)
Definition noon (d : date) : datetime :=
  {| wall := d * US_PER_DAY + 12 * 3600 * US_PER_SECOND; utcoffset := 0 |}.

(** 3 November 2026. *)
Definition day0 : date := 739923.

(** A clock read at noon UTC of [day0] on a machine set to UTC. *)
Definition clock : Clock :=
  {| now := noon day0; today := day0; local_utcoffset := fun _ => 0 |}.

(** [_make_issue]; [created] defaults to ten days before now. *)
Definition make_issue (k cat : string) (sp : option Q)
                      (cr rs : option datetime) : JiraIssue :=
  {| key := k;
     summary := "Issue " ++ k;
     status := if (cat =? "Done")%string then "Done" else "Open";
     status_category := cat;
     resolution := if (cat =? "Done")%string then Some "Done"%string else None;
     issue_type := "Story";
     story_points := sp;
     created := match cr with Some _ => cr | None => Some (noon (day0 - 10)) end;
     resolved := rs;
     assignee := Some "Test User"%string |}.

(** [_make_epic] *)
Definition make_epic (cs : list JiraIssue) : EpicData :=
  {| epic_key := "PROJ-100";
     epic_summary := "Test Epic";
     epic_status := "In Progress";
     epic_priority := Some "Medium"%string;
     epic_assignee := Some "Owner"%string;
     epic_reporter := Some "Reporter"%string;
     epic_created := Some (noon (day0 - 30));
     epic_updated := Some (noon day0);
     labels := [];
     fix_versions := [];
     children := cs |}.

(** [test_partial_progress]: one of two five-point issues is done. *)
Definition partial : EpicData :=
  make_epic [ make_issue "T-1" "Done" (Some 5%Q) None (Some (noon day0));
              make_issue "T-2" "To Do" (Some 5%Q) None None ].

(** A done five-point issue and an open eight-point one. *)
Definition five_of_thirteen : EpicData :=
  make_epic [ make_issue "T-1" "Done" (Some 5%Q) None (Some (noon (day0 - 1)));
              make_issue "T-2" "In Progress" (Some 8%Q)
                         (Some (noon (day0 - 5))) None ].

(** A first issue, one added twelve days later and one without a
    creation time. *)
Definition grown : EpicData :=
  make_epic [ make_issue "T-1" "To Do" (Some 3%Q) (Some (noon (day0 - 20))) None;
              make_issue "T-2" "To Do" (Some 2%Q) (Some (noon (day0 - 8))) None;
              {| key := "T-3"; summary := "Issue T-3"; status := "Open";
                 status_category := "To Do"; resolution := None;
                 issue_type := "Story"; story_points := None;
                 created := None; resolved := None; assignee := None |} ].

(** One issue, done, resolved at the instant of its creation. *)
Definition resolved_at_creation : EpicData :=
  make_epic [ make_issue "T-1" "Done" (Some 3%Q)
                         (Some (noon (day0 - 3))) (Some (noon (day0 - 3))) ].

End Sample.

(** ** Vocabulary of the further properties *)

(** An issue enters the cycle time: it is ["Done"] and carries both of
    its timestamps. *)
Definition has_cycle_time (c : JiraIssue) : Prop :=
  is_done c = true /\ created c <> None /\ resolved c <> None.

(** Two issues created at noon of the day of the sample clock. *)
Definition Sample_created_today : EpicData :=
  Sample.make_epic
    [ Sample.make_issue "T-1" "To Do" (Some 3%Q)
                        (Some (Sample.noon Sample.day0)) None;
      Sample.make_issue "T-2" "Done" (Some 2%Q)
                        (Some (Sample.noon Sample.day0))
                        (Some (Sample.noon Sample.day0)) ].

(** A five-point issue created three days ago, and one created the day
    before today whose estimate is minus three ([_fetch_children] takes
    [float(sp_val)] of whatever the story-points field holds). *)
Definition Sample_negative_points : EpicData :=
  Sample.make_epic
    [ Sample.make_issue "T-1" "To Do" (Some 5%Q)
                        (Some (Sample.noon (Sample.day0 - 3))) None;
      Sample.make_issue "T-2" "To Do" (Some (-3)%Q)
                        (Some (Sample.noon (Sample.day0 - 1))) None ].

(** A clock whose local zone is twenty hours behind UTC up to yesterday
    and twenty hours ahead of it from today on: the end of today comes
    sixteen hours before the end of yesterday. *)
Definition Sample_disordered_clock : Clock :=
  {| now := Sample.noon Sample.day0;
     today := Sample.day0;
     local_utcoffset := fun w =>
       if w <? Sample.day0 * US_PER_DAY
       then - (20 * 3600 * US_PER_SECOND)
       else 20 * 3600 * US_PER_SECOND |}.

(** A five-point issue created three days ago and done at noon today. *)
Definition Sample_done_today : EpicData :=
  Sample.make_epic
    [ Sample.make_issue "T-1" "Done" (Some 5%Q)
                        (Some (Sample.noon (Sample.day0 - 3)))
                        (Some (Sample.noon Sample.day0)) ].

(** An [EpicMetrics] built by hand with two dates and no entry in any of
    the four series. *)
Definition Sample_dates_only : EpicMetrics :=
  {| total_issues := 0;
     completed_issues := 0;
     open_issues := 0;
     unestimated_issues := 0;
     total_sp := 0%Q;
     completed_sp := 0%Q;
     remaining_sp := 0%Q;
     progress := 0%Q;
     avg_cycle_time_days := None;
     velocity_sp_per_week := None;
     scope_change_pct := None;
     blocked_issues := 0;
     forecast_date := None;
     dates := [Sample.day0 - 1; Sample.day0];
     total_sp_over_time := [];
     completed_sp_over_time := [];
     cumulative_issues := [];
     cumulative_unestimated := [] |}.

(** Every child carries a creation time, and none lies after today. *)
Definition all_created_by_today (clk : Clock) (cs : list JiraIssue) : Prop :=
  forall c, In c cs -> exists dt, created c = Some dt /\ dt_date dt <= today clk.

(** Every ["Done"] child carries a resolution time that is not after the
    end of today. *)
Definition all_done_resolved_by_today (clk : Clock) (cs : list JiraIssue) : Prop :=
  forall c, In c cs -> is_done c = true ->
            resolved_by (day_end clk (today clk)) c = true.

(** What holds of the state of the loop of [_draw_weekend_bands] once the
    consecutive days from [a] to [d - 1] have been seen: the closed bands
    start on a weekend day and end on the Monday after it, an open band
    started on the last day seen or the day before, and every weekend day
    seen is inside a closed band or the open one. *)
Definition bands_invariant (a d : date) (st : BandState) : Prop :=
  (forall s e, In (s, e) (bands st) ->
     a <= s /\ s < e /\ e <= d - 1 /\ e <= s + 2 /\
     5 <= weekday s /\ weekday e = 0) /\
  (in_weekend st = true ->
     exists s, band_start st = Some s /\ a <= s /\ s <= d - 1 /\ d - 1 <= s + 1 /\
               5 <= weekday s /\ 5 <= weekday (d - 1)) /\
  (in_weekend st = false -> d - 1 < a \/ weekday (d - 1) < 5) /\
  (forall x, a <= x <= d - 1 -> 5 <= weekday x ->
     (exists s e, In (s, e) (bands st) /\ s <= x <= e) \/
     (in_weekend st = true /\ exists s, band_start st = Some s /\ s <= x)).

(** ** Document renderer: the story of a report ([core/pdf_generator.py])

    A Python [str] is a Coq [string], one character a code point; the
    three characters outside ASCII that the code writes are given by
    their UTF-8 bytes.  Lengths in millimetres are kept as numbers of
    millimetres and column widths as fractions of the available width.
    reportlab is not part of the repository: the model ends with the
    story handed to [doc.build], and [Color.hexval] is a parameter. *)

Record ReportConfig : Type := mkReportConfig {
  project_key : string;
  epic_keys : list string;
  title : string;
  author : string;
  project_display_name : string;
  report_date : date;
  confidential : bool;
  company_name : string;
  story_points_field : string;
  epic_link_field : string;
  dark_mode : bool
}.

Record ReportData : Type := mkReportData {
  config : ReportConfig;
  epics : list EpicData;
  metrics : list EpicMetrics;
  errors : list string
}.

(** [ReportData(config=config)]: the three lists start empty. *)
Definition ReportData_new (cfg : ReportConfig) : ReportData :=
  {| config := cfg; epics := []; metrics := []; errors := [] |}.

Definition DQUOTE : string := String (ascii_of_nat 34) EmptyString.

(** U+2014, U+2588 and U+2591. *)
Definition EM_DASH : string :=
  String (ascii_of_nat 226) (String (ascii_of_nat 128)
    (String (ascii_of_nat 148) EmptyString)).
Definition FULL_BLOCK : string :=
  String (ascii_of_nat 226) (String (ascii_of_nat 150)
    (String (ascii_of_nat 136) EmptyString)).
Definition LIGHT_SHADE : string :=
  String (ascii_of_nat 226) (String (ascii_of_nat 150)
    (String (ascii_of_nat 145) EmptyString)).

(** Truth value of a [str]. *)
Definition nonempty (s : string) : bool :=
  match s with EmptyString => false | String _ _ => true end.

(** [s * n]: nothing for [n <= 0]. *)
Definition str_mul (s : string) (n : Z) : string :=
  String.concat EmptyString (repeat s (Z.to_nat n)).

(** [int(x)] of a float: the fraction is dropped. *)
Definition int_of_float (x : Q) : Z :=
  if Qle_bool 0 x then Qfloor x else Qceiling x.

(** The two palettes, each colour by the text it is built from. *)
Definition _LIGHT_PALETTE : list (string * string) :=
  [ ("accent", "#0052CC"); ("text", "#172B4D"); ("muted", "#6B778C");
    ("bg", "white"); ("surface", "#F4F5F7"); ("green", "#36B37E");
    ("yellow", "#FFAB00"); ("red", "#DE350B"); ("row_alt", "#F8F9FA");
    ("grid", "#DFE1E6"); ("header_text", "white") ]%string.

Definition _DARK_PALETTE : list (string * string) :=
  [ ("accent", "#2979FF"); ("text", "#E0E0E0"); ("muted", "#90A4AE");
    ("bg", "#1E1E1E"); ("surface", "#263238"); ("green", "#66BB6A");
    ("yellow", "#FFA726"); ("red", "#EF5350"); ("row_alt", "#252525");
    ("grid", "#37474F"); ("header_text", "white") ]%string.

(** [pal[k]]; every key the code looks up is in both palettes. *)
Fixpoint pal_get (pal : list (string * string)) (k : string) : string :=
  match pal with
  | [] => EmptyString
  | (k', v) :: r => if (k =? k')%string then v else pal_get r k
  end.

(** A [TableStyle] command: its name, the two corner cells as
    [(column, row)] and its further arguments. *)
Record StyleCmd : Type := mkStyleCmd {
  cmd_name : string;
  cmd_from : Z * Z;
  cmd_to : Z * Z;
  cmd_args : list string
}.

(** What a table cell can hold. *)
Inductive TableCell : Type :=
| CellParagraph (text style : string)
| CellText (text : string)
| CellImage (png : list byte) (width_mm height_mm : Z)
| CellBox (rows : list (list Cell)).

(** The flowables of the story. *)
Inductive Flowable : Type :=
| Spacer (width : Z) (height_mm : Z)
| Para (text style : string)
| PageBreak
| Table (rows : list (list TableCell)) (colWidths : list Q) (repeatRows : Z)
        (style : list StyleCmd).

(** [epic.summary[:80] + ("..." if len(epic.summary) > 80 else "")] *)
Definition summary_text (s : string) : string :=
  (String.substring 0 80 s
   ++ (if (80 <? String.length s)%nat then "..." else EmptyString))%string.

Definition progress_colour_key (pct : Q) : string :=
  if Qle_bool 75 pct then "green"
  else if Qle_bool 25 pct then "yellow"
  else "red".

Definition bar_len (pct : Q) : Z := Z.max 1 (int_of_float (pct / 5)).

Definition progress_bar (pct : Q) : string :=
  (str_mul FULL_BLOCK (bar_len pct)
   ++ str_mul LIGHT_SHADE (20 - bar_len pct))%string.

(** The style commands that shade every second data row:
    [for i in range(1, n): if i % 2 == 0: ...]. *)
Definition alternate_rows (n : nat) (colour : string) : list StyleCmd :=
  flat_map (fun i =>
              if (Z.of_nat i mod 2 =? 0)
              then [mkStyleCmd "BACKGROUND" (0, Z.of_nat i) (-1, Z.of_nat i) [colour]]
              else [])
           (seq 1 (n - 1)).

Section Document.

Variable png_chunks : Figure -> list byte.

(** [colour.hexval()] of reportlab. *)
Variable hexval : string -> string.

Definition _progress_bar_para (pct : Q) (pal : list (string * string))
  : TableCell :=
  let hex_colour := hexval (pal_get pal (progress_colour_key pct)) in
  CellParagraph
    ("<font color=" ++ DQUOTE ++ hex_colour ++ DQUOTE ++ " size=" ++ DQUOTE
     ++ "8" ++ DQUOTE ++ ">" ++ progress_bar pct ++ "</font> "
     ++ "<font size=" ++ DQUOTE ++ "9" ++ DQUOTE ++ "><b>"
     ++ format_fixed 0 pct ++ "%</b></font>")%string
    "cell".

Definition _add_title_page (story : list Flowable) (cfg : ReportConfig)
  : list Flowable :=
  let story := story ++ [Spacer 1 60; Para (title cfg) "title"; Spacer 1 8] in
  let story :=
    if nonempty (project_display_name cfg)
    then story ++ [Para (project_display_name cfg) "subtitle"; Spacer 1 4]
    else story in
  let story :=
    story ++ [Para (_fmt_date (report_date cfg) "%B %d, %Y") "subtitle"] in
  let story :=
    if nonempty (author cfg)
    then story ++ [Spacer 1 3; Para ("Prepared by " ++ author cfg) "subtitle"]
    else story in
  if confidential cfg && nonempty (company_name cfg)
  then story ++ [Spacer 1 30;
                 Para ("CONFIDENTIAL " ++ EM_DASH
                       ++ " This document is the property of "
                       ++ company_name cfg ++ " "
                       ++ "and is intended solely for the use of the intended recipient(s). "
                       ++ "Unauthorized distribution is prohibited.")%string
                      "confidential"]
  else story.

Definition summary_headers : list string :=
  ["Epic Key"; "Summary"; "Progress"; "Status";
   "Total"; "Done"; "Unest."; "Total SP"; "Done SP"; "Assignee"]%string.

(** One data row of the summary table. *)
Definition summary_row (pal : list (string * string))
                       (em : EpicData * EpicMetrics) : list TableCell :=
  let '(epic, m) := em in
  [ CellParagraph (epic_key epic) "cell";
    CellParagraph (summary_text (epic_summary epic)) "cell";
    _progress_bar_para (progress m) pal;
    CellParagraph (epic_status epic) "cell";
    CellParagraph (str_int (total_issues m)) "cell_right";
    CellParagraph (str_int (completed_issues m)) "cell_right";
    CellParagraph (str_int (unestimated_issues m)) "cell_right";
    CellParagraph (format_fixed 0 (total_sp m)) "cell_right";
    CellParagraph (format_fixed 0 (completed_sp m)) "cell_right";
    CellParagraph (match epic_assignee epic with
                   | Some a => if nonempty a then a else "Unassigned"
                   | None => "Unassigned"
                   end)%string "cell" ].

(** The rows of the summary table: the header and one row for each pair
    of [zip(report.epics, report.metrics)]. *)
Definition summary_table_data (report : ReportData)
                              (pal : list (string * string))
  : list (list TableCell) :=
  map (fun h => CellParagraph ("<b>" ++ h ++ "</b>") "cell_header") summary_headers
  :: map (summary_row pal) (combine (epics report) (metrics report)).

Definition summary_table_style (n : nat) (pal : list (string * string))
  : list StyleCmd :=
  [ mkStyleCmd "BACKGROUND" (0, 0) (-1, 0) [pal_get pal "accent"];
    mkStyleCmd "TEXTCOLOR" (0, 0) (-1, 0) [pal_get pal "header_text"];
    mkStyleCmd "FONTSIZE" (0, 0) (-1, 0) ["9"];
    mkStyleCmd "BOTTOMPADDING" (0, 0) (-1, 0) ["6"];
    mkStyleCmd "TOPPADDING" (0, 0) (-1, 0) ["6"];
    mkStyleCmd "GRID" (0, 0) (-1, -1) ["0.25"; pal_get pal "grid"];
    mkStyleCmd "VALIGN" (0, 0) (-1, -1) ["MIDDLE"];
    mkStyleCmd "LEFTPADDING" (0, 0) (-1, -1) ["4"];
    mkStyleCmd "RIGHTPADDING" (0, 0) (-1, -1) ["4"];
    mkStyleCmd "TOPPADDING" (0, 1) (-1, -1) ["4"];
    mkStyleCmd "BOTTOMPADDING" (0, 1) (-1, -1) ["4"] ]%string
  ++ alternate_rows n (pal_get pal "row_alt").

Definition _add_summary_table (story : list Flowable) (report : ReportData)
                              (pal : list (string * string)) : list Flowable :=
  let table_data := summary_table_data report pal in
  story
  ++ [ Para "Epic Progress Summary" "heading";
       Spacer 1 4;
       Table table_data
             [8 # 100; 22 # 100; 12 # 100; 9 # 100; 6 # 100; 6 # 100; 6 # 100;
              8 # 100; 8 # 100; 12 # 100]%Q
             1
             (summary_table_style (length table_data) pal) ].

(** The chart cell, where the call of [generate_epic_chart] returns; an
    exception of matplotlib would end [generate_pdf] with it. *)
Definition _build_chart_image (m : EpicMetrics) (dark : bool) : option TableCell :=
  match generate_epic_chart png_chunks m 150 dark with
  | None => None
  | Some [] => None
  | Some png => Some (CellImage png 240 120)
  end.

Definition _add_epic_page (story : list Flowable) (epic : EpicData)
                          (m : EpicMetrics) (pal : list (string * string))
                          (dark : bool) : list Flowable :=
  let accent_hex := hexval (pal_get pal "accent") in
  let chart_img := _build_chart_image m dark in
  let summary_tbl := _build_summary_box m in
  let cols :=
    [ match chart_img with
      | Some img => img
      | None => CellParagraph "<i>No chart data available</i>" "small"
      end;
      CellText EmptyString;
      CellBox summary_tbl ] in
  story
  ++ [ Para ("<font color=" ++ DQUOTE ++ accent_hex ++ DQUOTE ++ ">"
             ++ epic_key epic ++ "</font> " ++ EM_DASH ++ " "
             ++ epic_summary epic)%string "heading";
       Para ("Status: <b>" ++ epic_status epic ++ "</b>")%string "body";
       Spacer 1 4;
       Table [cols] [62 # 100; 3 # 100; 35 # 100]%Q 0
             [mkStyleCmd "VALIGN" (0, 0) (-1, -1) ["TOP"%string]] ].

(** The story [generate_pdf] hands to [doc.build]. *)
Definition generate_pdf_story (report : ReportData) : list Flowable :=
  let dark := dark_mode (config report) in
  let pal := if dark then _DARK_PALETTE else _LIGHT_PALETTE in
  let story := _add_title_page [] (config report) in
  let story := story ++ [PageBreak] in
  let story := _add_summary_table story report pal in
  fold_left (fun story em =>
               _add_epic_page (story ++ [PageBreak]) (fst em) (snd em) pal dark)
            (combine (epics report) (metrics report))
            story.

End Document.

(** ** The report run ([ui/preview_panel.py], [_GenerateWorker.run])

    The Jira client is outside the model: what [fetch_epic] returns for
    a key during the run is a parameter.  The progress signals, which
    only drive the progress bar, are left out. *)

Section Worker.

Variable fetch_epic : string -> string -> string -> option EpicData.

Definition run_step (clk : Clock) (report : ReportData) (k : string)
  : ReportData :=
  match fetch_epic k (story_points_field (config report))
                   (epic_link_field (config report)) with
  | None =>
      {| config := config report;
         epics := epics report;
         metrics := metrics report;
         errors := errors report
                   ++ [("Epic " ++ k ++ " not found. Check the key and try again.")%string] |}
  | Some epic =>
      {| config := config report;
         epics := epics report ++ [epic];
         metrics := metrics report ++ [calculate_metrics clk epic];
         errors := errors report |}
  end.

Definition run (clk : Clock) (cfg : ReportConfig) : ReportData :=
  fold_left (run_step clk) (epic_keys cfg) (ReportData_new cfg).

End Worker.

(** ** Searching Jira ([core/jira_client.py])

    The server is outside the model: a search is given by the outcome
    of each call of [search_issues] it makes, and the seconds passed to
    [time.sleep] are collected. *)

Definition _MAX_RESULTS : Z := 100.
Definition _MAX_RETRIES : nat := 4.
Definition _BACKOFF_BASE : Q := 1.

Section Search.

Variable Raw : Type.

(** What one call of [search_issues] does. *)
Inductive CallOutcome : Type :=
| Found (results : list Raw)
| JIRAError (status_code : Z).

(** How a search ends. *)
Inductive SearchResult : Type :=
| Returned (results : list Raw)
| Raised (status_code : Z).

Record RetryRun : Type := mkRetryRun {
  outcome : SearchResult;
  slept : list Q;
  calls : nat
}.

(** [for attempt in range(_MAX_RETRIES): ...]; [server k] is the outcome
    of call number [k]. *)
Fixpoint retry_loop (server : nat -> CallOutcome) (left : nat)
                    (attempt : nat) (slept : list Q) : RetryRun :=
  match left with
  | O => mkRetryRun (Returned []) slept attempt
  | S left' =>
      match server attempt with
      | Found results => mkRetryRun (Returned results) slept (S attempt)
      | JIRAError code =>
          if (code =? 429) && (attempt <? _MAX_RETRIES - 1)%nat
          then retry_loop server left' (S attempt)
                          (slept ++ [_BACKOFF_BASE * inject_Z (2 ^ Z.of_nat attempt)]%Q)
          else mkRetryRun (Raised code) slept (S attempt)
      end
  end.

Definition _search_with_retry (server : nat -> CallOutcome) : RetryRun :=
  retry_loop server _MAX_RETRIES 0 [].

(** How [_fetch_children] ends; the loop has no bound of its own, so the
    model counts the pages it may still ask for. *)
Inductive Fetched : Type :=
| Children (issues : list JiraIssue)
| FetchRaised (status_code : Z)
| OutOfFuel.

(** The construction of a [JiraIssue] from a raw issue reads attributes
    of objects of the jira library and parses dates with dateutil; it is
    a parameter. *)
Variable to_issue : Raw -> JiraIssue.

(** [while True: ...]; [search start] is how [_search_with_retry] ends
    for the page that starts at [start]. *)
Fixpoint fetch_pages (search : Z -> SearchResult) (fuel : nat) (start : Z)
                     (children : list JiraIssue) : Fetched :=
  match fuel with
  | O => OutOfFuel
  | S fuel' =>
      match search start with
      | Raised code => FetchRaised code
      | Returned [] => Children children
      | Returned results =>
          let children := children ++ map to_issue results in
          if len results <? _MAX_RESULTS then Children children
          else fetch_pages search fuel' (start + _MAX_RESULTS) children
      end
  end.

Definition _fetch_children (search : Z -> SearchResult) (fuel : nat) : Fetched :=
  fetch_pages search fuel 0 [].

(** A server that holds the issues [all] and answers a search with the
    page of at most [_MAX_RESULTS] of them that starts at [start]. *)
Definition paged (all : list Raw) (start : Z) : SearchResult :=
  Returned (firstn (Z.to_nat _MAX_RESULTS) (skipn (Z.to_nat start) all)).

End Search.

Arguments Found {Raw} results.
Arguments JIRAError {Raw} status_code.
Arguments Returned {Raw} results.
Arguments Raised {Raw} status_code.
Arguments outcome {Raw} r.
Arguments slept {Raw} r.
Arguments calls {Raw} r.
Arguments _search_with_retry {Raw} server.
Arguments _fetch_children {Raw} to_issue search fuel.
Arguments fetch_pages {Raw} to_issue search fuel start children.
Arguments paged {Raw} all start.

(** The number of page breaks in a story. *)
Definition page_breaks (story : list Flowable) : nat :=
  length (filter (fun f => match f with PageBreak => true | _ => false end) story).

(** The tables of a story that lay out an Epic page: one row of three
    cells that ends with the sidebar. *)
Definition is_epic_layout (f : Flowable) : bool :=
  match f with
  | Table [[_; _; CellBox _]] _ _ _ => true
  | _ => false
  end.

(** The tables of a story that lay out an Epic page, counted. *)
Definition epic_layouts (story : list Flowable) : nat :=
  length (filter is_epic_layout story).

(** The cell shown where there is no chart. *)
Definition NO_CHART : TableCell :=
  CellParagraph "<i>No chart data available</i>" "small".

(** The message of the run for a key that was not found. *)
Definition not_found_message (k : string) : string :=
  ("Epic " ++ k ++ " not found. Check the key and try again.")%string.

(** * Properties *)

(** ** Rationals and sums *)

Lemma Qltb_lt (a b : Q) : Qltb a b = true <-> (a < b)%Q.
Proof.
  unfold Qltb. rewrite negb_true_iff. split; intro H.
  - apply Qnot_le_lt. intro Hle. apply Qle_bool_iff in Hle. congruence.
  - destruct (Qle_bool b a) eqn:E; [|reflexivity].
    apply Qle_bool_iff in E. lra.
Qed.

Lemma Qltb_ge (a b : Q) : Qltb a b = false <-> (b <= a)%Q.
Proof.
  unfold Qltb. rewrite negb_false_iff. apply Qle_bool_iff.
Qed.

Lemma fold_left_Qplus_shift (l : list Q) (a : Q) :
  (fold_left Qplus l a == a + fold_left Qplus l 0)%Q.
Proof.
  revert a. induction l as [|x l IH]; intro a; simpl.
  - lra.
  - rewrite (IH (a + x)%Q), (IH (0 + x)%Q). lra.
Qed.

Lemma sumQ_cons (x : Q) (l : list Q) : (sumQ (x :: l) == x + sumQ l)%Q.
Proof.
  unfold sumQ. simpl. rewrite fold_left_Qplus_shift. lra.
Qed.

Lemma sumQ_nil : sumQ [] = 0%Q.
Proof. reflexivity. Qed.

(** Split on the comparisons a term branches on and read each outcome as
    an inequality. *)
Ltac Qcases :=
  repeat match goal with
         | |- context [if Qltb ?a ?b then _ else _] =>
             lazymatch a with context [if _ then _ else _] => fail | _ => idtac end;
             lazymatch b with context [if _ then _ else _] => fail | _ => idtac end;
             let E := fresh "E" in
             destruct (Qltb a b) eqn:E;
             [apply Qltb_lt in E | apply Qltb_ge in E]
         end.

Lemma py_max_min_clamp (v : Q) :
  (py_max 0 (py_min 100 v) == clamp v 0 100)%Q.
Proof. unfold py_max, py_min, clamp. Qcases; lra. Qed.

Lemma clamp_bounds (v : Q) : (0 <= clamp v 0 100 <= 100)%Q.
Proof. unfold clamp. Qcases; lra. Qed.

(** ** The time series leaves the scalar metrics alone *)

Lemma build_time_series_scalars clk m cs :
  total_issues (_build_time_series clk m cs) = total_issues m /\
  completed_issues (_build_time_series clk m cs) = completed_issues m /\
  total_sp (_build_time_series clk m cs) = total_sp m /\
  completed_sp (_build_time_series clk m cs) = completed_sp m /\
  remaining_sp (_build_time_series clk m cs) = remaining_sp m /\
  progress (_build_time_series clk m cs) = progress m /\
  velocity_sp_per_week (_build_time_series clk m cs) = velocity_sp_per_week m /\
  scope_change_pct (_build_time_series clk m cs) = scope_change_pct m /\
  forecast_date (_build_time_series clk m cs) = forecast_date m.
Proof.
  unfold _build_time_series.
  destruct (dated_children cs) as [|[c dt] rest]; [tauto|].
  cbv zeta. destruct (today clk <=? _); cbn; tauto.
Qed.

(** The scalar metrics of an Epic with children, read off the code. *)
Lemma calculate_metrics_scalars clk epic :
  children epic <> [] ->
  let cs := children epic in
  let m := calculate_metrics clk epic in
  total_issues m = len cs /\
  completed_issues m = count is_done cs /\
  total_sp m = sumQ (map sp_value (filter (fun c => truthy (story_points c)) cs)) /\
  completed_sp m =
    sumQ (map sp_value (filter (fun c => truthy (story_points c) && is_done c) cs)) /\
  remaining_sp m = (total_sp m - completed_sp m)%Q /\
  progress m =
    _progress (completed_sp m) (total_sp m) (completed_issues m) (total_issues m) /\
  velocity_sp_per_week m = _velocity clk cs 4 /\
  scope_change_pct m = _scope_change cs /\
  forecast_date m = _forecast clk (remaining_sp m) (velocity_sp_per_week m).
Proof.
  intros Hne cs m. subst cs m.
  destruct (children epic) as [|c0 cs0] eqn:Hc; [congruence|].
  unfold calculate_metrics. rewrite Hc. cbv beta iota zeta.
  match goal with
  | |- context [_build_time_series clk ?r ?l] =>
      destruct (build_time_series_scalars clk r l)
        as (H1 & H2 & H3 & H4 & H5 & H6 & H7 & H8 & H9)
  end.
  rewrite H1, H2, H3, H4, H5, H6, H7, H8, H9.
  repeat split; reflexivity.
Qed.

(** ** Epics without children *)

(** C9. For an Epic whose [children] list is empty, [calculate_metrics]
    returns the default [EpicMetrics]: all counts and story-point sums are
    0, [progress] is 0.0, the four optional metrics are [None] and every
    time-series array, [dates] included, is empty. *)
Theorem calculate_metrics_no_children (clk : Clock) (epic : EpicData) :
  children epic = [] ->
  let m := calculate_metrics clk epic in
  m = EpicMetrics_default /\
  total_issues m = 0 /\ completed_issues m = 0 /\ open_issues m = 0 /\
  unestimated_issues m = 0 /\ blocked_issues m = 0 /\
  total_sp m = 0%Q /\ completed_sp m = 0%Q /\ remaining_sp m = 0%Q /\
  progress m = 0%Q /\
  avg_cycle_time_days m = None /\ velocity_sp_per_week m = None /\
  scope_change_pct m = None /\ forecast_date m = None /\
  dates m = [] /\ total_sp_over_time m = [] /\ completed_sp_over_time m = [] /\
  cumulative_issues m = [] /\ cumulative_unestimated m = [].
Proof.
  intros Hnil m.
  assert (Hm : m = EpicMetrics_default).
  { subst m. unfold calculate_metrics. rewrite Hnil. reflexivity. }
  rewrite Hm. repeat split; reflexivity.
Qed.

Lemma calculate_metrics_no_children_witness :
  children (Sample.make_epic []) = [] /\
  calculate_metrics Sample.clock (Sample.make_epic []) = EpicMetrics_default.
Proof.
  split; [reflexivity|].
  apply (calculate_metrics_no_children Sample.clock (Sample.make_epic [])).
  reflexivity.
Defined.

(** ** The loop of the time series *)

Lemma day_range_nil (day max_date : date) :
  ~ day <= max_date -> day_range day max_date = [].
Proof.
  intro H. unfold day_range.
  replace (Z.to_nat (max_date + 1 - day)) with O by lia. reflexivity.
Qed.

Lemma day_range_cons (day max_date : date) :
  day <= max_date ->
  day_range day max_date = day :: day_range (day + 1) max_date.
Proof.
  intro H. unfold day_range.
  replace (Z.to_nat (max_date + 1 - day))
    with (S (Z.to_nat (max_date + 1 - (day + 1)))) by lia.
  cbn [seq map]. f_equal; [lia|].
  rewrite <- seq_shift, map_map.
  apply map_ext. intro i. lia.
Qed.

Lemma day_range_length (day max_date : date) :
  length (day_range day max_date) = Z.to_nat (max_date + 1 - day).
Proof. unfold day_range. now rewrite length_map, length_seq. Qed.

Lemma nth_error_seq (n s i j : nat) :
  nth_error (seq s n) i = Some j -> j = (s + i)%nat.
Proof.
  revert s i. induction n as [|n IH]; intros s i H.
  - destruct i; discriminate.
  - destruct i; simpl in H.
    + injection H as <-. lia.
    + apply IH in H. lia.
Qed.

Lemma day_range_nth (day max_date : date) (i : nat) (d : date) :
  nth_error (day_range day max_date) i = Some d -> d = day + Z.of_nat i.
Proof.
  unfold day_range. intro H.
  rewrite nth_error_map in H.
  destruct (nth_error (seq 0 _) i) as [j|] eqn:E; [|discriminate].
  apply nth_error_seq in E. subst j. simpl in H. congruence.
Qed.

(** The loop appends, to each of the five lists, one entry for every day
    from [day] to [max_date]. *)
Lemma series_loop_spec clk dated max_date day acc :
  series_loop clk dated max_date day acc =
  let days := day_range day max_date in
  {| s_dates := s_dates acc ++ days;
     s_total_sp := s_total_sp acc ++ map (total_sp_on dated) days;
     s_completed_sp := s_completed_sp acc ++ map (completed_sp_on clk dated) days;
     s_cum_issues := s_cum_issues acc ++ map (cum_issues_on dated) days;
     s_cum_unest := s_cum_unest acc ++ map (cum_unest_on dated) days |}.
Proof.
  funelim (series_loop clk dated max_date day acc).
  - rewrite H. cbv zeta. rewrite (day_range_cons day max_date) by assumption.
    unfold append_day. cbn [s_dates s_total_sp s_completed_sp s_cum_issues
                              s_cum_unest map].
    now rewrite <- !app_assoc.
  - cbv zeta. rewrite day_range_nil by assumption.
    cbn [map]. rewrite !app_nil_r. now destruct acc.
Qed.

(** The five arrays of the result are one list of days and four maps
    over it. *)
Lemma calculate_metrics_series clk epic :
  let m := calculate_metrics clk epic in
  let dated := dated_children (children epic) in
  exists days : list date,
    (days = [] \/ exists d0, days = day_range d0 (today clk)) /\
    dates m = days /\
    total_sp_over_time m = map (total_sp_on dated) days /\
    completed_sp_over_time m = map (completed_sp_on clk dated) days /\
    cumulative_issues m = map (cum_issues_on dated) days /\
    cumulative_unestimated m = map (cum_unest_on dated) days.
Proof.
  cbv zeta. unfold calculate_metrics.
  destruct (children epic) as [|c0 cs0].
  { exists []. cbn. intuition. }
  cbv beta iota zeta. unfold _build_time_series.
  set (dated := dated_children (c0 :: cs0)).
  destruct dated as [|[c dt] rest] eqn:Hd.
  { exists []. cbn. intuition. }
  cbv beta iota zeta.
  destruct (today clk <=? _).
  { exists []. cbn. intuition. }
  rewrite series_loop_spec. cbv zeta. cbn [dates total_sp_over_time
    completed_sp_over_time cumulative_issues cumulative_unestimated
    s_dates s_total_sp s_completed_sp s_cum_issues s_cum_unest Series_empty app].
  eexists. split; [right; eexists; reflexivity|].
  repeat split; reflexivity.
Qed.

(** ** Shape of the time series *)

(** C2. The five time-series arrays of the [EpicMetrics] returned by
    [calculate_metrics] have one length, that of [dates]; when [dates] is
    empty the other four are empty too. *)
Theorem time_series_lengths (clk : Clock) (epic : EpicData) :
  let m := calculate_metrics clk epic in
  length (total_sp_over_time m) = length (dates m) /\
  length (completed_sp_over_time m) = length (dates m) /\
  length (cumulative_issues m) = length (dates m) /\
  length (cumulative_unestimated m) = length (dates m) /\
  (dates m = [] ->
   total_sp_over_time m = [] /\ completed_sp_over_time m = [] /\
   cumulative_issues m = [] /\ cumulative_unestimated m = []).
Proof.
  intro m.
  destruct (calculate_metrics_series clk epic)
    as (days & _ & Hd & Ht & Hc & Hi & Hu).
  fold m in Hd, Ht, Hc, Hi, Hu.
  rewrite Hd, Ht, Hc, Hi, Hu, !length_map.
  split; [reflexivity|]. split; [reflexivity|].
  split; [reflexivity|]. split; [reflexivity|].
  intros ->. repeat split; reflexivity.
Qed.

(** ** Growth of the time series *)

Section FilterMonotone.

Context {A : Type} (p q : A -> bool).

Lemma length_filter_mono (l : list A) :
  (forall x, In x l -> p x = true -> q x = true) ->
  (length (filter p l) <= length (filter q l))%nat.
Proof.
  induction l as [|a l IH]; intro H; simpl; [lia|].
  assert (IH' := IH (fun x Hx => H x (or_intror Hx))).
  destruct (p a) eqn:Ep.
  - rewrite (H a (or_introl eq_refl) Ep). simpl. lia.
  - destruct (q a); simpl; lia.
Qed.

Lemma sum_filter_mono (g : A -> Q) (l : list A) :
  (forall x, In x l -> p x = true -> q x = true) ->
  (forall x, In x l -> 0 <= g x)%Q ->
  (sumQ (map g (filter p l)) <= sumQ (map g (filter q l)))%Q.
Proof.
  induction l as [|a l IH]; intros H Hg; simpl; [lra|].
  assert (IH' := IH (fun x Hx => H x (or_intror Hx))
                    (fun x Hx => Hg x (or_intror Hx))).
  assert (Ha := Hg a (or_introl eq_refl)).
  destruct (p a) eqn:Ep.
  - rewrite (H a (or_introl eq_refl) Ep). simpl.
    rewrite !sumQ_cons. lra.
  - destruct (q a); simpl; [rewrite sumQ_cons|]; lra.
Qed.

End FilterMonotone.

Lemma filter_map_fst {A B : Type} (p : A -> bool) (l : list (A * B)) :
  filter p (map fst l) = map fst (filter (fun x => p (fst x)) l).
Proof.
  induction l as [|a l IH]; simpl; [reflexivity|].
  destruct (p (fst a)); simpl; now rewrite IH.
Qed.

Lemma filter_twice {A : Type} (p q : A -> bool) (l : list A) :
  filter q (filter p l) = filter (fun x => p x && q x) l.
Proof.
  induction l as [|a l IH]; simpl; [reflexivity|].
  destruct (p a); simpl; [destruct (q a)|]; now rewrite IH.
Qed.

Lemma dated_children_In (cs : list JiraIssue) (c : JiraIssue) (dt : datetime) :
  In (c, dt) (dated_children cs) <-> In c cs /\ created c = Some dt.
Proof.
  unfold dated_children. rewrite in_flat_map. split.
  - intros (x & Hx & Hin). destruct (created x) eqn:E; simpl in Hin.
    + destruct Hin as [Heq|[]]. injection Heq as <- <-. now split.
    + contradiction.
  - intros (Hin & Hc). exists c. split; [assumption|].
    rewrite Hc. now left.
Qed.

Lemma or_zero_nonneg (sp : option Q) :
  (forall q, sp = Some q -> 0 <= q)%Q -> (0 <= or_zero sp)%Q.
Proof.
  intro H. destruct sp as [q|]; simpl; [|lra].
  destruct (Qeq_bool q 0); [lra | now apply H].
Qed.

(** Each of the four daily figures, as a filter over the dated children. *)
Lemma total_sp_on_filter dated d :
  total_sp_on dated d =
  sumQ (map (fun p => or_zero (story_points (fst p)))
            (filter (fun p => dt_date (snd p) <=? d) dated)).
Proof. unfold total_sp_on, created_by. now rewrite map_map. Qed.

Lemma completed_sp_on_filter clk dated d :
  completed_sp_on clk dated d =
  sumQ (map (fun p => or_zero (story_points (fst p)))
            (filter (fun p => (dt_date (snd p) <=? d)
                              && (is_done (fst p)
                                  && resolved_by (day_end clk d) (fst p)))
                    dated)).
Proof.
  unfold completed_sp_on, done_by, created_by.
  now rewrite filter_map_fst, filter_twice, map_map.
Qed.

Lemma cum_issues_on_filter dated d :
  cum_issues_on dated d =
  Z.of_nat (length (filter (fun p => dt_date (snd p) <=? d) dated)).
Proof. unfold cum_issues_on, created_by, len. now rewrite length_map. Qed.

Lemma cum_unest_on_filter dated d :
  cum_unest_on dated d =
  Z.of_nat (length (filter (fun p => (dt_date (snd p) <=? d)
                                     && negb (truthy (story_points (fst p))))
                           dated)).
Proof.
  unfold cum_unest_on, created_by, count.
  now rewrite filter_map_fst, filter_twice, length_map.
Qed.

Lemma nondecreasing_map_days {A : Type} (le : A -> A -> Prop) (f : date -> A)
      (a b : date) :
  (forall d, le (f d) (f (d + 1))) ->
  nondecreasing le (map f (day_range a b)).
Proof.
  intros Hf i x y Hx Hy.
  rewrite nth_error_map in Hx, Hy.
  destruct (nth_error (day_range a b) i) as [d|] eqn:Ed; [|discriminate].
  destruct (nth_error (day_range a b) (S i)) as [d'|] eqn:Ed'; [|discriminate].
  apply day_range_nth in Ed, Ed'.
  simpl in Hx, Hy. injection Hx as <-. injection Hy as <-.
  replace d' with (d + 1) by lia. apply Hf.
Qed.

Lemma nondecreasing_nil {A : Type} (le : A -> A -> Prop) : nondecreasing le [].
Proof. intros i x y H. destruct i; discriminate. Qed.

(** The story points created so far drop on the day an issue with a
    negative estimate is created. *)
Lemma negative_points_series :
  total_sp_over_time (calculate_metrics Sample.clock Sample_negative_points)
  = [5; 5; 2; 2]%Q.
Proof. vm_compute. reflexivity. Qed.

(** C3, as the claim states it, fails: for the Epic with a five-point
    issue and one of minus three points created two days later,
    [total_sp_over_time] is [[5; 5; 2; 2]], which goes down from its
    second to its third entry. *)
Lemma series_can_decrease :
  ~ (forall (clk : Clock) (epic : EpicData),
       let m := calculate_metrics clk epic in
       nondecreasing Z.le (cumulative_issues m) /\
       nondecreasing Qle (total_sp_over_time m) /\
       nondecreasing Qle (completed_sp_over_time m) /\
       nondecreasing Z.le (cumulative_unestimated m)).
Proof.
  intro H.
  destruct (H Sample.clock Sample_negative_points) as (_ & Ht & _).
  rewrite negative_points_series in Ht.
  specialize (Ht 1%nat 5%Q 2%Q eq_refl eq_refl).
  revert Ht. unfold Qle. simpl. lia.
Qed.

(** The completed story points depend on the local zone as well: the
    clock of the model gives any offset to any wall time, and where the
    end of a day comes before the end of the day before, an issue done
    between the two is counted on the first day and not on the second. *)
Lemma completed_series_disordered_day_ends :
  ~ day_ends_ordered Sample_disordered_clock /\
  nonnegative_points (children Sample_done_today) /\
  completed_sp_over_time (calculate_metrics Sample_disordered_clock Sample_done_today)
  = [0; 0; 5; 0]%Q.
Proof.
  split; [|split].
  - intro H. specialize (H (Sample.day0 - 1)). revert H.
    vm_compute. intro H. apply H. reflexivity.
  - intros c q [<-|[]] H. simpl in H. injection H as <-. lra.
  - vm_compute. reflexivity.
Qed.

(** C3, amended. The two series of counts, [cumulative_issues] and
    [cumulative_unestimated], are non-decreasing for every Epic:
    [cumulative_issues[i] <= cumulative_issues[i+1]] at every valid
    index.  [total_sp_over_time] is non-decreasing when no child has
    negative story points, and [completed_sp_over_time] when, besides,
    the local zone keeps the ends of successive days in order. *)
Theorem series_nondecreasing (clk : Clock) (epic : EpicData) :
  let m := calculate_metrics clk epic in
  nondecreasing Z.le (cumulative_issues m) /\
  nondecreasing Z.le (cumulative_unestimated m) /\
  (nonnegative_points (children epic) ->
   nondecreasing Qle (total_sp_over_time m)) /\
  (nonnegative_points (children epic) -> day_ends_ordered clk ->
   nondecreasing Qle (completed_sp_over_time m)).
Proof.
  intro m.
  destruct (calculate_metrics_series clk epic)
    as (days & Hdays & _ & Ht & Hc & Hi & Hu).
  fold m in Ht, Hc, Hi, Hu. rewrite Ht, Hc, Hi, Hu.
  destruct Hdays as [->|(d0 & ->)].
  { cbn [map]. repeat split; intros; apply nondecreasing_nil. }
  set (dated := dated_children (children epic)).
  assert (Hsp : nonnegative_points (children epic) ->
                forall x, In x dated ->
                  (0 <= or_zero (story_points (fst x)))%Q).
  { intros Hnn [c dt] Hin. apply dated_children_In in Hin as [Hin _].
    apply or_zero_nonneg. intros q Hq. exact (Hnn c q Hin Hq). }
  assert (Hday : forall d (x : JiraIssue * datetime),
             (dt_date (snd x) <=? d) = true ->
             (dt_date (snd x) <=? d + 1) = true).
  { intros d x H. apply Z.leb_le in H. apply Z.leb_le. lia. }
  split; [|split; [|split]].
  - apply nondecreasing_map_days; intro d.
    rewrite !cum_issues_on_filter. apply inj_le.
    apply length_filter_mono. intros x _. apply Hday.
  - apply nondecreasing_map_days; intro d.
    rewrite !cum_unest_on_filter. apply inj_le.
    apply length_filter_mono. intros x _ H.
    apply andb_true_iff in H as [H1 H2].
    now rewrite (Hday d x H1), H2.
  - intro Hnn. apply nondecreasing_map_days; intro d.
    rewrite !total_sp_on_filter.
    apply sum_filter_mono; [intros x _; apply Hday | exact (Hsp Hnn)].
  - intros Hnn Hends. apply nondecreasing_map_days; intro d.
    rewrite !completed_sp_on_filter.
    apply sum_filter_mono; [|exact (Hsp Hnn)].
    intros x _ H. apply andb_true_iff in H as [H1 H2].
    apply andb_true_iff in H2 as [H2 H3].
    rewrite (Hday d x H1), H2. simpl.
    unfold resolved_by in *. destruct (resolved (fst x)) as [rs|]; [|discriminate].
    unfold dt_leb in *. apply Z.leb_le in H3. apply Z.leb_le.
    specialize (Hends d). lia.
Qed.

Lemma series_nondecreasing_witness :
  nonnegative_points (children Sample.five_of_thirteen) /\
  day_ends_ordered Sample.clock /\
  (let m := calculate_metrics Sample.clock Sample.five_of_thirteen in
   nondecreasing Z.le (cumulative_issues m) /\
   nondecreasing Z.le (cumulative_unestimated m) /\
   nondecreasing Qle (total_sp_over_time m) /\
   nondecreasing Qle (completed_sp_over_time m)).
Proof.
  assert (H1 : nonnegative_points (children Sample.five_of_thirteen)).
  { intros c q [<-|[<-|[]]] H; simpl in H; injection H as <-; lra. }
  assert (H2 : day_ends_ordered Sample.clock).
  { intro d. unfold day_end, instant, US_PER_DAY, US_PER_SECOND.
    cbn [wall utcoffset local_utcoffset Sample.clock]. lia. }
  split; [exact H1|]. split; [exact H2|].
  destruct (series_nondecreasing Sample.clock Sample.five_of_thirteen)
    as (Hi & Hu & Ht & Hc).
  split; [exact Hi|]. split; [exact Hu|].
  split; [exact (Ht H1) | exact (Hc H1 H2)].
Defined.

(** ** Velocity *)

(** The optional metrics of any Epic, with or without children. *)
Lemma calculate_metrics_optional clk epic :
  let m := calculate_metrics clk epic in
  velocity_sp_per_week m = _velocity clk (children epic) 4 /\
  scope_change_pct m = _scope_change (children epic) /\
  forecast_date m = _forecast clk (remaining_sp m) (velocity_sp_per_week m).
Proof.
  intro m. destruct (children epic) as [|c0 cs0] eqn:Hc.
  - subst m. unfold calculate_metrics. rewrite Hc. repeat split.
  - assert (Hne : children epic <> []) by congruence.
    destruct (calculate_metrics_scalars clk epic Hne)
      as (_ & _ & _ & _ & _ & _ & Hv & Hs & Hf).
    fold m in Hv, Hs, Hf. rewrite Hc in Hv, Hs. auto.
Qed.

Lemma filter_none {A : Type} (p : A -> bool) (l : list A) :
  (forall x, In x l -> p x = false) -> filter p l = [].
Proof.
  induction l as [|a l IH]; intro H; simpl; [reflexivity|].
  rewrite (H a (or_introl eq_refl)).
  apply IH. intros x Hx. apply H. now right.
Qed.

Lemma truthy_false_value (c : JiraIssue) :
  truthy (story_points c) = false -> (sp_value c == 0)%Q.
Proof.
  unfold truthy, sp_value. destruct (story_points c) as [q|]; [|reflexivity].
  rewrite negb_false_iff. apply Qeq_bool_iff.
Qed.




(** ** Scope change *)

Lemma insert_by_created_perm p l :
  Permutation (insert_by_created p l) (p :: l).
Proof.
  induction l as [|q r IH]; simpl; [reflexivity|].
  destruct (dt_ltb (snd q) (snd p)); [|reflexivity].
  rewrite IH. apply perm_swap.
Qed.

Lemma sort_by_created_perm l : Permutation (sort_by_created l) l.
Proof.
  induction l as [|p l IH]; simpl; [reflexivity|].
  rewrite insert_by_created_perm. now constructor.
Qed.

Lemma insert_by_created_head p l :
  head_earliest l -> head_earliest (insert_by_created p l).
Proof.
  destruct l as [|q r]; simpl; intro H.
  - constructor; [lia | constructor].
  - destruct (dt_ltb (snd q) (snd p)) eqn:E; unfold dt_ltb in E.
    + apply Z.ltb_lt in E. simpl.
      inversion H as [|? ? Hq Hr]; subst.
      constructor; [lia|].
      rewrite Forall_forall in *. intros x Hx.
      apply (Permutation_in _ (insert_by_created_perm p r)) in Hx.
      destruct Hx as [<-|Hx]; [lia | now apply Hr].
    + apply Z.ltb_ge in E. simpl.
      constructor; [lia|].
      rewrite Forall_forall in *. intros x Hx.
      specialize (H x Hx). lia.
Qed.

Lemma sort_by_created_head l : head_earliest (sort_by_created l).
Proof.
  induction l as [|p l IH]; simpl; [exact I|].
  now apply insert_by_created_head.
Qed.

Lemma filter_length_perm {A : Type} (p : A -> bool) (l l' : list A) :
  Permutation l l' -> length (filter p l) = length (filter p l').
Proof.
  induction 1 as [|x l l' _ IH|x y l|l l' l'' _ IH1 _ IH2]; simpl.
  - reflexivity.
  - destruct (p x); simpl; now rewrite IH.
  - destruct (p x), (p y); reflexivity.
  - now rewrite IH1.
Qed.

Lemma dated_children_length cs :
  (length (dated_children cs) <= length cs)%nat.
Proof.
  induction cs as [|c cs IH]; simpl; [lia|].
  destruct (created c); simpl; lia.
Qed.

Lemma later_than_threshold (first dt : datetime) :
  dt_ltb (dt_add first (timedelta_days 7)) dt
  = (instant first + 7 * US_PER_DAY <? instant dt).
Proof.
  unfold dt_ltb, dt_add, instant, timedelta_days. cbn [wall utcoffset].
  f_equal. lia.
Qed.

Lemma created_later_count (first : datetime) (dated : list (JiraIssue * datetime)) :
  count (fun p => dt_ltb (dt_add first (timedelta_days 7)) (snd p)) dated
  = created_later (instant first) (map (fun p => instant (snd p)) dated).
Proof.
  unfold created_later, count. f_equal.
  induction dated as [|x l IH]; [reflexivity|].
  cbn [map filter]. rewrite later_than_threshold.
  destruct (_ <? _); cbn [length]; now rewrite IH.
Qed.

(** What [_scope_change] returns, in terms of the sorted list it builds. *)
Lemma scope_change_cases cs :
  let dated := dated_children cs in
  ((length dated < 2)%nat /\ _scope_change cs = None) \/
  ((2 <= length dated)%nat /\
   exists c0 first rest,
     sort_by_created dated = (c0, first) :: rest /\
     _scope_change cs =
     Some ((inject_Z (count (fun p => dt_ltb (dt_add first (timedelta_days 7))
                                             (snd p))
                            (sort_by_created dated))
            / inject_Z (len cs)) * 100)%Q).
Proof.
  intro dated. unfold _scope_change. fold dated.
  pose proof (dated_children_length cs) as Hlen. fold dated in Hlen.
  pose proof (Permutation_length (sort_by_created_perm dated)) as Hsl.
  destruct (len cs <? 2) eqn:E1.
  { left. apply Z.ltb_lt in E1. unfold len in E1. split; [lia | reflexivity]. }
  cbv zeta.
  destruct (len (sort_by_created dated) <? 2) eqn:E2.
  { left. apply Z.ltb_lt in E2. unfold len in E2. split; [lia | reflexivity]. }
  apply Z.ltb_ge in E2. unfold len in E2. right. split; [lia|].
  destruct (sort_by_created dated) as [|[c0 first] rest] eqn:Es.
  { simpl in E2. lia. }
  exists c0, first, rest. split; reflexivity.
Qed.

(** The pairs the code sorts are as many as the children that carry a
    creation time. *)
Lemma dated_children_has_created (cs : list JiraIssue) :
  length (dated_children cs) = length (filter has_created cs).
Proof.
  induction cs as [|c cs IH]; [reflexivity|].
  unfold dated_children, has_created in *. cbn [flat_map filter].
  destruct (created c); cbn [app length]; now rewrite IH.
Qed.

(** Counting the pairs whose time lies more than a week after [t0] is
    counting the children created more than a week after [t0]. *)
Lemma dated_children_after_week (t0 : Z) (cs : list JiraIssue) :
  length (filter (fun p => t0 + 7 * US_PER_DAY <? instant (snd p))
                 (dated_children cs))
  = length (filter (created_after_week t0) cs).
Proof.
  induction cs as [|c cs IH]; [reflexivity|].
  unfold dated_children, created_after_week in *. cbn [flat_map filter].
  destruct (created c) as [dt|]; cbn [app filter snd]; [|exact IH].
  destruct (_ <? _); cbn [length]; now rewrite IH.
Qed.

(** C6. [scope_change_pct] is [None] when fewer than 2 children have a
    [created] timestamp; otherwise, with [t0] the earliest creation time
    among the children that have one, it is the number of children
    created more than 7 days after [t0], divided by [total_issues] (the
    number of children), times 100. *)
Theorem scope_change_formula (clk : Clock) (epic : EpicData) :
  let cs := children epic in
  let m := calculate_metrics clk epic in
  ((length (filter has_created cs) < 2)%nat -> scope_change_pct m = None) /\
  ((2 <= length (filter has_created cs))%nat ->
   exists (c0 : JiraIssue) (first : datetime),
     In c0 cs /\ created c0 = Some first /\
     (forall c dt, In c cs -> created c = Some dt ->
                   instant first <= instant dt) /\
     total_issues m = Z.of_nat (length cs) /\
     scope_change_pct m =
     Some ((inject_Z (Z.of_nat
                        (length (filter (created_after_week (instant first)) cs)))
            / inject_Z (total_issues m)) * 100)%Q).
Proof.
  intros cs m.
  destruct (calculate_metrics_optional clk epic) as (_ & Hs & _).
  fold m cs in Hs. rewrite Hs.
  pose proof (dated_children_has_created cs) as Hlt.
  destruct (scope_change_cases cs)
    as [[Hlen Hnone]|(Hlen & c0 & first & rest & Hsort & Hsome)].
  { split; [intros _; exact Hnone | intro; lia]. }
  split; [intro; lia | intros _].
  set (dated := dated_children cs) in *.
  pose proof (sort_by_created_perm dated) as Hperm.
  pose proof (sort_by_created_head dated) as Hhead.
  rewrite Hsort in Hhead. simpl in Hhead.
  assert (Hin0 : In (c0, first) dated).
  { apply (Permutation_in _ Hperm). rewrite Hsort. now left. }
  apply dated_children_In in Hin0 as [Hc0 Hcr0].
  assert (Hne : children epic <> []).
  { intro Hnil. subst dated cs. rewrite Hnil in Hlen. simpl in Hlen. lia. }
  destruct (calculate_metrics_scalars clk epic Hne) as (Hti & _).
  fold m cs in Hti.
  exists c0, first.
  split; [exact Hc0|]. split; [exact Hcr0|]. split; [|split].
  - intros c dt Hc Hcr.
    assert (Hx : In (c, dt) dated) by (apply dated_children_In; now split).
    rewrite Forall_forall in Hhead.
    apply (Hhead (c, dt)). rewrite <- Hsort.
    apply (Permutation_in _ (Permutation_sym Hperm) Hx).
  - exact Hti.
  - rewrite Hsome, Hti. unfold count, len.
    rewrite (filter_length_perm _ _ _ Hperm).
    rewrite (filter_ext _ (fun p => instant first + 7 * US_PER_DAY
                                    <? instant (snd p)))
      by (intro p; apply later_than_threshold).
    unfold dated. rewrite dated_children_after_week. reflexivity.
Qed.

(** The Epic of three children of which one was added twelve days after
    the first: a third of the scope came later. *)
Lemma scope_change_grown :
  scope_change_pct (calculate_metrics Sample.clock Sample.grown)
  = Some (100 # 3)%Q /\
  length (filter has_created (children Sample.grown)) = 2%nat /\
  length (filter (created_after_week (instant (Sample.noon (Sample.day0 - 20))))
                 (children Sample.grown)) = 1%nat.
Proof. repeat split; vm_compute; reflexivity. Qed.

Lemma percentage_below_100 (k n : Z) :
  0 <= k < n -> (0 <= inject_Z k / inject_Z n * 100 < 100)%Q.
Proof.
  intros [Hk Hn].
  assert (Ha : (inject_Z 0 <= inject_Z k)%Q) by (rewrite <- Zle_Qle; exact Hk).
  assert (Hab : (inject_Z k < inject_Z n)%Q) by (rewrite <- Zlt_Qlt; exact Hn).
  change (inject_Z 0) with 0%Q in Ha.
  assert (Hb : (0 < inject_Z n)%Q) by lra.
  assert (H0 : (0 <= inject_Z k / inject_Z n)%Q).
  { apply Qle_shift_div_l; [exact Hb | lra]. }
  assert (H1 : (inject_Z k / inject_Z n < 1)%Q).
  { apply Qlt_shift_div_r; [exact Hb | lra]. }
  set (r := (inject_Z k / inject_Z n)%Q) in *. lra.
Qed.

(** C10. Whenever [calculate_metrics] yields a [scope_change_pct] other
    than [None], the value lies in [0, 100): the earliest dated child is
    never itself counted as created more than 7 days after the earliest
    creation time, so at most [total_issues - 1] children are counted. *)
Theorem scope_change_below_100 (clk : Clock) (epic : EpicData) (p : Q) :
  scope_change_pct (calculate_metrics clk epic) = Some p ->
  (0 <= p < 100)%Q.
Proof.
  intro Hp.
  destruct (calculate_metrics_optional clk epic) as (_ & Hs & _).
  rewrite Hs in Hp.
  destruct (scope_change_cases (children epic))
    as [[_ Hnone]|(Hlen & c0 & first & rest & Hsort & Hsome)].
  { congruence. }
  rewrite Hsome in Hp. injection Hp as <-.
  apply percentage_below_100.
  pose proof (Permutation_length
                (sort_by_created_perm (dated_children (children epic)))) as Hpl.
  pose proof (dated_children_length (children epic)) as Hdl.
  rewrite Hsort in *. unfold count, len. cbn [filter].
  rewrite later_than_threshold. cbn [snd].
  assert (Hfirst : (instant first + 7 * US_PER_DAY <? instant first) = false).
  { apply Z.ltb_ge. unfold US_PER_DAY, US_PER_SECOND. lia. }
  rewrite Hfirst.
  match goal with
  | |- context [length (filter ?f rest)] =>
      pose proof (filter_length_le f rest) as Hfl
  end.
  cbn [length] in Hpl. lia.
Qed.

Lemma scope_change_below_100_witness :
  scope_change_pct (calculate_metrics Sample.clock Sample.grown)
  = Some (100 # 3)%Q /\
  (0 <= 100 # 3 < 100)%Q.
Proof.
  assert (H : scope_change_pct (calculate_metrics Sample.clock Sample.grown)
              = Some (100 # 3)%Q) by (vm_compute; reflexivity).
  split; [exact H|].
  exact (scope_change_below_100 Sample.clock Sample.grown (100 # 3)%Q H).
Defined.

(** ** Forecast *)

Lemma round_half_even_bounds (q : Q) :
  Qfloor q <= round_half_even q <= Qceiling q.
Proof.
  pose proof (Qle_floor_ceiling q) as Hfc. rewrite <- Zle_Qle in Hfc.
  pose proof (Qfloor_le q) as Hf.
  pose proof (Qle_ceiling q) as Hc.
  assert (Hup : (inject_Z (Qfloor q) < q)%Q -> Qfloor q + 1 <= Qceiling q).
  { intro Hlt. assert (H : (inject_Z (Qfloor q) < inject_Z (Qceiling q))%Q) by lra.
    rewrite <- Zlt_Qlt in H. lia. }
  unfold round_half_even. cbv zeta.
  destruct (Qcompare (q - inject_Z (Qfloor q)) (1 # 2)) eqn:E.
  - apply Qeq_alt in E. assert (Hlt : (inject_Z (Qfloor q) < q)%Q) by lra.
    specialize (Hup Hlt). destruct (Z.even (Qfloor q)); lia.
  - lia.
  - apply Qgt_alt in E. assert (Hlt : (inject_Z (Qfloor q) < q)%Q) by lra.
    specialize (Hup Hlt). lia.
Qed.

(** The days of [timedelta(weeks=w)] are the days of [7 * w], rounded
    down unless [7 * w] is within half a microsecond of the next day. *)
Lemma timedelta_of_weeks_days (w : Q) :
  Qfloor (7 * w) <= td_days (timedelta_of_weeks w) <= Qceiling (7 * w).
Proof.
  unfold td_days, timedelta_of_weeks.
  set (x := (w * inject_Z US_PER_WEEK)%Q).
  pose proof (round_half_even_bounds x) as [Hlo Hhi].
  assert (HD : 0 < US_PER_DAY) by (unfold US_PER_DAY, US_PER_SECOND; lia).
  assert (HDq : (0 < inject_Z US_PER_DAY)%Q).
  { change 0%Q with (inject_Z 0). rewrite <- Zlt_Qlt. exact HD. }
  assert (Hx : (x == (7 * w) * inject_Z US_PER_DAY)%Q).
  { unfold x, US_PER_WEEK. rewrite inject_Z_mult. ring. }
  pose proof (Qfloor_le (7 * w)) as Hf.
  pose proof (Qle_ceiling (7 * w)) as Hc.
  split.
  - apply Z.div_le_lower_bound; [exact HD|].
    apply Z.le_trans with (Qfloor x); [|exact Hlo].
    rewrite <- (Qfloor_Z (US_PER_DAY * Qfloor (7 * w))).
    apply Qfloor_resp_le. rewrite Hx, inject_Z_mult.
    rewrite (Qmult_comm (inject_Z US_PER_DAY)).
    apply Qmult_le_compat_r; [exact Hf | lra].
  - apply Z.div_le_upper_bound; [exact HD|].
    apply Z.le_trans with (Qceiling x); [exact Hhi|].
    rewrite <- (Qceiling_Z (US_PER_DAY * Qceiling (7 * w))).
    apply Qceiling_resp_le. rewrite Hx, inject_Z_mult.
    rewrite (Qmult_comm (inject_Z US_PER_DAY)).
    apply Qmult_le_compat_r; [exact Hc | lra].
Qed.




(** Half a million points at a quarter of a point a week are two million
    weeks away: the addition leaves the dates of Python, which raises
    [OverflowError] there, while the day number of the model goes on. *)
Lemma forecast_past_last_date :
  date_add_checked (today Sample.clock)
                   (timedelta_of_weeks (500000 / (1 # 4))) = None /\
  _forecast Sample.clock 500000 (Some (1 # 4)%Q) = Some 14739923.
Proof. split; vm_compute; reflexivity. Qed.


(** ** Chart renderer *)

(** Where the call returns, it returns what [generate_epic_chart] says. *)
Lemma chart_outcome_returned (png_chunks : Figure -> list byte)
      (metrics : EpicMetrics) (dpi : Z) (dark : bool) (data : option (list byte)) :
  generate_epic_chart_outcome png_chunks metrics dpi dark = ChartReturned data ->
  generate_epic_chart png_chunks metrics dpi dark = data.
Proof.
  unfold generate_epic_chart_outcome, generate_epic_chart, chart_figure.
  destruct (dates metrics) as [|d ds]; [congruence|].
  cbv zeta.
  repeat match goal with
         | |- context [if negb ?b then _ else _] => destruct b; cbn [negb]
         end; congruence.
Qed.

(** With parallel series every call of matplotlib accepts its
    arguments. *)
Lemma parallel_series_accepted (m : EpicMetrics) :
  parallel_series m ->
  fill_between_accepts (dates m) (total_sp_over_time m) = true /\
  fill_between_accepts (dates m) (completed_sp_over_time m) = true /\
  step_accepts (dates m) (cumulative_issues m) = true /\
  step_accepts (dates m) (cumulative_unestimated m) = true.
Proof.
  intros (Ht & Hc & Hi & Hu).
  unfold fill_between_accepts, step_accepts.
  rewrite Ht, Hc, Hi, Hu, !Nat.eqb_refl. repeat split; reflexivity.
Qed.

(** The metrics engine keeps the invariant. *)
Lemma calculate_metrics_parallel (clk : Clock) (epic : EpicData) :
  parallel_series (calculate_metrics clk epic).
Proof.
  destruct (calculate_metrics_series clk epic)
    as (days & _ & Hd & Ht & Hc & Hi & Hu).
  unfold parallel_series.
  rewrite Hd, Ht, Hc, Hi, Hu, !length_map. repeat split; reflexivity.
Qed.

(** Two dates and empty series: the first filled area already has
    nothing to go with the dates. *)
Lemma chart_of_dates_only (png_chunks : Figure -> list byte) :
  generate_epic_chart_outcome png_chunks Sample_dates_only 150 false
  = ChartValueError.
Proof. reflexivity. Qed.

(** C7, as the claim states it, fails: an [EpicMetrics] with dates does
    not always get an image.  For one with two dates and empty series
    the call raises [ValueError] and returns nothing. *)
Lemma chart_raises_on_short_series :
  ~ (forall (png_chunks : Figure -> list byte) (metrics : EpicMetrics)
            (dpi : Z) (dark : bool),
       dates metrics <> [] ->
       exists data rest,
         generate_epic_chart_outcome png_chunks metrics dpi dark
         = ChartReturned (Some data) /\
         data = PNG_SIGNATURE ++ rest).
Proof.
  intro H.
  destruct (H (fun _ => []) Sample_dates_only 150 false)
    as (data & rest & Hret & _); [discriminate|].
  rewrite chart_of_dates_only in Hret. discriminate.
Qed.

(** C7, amended. The chart renderer returns [None] if and only if
    [metrics.dates] is empty.  With dates to plot and the four series
    parallel to them, as every result of [calculate_metrics] has them,
    it returns the bytes of an encoded image, which begin with the
    signature of the PNG format, and not [None].  With dates to plot and
    a [cumulative_issues] or [cumulative_unestimated] of another length
    it raises [ValueError]. *)
Theorem chart_none_iff_no_dates (png_chunks : Figure -> list byte)
        (metrics : EpicMetrics) (dpi : Z) (dark : bool) :
  (generate_epic_chart_outcome png_chunks metrics dpi dark = ChartReturned None
   <-> dates metrics = []) /\
  (dates metrics <> [] -> parallel_series metrics ->
   exists data rest,
     generate_epic_chart_outcome png_chunks metrics dpi dark
     = ChartReturned (Some data) /\
     data = PNG_SIGNATURE ++ rest /\
     firstn 4 data = [x89; x50; x4e; x47]) /\
  (dates metrics <> [] ->
   length (cumulative_issues metrics) <> length (dates metrics) \/
   length (cumulative_unestimated metrics) <> length (dates metrics) ->
   generate_epic_chart_outcome png_chunks metrics dpi dark = ChartValueError) /\
  (forall (clk : Clock) (epic : EpicData),
     metrics = calculate_metrics clk epic ->
     generate_epic_chart_outcome png_chunks metrics dpi dark
     = ChartReturned (generate_epic_chart png_chunks metrics dpi dark)).
Proof.
  split; [|split; [|split]].
  - unfold generate_epic_chart_outcome.
    destruct (dates metrics) as [|d ds] eqn:Hd; [tauto|].
    cbv zeta. split; [|discriminate].
    repeat match goal with
           | |- context [if negb ?b then _ else _] => destruct b; cbn [negb]
           end; discriminate.
  - intros Hne Hpar.
    destruct (parallel_series_accepted metrics Hpar) as (Ht & Hc & Hi & Hu).
    unfold generate_epic_chart_outcome.
    destruct (dates metrics) as [|d ds] eqn:Hd; [congruence|].
    cbv zeta. rewrite Ht, Hc, Hi, Hu. cbn [negb].
    eexists. eexists. split; [reflexivity|]. split; reflexivity.
  - intros Hne Hlen.
    unfold generate_epic_chart_outcome.
    destruct (dates metrics) as [|d ds] eqn:Hd; [congruence|].
    cbv zeta. unfold step_accepts.
    destruct (fill_between_accepts (d :: ds) (total_sp_over_time metrics));
      [|reflexivity].
    destruct (fill_between_accepts (d :: ds) (completed_sp_over_time metrics));
      [|reflexivity].
    cbn [negb].
    destruct (Nat.eqb_spec (length (d :: ds)) (length (cumulative_issues metrics)))
      as [Ei|Ei]; [|reflexivity].
    destruct (Nat.eqb_spec (length (d :: ds))
                           (length (cumulative_unestimated metrics)))
      as [Eu|Eu]; [|reflexivity].
    destruct Hlen as [Hlen|Hlen]; congruence.
  - intros clk epic ->.
    pose proof (calculate_metrics_parallel clk epic) as Hpar.
    destruct (parallel_series_accepted _ Hpar) as (Ht & Hc & Hi & Hu).
    unfold generate_epic_chart_outcome, generate_epic_chart, chart_figure.
    destruct (dates (calculate_metrics clk epic)) as [|d ds] eqn:Hd;
      [reflexivity|].
    cbv zeta. rewrite Ht, Hc, Hi, Hu. reflexivity.
Qed.

(** The chart of the sample Epic: eleven days of history, parallel
    series, and an image that begins with the signature of PNG. *)
Lemma chart_none_iff_no_dates_witness :
  dates (calculate_metrics Sample.clock Sample.five_of_thirteen) <> [] /\
  parallel_series (calculate_metrics Sample.clock Sample.five_of_thirteen) /\
  exists data rest,
    generate_epic_chart_outcome (fun _ => [])
      (calculate_metrics Sample.clock Sample.five_of_thirteen) 150 false
    = ChartReturned (Some data) /\
    data = PNG_SIGNATURE ++ rest /\
    firstn 4 data = [x89; x50; x4e; x47].
Proof.
  assert (H1 : dates (calculate_metrics Sample.clock Sample.five_of_thirteen)
               <> []) by (vm_compute; discriminate).
  assert (H2 : parallel_series
                 (calculate_metrics Sample.clock Sample.five_of_thirteen))
    by (repeat split; vm_compute; reflexivity).
  split; [exact H1|]. split; [exact H2|].
  exact (proj1 (proj2 (chart_none_iff_no_dates (fun _ => [])
                         (calculate_metrics Sample.clock Sample.five_of_thirteen)
                         150 false)) H1 H2).
Defined.

(** ** Sidebar of an Epic page *)

Lemma days_not_NA (s : string) : (s ++ " days")%string <> "N/A"%string.
Proof.
  destruct s as [|a [|b [|c [|d s]]]]; cbn [append]; discriminate.
Qed.

(** The test the sidebar makes on the average cycle time is a truth
    test: the row reads ["N/A"] for [None] and for 0.0 alike. *)
Lemma summary_box_cycle_time_row (metrics : EpicMetrics) :
  In (metric_row "Avg Cycle Time" "N/A") (_build_summary_box metrics) <->
  avg_cycle_time_days metrics = None \/
  exists x, avg_cycle_time_days metrics = Some x /\ (x == 0)%Q.
Proof.
  unfold _build_summary_box.
  destruct (avg_cycle_time_days metrics) as [x|] eqn:Ha.
  - destruct (Qeq_bool x 0) eqn:E.
    + apply Qeq_bool_iff in E. split.
      * intros _. right. now exists x.
      * intros _. cbn [In]. tauto.
    + apply Qeq_bool_neq in E. split.
      * cbn [In]. unfold metric_row.
        intros [H|[H|[H|[H|[H|[H|[H|[H|[H|[H|[H|[H|[H|[H|[]]]]]]]]]]]]]]];
          try discriminate H.
        injection H as H. exfalso. revert H. apply days_not_NA.
      * intros [H|(y & Hy & H0)]; [discriminate|].
        injection Hy as <-. contradiction.
  - split; [now left | intros _; cbn [In]; tauto].
Qed.

(** C8 at the input where the code departs from it: an Epic whose only
    issue was resolved at the instant it was created has an average cycle
    time of 0.0 days, which is not [None], and its sidebar shows ["N/A"];
    the scope change of 0.0 of another Epic is shown as ["0%"]. *)
Theorem summary_box_zero_cycle_time :
  (exists x,
     avg_cycle_time_days
       (calculate_metrics Sample.clock Sample.resolved_at_creation) = Some x
     /\ (x == 0)%Q) /\
  In (metric_row "Avg Cycle Time" "N/A")
     (_build_summary_box
        (calculate_metrics Sample.clock Sample.resolved_at_creation)) /\
  (exists y,
     scope_change_pct (calculate_metrics Sample.clock Sample.partial) = Some y
     /\ (y == 0)%Q) /\
  In (metric_row "Scope Change" "0%")
     (_build_summary_box (calculate_metrics Sample.clock Sample.partial)).
Proof.
  split; [|split; [|split]].
  - eexists. split; [vm_compute; reflexivity | reflexivity].
  - vm_compute. tauto.
  - eexists. split; [vm_compute; reflexivity | reflexivity].
  - vm_compute. tauto.
Qed.

(** * Further properties of the metrics engine *)

(** ** Issue counts *)

Lemma build_time_series_counts clk m cs :
  open_issues (_build_time_series clk m cs) = open_issues m /\
  unestimated_issues (_build_time_series clk m cs) = unestimated_issues m /\
  blocked_issues (_build_time_series clk m cs) = blocked_issues m /\
  avg_cycle_time_days (_build_time_series clk m cs) = avg_cycle_time_days m.
Proof.
  unfold _build_time_series.
  destruct (dated_children cs) as [|[c dt] rest]; [tauto|].
  cbv zeta. destruct (today clk <=? _); cbn; tauto.
Qed.

(** The counts and the cycle time of any Epic, with or without children. *)
Lemma calculate_metrics_counts clk epic :
  let cs := children epic in
  let m := calculate_metrics clk epic in
  total_issues m = len cs /\
  completed_issues m = count is_done cs /\
  open_issues m = total_issues m - completed_issues m /\
  unestimated_issues m = count (fun c => negb (truthy (story_points c))) cs /\
  blocked_issues m = count is_blocked cs /\
  avg_cycle_time_days m = _avg_cycle_time cs.
Proof.
  intros cs m. subst cs m.
  destruct (children epic) as [|c0 cs0] eqn:Hc.
  { unfold calculate_metrics. rewrite Hc. repeat split. }
  assert (Hne : children epic <> []) by congruence.
  destruct (calculate_metrics_scalars clk epic Hne) as (Ht & Hd & _).
  rewrite Hc in Ht, Hd. rewrite Ht, Hd.
  unfold calculate_metrics. rewrite Hc. cbv beta iota zeta.
  match goal with
  | |- context [_build_time_series clk ?r ?l] =>
      destruct (build_time_series_counts clk r l) as (H1 & H2 & H3 & H4)
  end.
  rewrite H1, H2, H3, H4. repeat split; reflexivity.
Qed.

Lemma count_bounds {A : Type} (p : A -> bool) (l : list A) :
  0 <= count p l <= len l.
Proof.
  unfold count, len. pose proof (filter_length_le p l). lia.
Qed.

Lemma count_complement {A : Type} (p : A -> bool) (l : list A) :
  count p l + count (fun x => negb (p x)) l = len l.
Proof.
  unfold count, len. pose proof (filter_length p l). lia.
Qed.

Lemma count_mono {A : Type} (p q : A -> bool) (l : list A) :
  (forall x, In x l -> p x = true -> q x = true) -> count p l <= count q l.
Proof.
  intro H. unfold count. apply inj_le. now apply length_filter_mono.
Qed.

(** X1. The issue counts of any Epic fit together: [total_issues] is the
    number of children, the completed and the open issues split it, the
    unestimated issues are among the children and the blocked issues are
    among the open ones. *)
Theorem issue_counts_invariant (clk : Clock) (epic : EpicData) :
  let m := calculate_metrics clk epic in
  total_issues m = len (children epic) /\
  0 <= completed_issues m <= total_issues m /\
  completed_issues m + open_issues m = total_issues m /\
  0 <= open_issues m /\
  0 <= unestimated_issues m <= total_issues m /\
  0 <= blocked_issues m <= open_issues m.
Proof.
  intro m.
  destruct (calculate_metrics_counts clk epic) as (Ht & Hd & Ho & Hu & Hb & _).
  fold m in Ht, Hd, Ho, Hu, Hb.
  pose proof (count_bounds is_done (children epic)) as B1.
  pose proof (count_bounds (fun c => negb (truthy (story_points c)))
                           (children epic)) as B2.
  pose proof (count_bounds is_blocked (children epic)) as B3.
  pose proof (count_complement is_done (children epic)) as B4.
  assert (B5 : count is_blocked (children epic)
               <= count (fun c => negb (is_done c)) (children epic)).
  { apply count_mono. intros c _ H. unfold is_blocked in H.
    now apply andb_true_iff in H as [_ H]. }
  rewrite Ho, Hu, Hb, Hd, Ht. lia.
Qed.

(** ** Story points *)

Lemma nonnegative_sp_value cs :
  nonnegative_points cs -> forall c, In c cs -> (0 <= sp_value c)%Q.
Proof.
  intros H c Hin. unfold sp_value.
  destruct (story_points c) as [q|] eqn:E; [exact (H c q Hin E) | lra].
Qed.

Lemma sum_filter_nonneg {A : Type} (g : A -> Q) (p : A -> bool) (l : list A) :
  (forall x, In x l -> 0 <= g x)%Q -> (0 <= sumQ (map g (filter p l)))%Q.
Proof.
  intro Hg.
  pose proof (sum_filter_mono (fun _ => false) p g l
                (fun x _ H => False_ind _ (diff_false_true H)) Hg) as H.
  rewrite (filter_none (fun _ : A => false) l (fun _ _ => eq_refl)) in H.
  exact H.
Qed.

(** Leaving out the issues whose story points are falsy does not change
    the sum. *)
Lemma sum_truthy_all (cs : list JiraIssue) :
  (sumQ (map sp_value (filter (fun c => truthy (story_points c)) cs))
   == sumQ (map sp_value cs))%Q.
Proof.
  induction cs as [|c cs IH]; simpl; [reflexivity|].
  destruct (truthy (story_points c)) eqn:Et; simpl.
  - rewrite !sumQ_cons, IH. reflexivity.
  - rewrite sumQ_cons, IH, (truthy_false_value c Et). lra.
Qed.

Lemma filter_all {A : Type} (p : A -> bool) (l : list A) :
  (forall x, In x l -> p x = true) -> filter p l = l.
Proof.
  induction l as [|a l IH]; intro H; simpl; [reflexivity|].
  rewrite (H a (or_introl eq_refl)). f_equal.
  apply IH. intros x Hx. apply H. now right.
Qed.

(** X2. For an Epic of the data model (story points not negative) the
    completed story points are between 0 and the total, the remaining
    ones are their difference and not negative, and the total is the sum
    of the story points of all the children, a missing estimate counting
    as zero. *)
Theorem story_points_invariant (clk : Clock) (epic : EpicData) :
  nonnegative_points (children epic) ->
  let m := calculate_metrics clk epic in
  (0 <= completed_sp m <= total_sp m)%Q /\
  (remaining_sp m == total_sp m - completed_sp m)%Q /\
  (0 <= remaining_sp m)%Q /\
  (total_sp m == sumQ (map sp_value (children epic)))%Q.
Proof.
  intros Hnn m.
  destruct (children epic) as [|c0 cs0] eqn:Hc.
  { subst m. unfold calculate_metrics. rewrite Hc. cbn. repeat split; lra. }
  assert (Hne : children epic <> []) by congruence.
  destruct (calculate_metrics_scalars clk epic Hne)
    as (_ & _ & Ht & Hd & Hr & _).
  fold m in Ht, Hd, Hr. rewrite Hc in *.
  set (cs := c0 :: cs0) in *.
  pose proof (nonnegative_sp_value cs Hnn) as Hsp.
  assert (H0 : (0 <= completed_sp m)%Q).
  { rewrite Hd. now apply sum_filter_nonneg. }
  assert (H1 : (completed_sp m <= total_sp m)%Q).
  { rewrite Hd, Ht. apply sum_filter_mono; [|exact Hsp].
    intros x _ H. now apply andb_true_iff in H as [H _]. }
  assert (H2 : (total_sp m == sumQ (map sp_value cs))%Q).
  { rewrite Ht. apply sum_truthy_all. }
  rewrite Hr. repeat split; try assumption; lra.
Qed.

(** Proves [nonnegative_points] of a list of issues written out. *)
Ltac solve_nonnegative :=
  let c := fresh "c" in
  let q := fresh "q" in
  let Hin := fresh "Hin" in
  let Hsp := fresh "Hsp" in
  intros c q Hin Hsp; simpl in Hin;
  repeat (destruct Hin as [<-|Hin];
          [simpl in Hsp; first [discriminate | injection Hsp as <-; lra]|]);
  contradiction.

(** The bounds of the completed story points alone. *)
Lemma story_points_bounds clk epic :
  nonnegative_points (children epic) ->
  (0 <= completed_sp (calculate_metrics clk epic)
   <= total_sp (calculate_metrics clk epic))%Q.
Proof.
  intro Hnn.
  destruct (children epic) as [|c0 cs0] eqn:Hc.
  { unfold calculate_metrics. rewrite Hc. cbn. lra. }
  assert (Hne : children epic <> []) by congruence.
  destruct (calculate_metrics_scalars clk epic Hne) as (_ & _ & Ht & Hd & _).
  rewrite Hc in *.
  pose proof (nonnegative_sp_value _ Hnn) as Hsp.
  rewrite Hd, Ht. split.
  - now apply sum_filter_nonneg.
  - apply sum_filter_mono; [|exact Hsp].
    intros x _ H. now apply andb_true_iff in H as [H _].
Qed.

Lemma story_points_invariant_witness :
  nonnegative_points (children Sample.five_of_thirteen) /\
  (let m := calculate_metrics Sample.clock Sample.five_of_thirteen in
   (0 <= completed_sp m <= total_sp m)%Q /\
   (remaining_sp m == total_sp m - completed_sp m)%Q /\
   (0 <= remaining_sp m)%Q /\
   (total_sp m == sumQ (map sp_value (children Sample.five_of_thirteen)))%Q).
Proof.
  assert (H : nonnegative_points (children Sample.five_of_thirteen))
    by solve_nonnegative.
  split; [exact H|].
  exact (story_points_invariant Sample.clock Sample.five_of_thirteen H).
Defined.

(** ** Progress at its ends *)

Lemma count_all {A : Type} (p : A -> bool) (l : list A) :
  count p l = len l <-> forall x, In x l -> p x = true.
Proof.
  unfold count, len. split.
  - intros H x Hx.
    assert (Hl : length (filter p l) = length l) by lia.
    apply filter_length_forallb in Hl.
    rewrite forallb_forall in Hl. now apply Hl.
  - intro H. now rewrite (filter_all p l H).
Qed.

Lemma count_none {A : Type} (p : A -> bool) (l : list A) :
  count p l = 0 <-> forall x, In x l -> p x = false.
Proof.
  unfold count. split.
  - intros H x Hx. destruct (p x) eqn:E; [|reflexivity].
    assert (Hin : In x (filter p l)) by (apply filter_In; now split).
    destruct (filter p l); [contradiction | simpl in H; lia].
  - intro H. now rewrite (filter_none p l H).
Qed.

(** A part of a positive whole, as a ratio. *)
Lemma ratio_unit (x y : Q) :
  (0 <= x <= y)%Q -> (0 < y)%Q ->
  (0 <= x / y <= 1)%Q /\ (x / y == 1 <-> x == y)%Q.
Proof.
  intros [Hx Hxy] Hy.
  assert (Hny : ~ (y == 0)%Q) by lra.
  split; [split|split].
  - apply Qle_shift_div_l; [exact Hy | lra].
  - apply Qle_shift_div_r; [exact Hy | lra].
  - intro H. assert (E : (x == (x / y) * y)%Q) by (field; exact Hny).
    rewrite E, H. ring.
  - intro H. rewrite H. field. exact Hny.
Qed.

Lemma clamp_full (v : Q) : (clamp v 0 100 == 100 <-> 100 <= v)%Q.
Proof. unfold clamp. Qcases; split; intro; lra. Qed.

Lemma clamp_zero (v : Q) : (clamp v 0 100 == 0 <-> v <= 0)%Q.
Proof. unfold clamp. Qcases; split; intro; lra. Qed.

(** What [_progress] computes for an Epic with children: the clamp of the
    issue ratio, weighted by the point ratio when there are points. *)
Lemma progress_value clk epic :
  children epic <> [] ->
  let m := calculate_metrics clk epic in
  let r := (inject_Z (completed_issues m) / inject_Z (total_issues m))%Q in
  ((total_sp m == 0)%Q /\ (progress m == clamp (r * 100) 0 100)%Q) \/
  (~ (total_sp m == 0)%Q /\
   (progress m == clamp ((completed_sp m / total_sp m) * r * 100) 0 100)%Q).
Proof.
  intros Hne m r.
  destruct (calculate_metrics_scalars clk epic Hne)
    as (Hti & _ & _ & _ & _ & Hp & _).
  fold m in Hti, Hp.
  assert (Hnz : (total_issues m =? 0) = false).
  { apply Z.eqb_neq. rewrite Hti. unfold len.
    destruct (children epic); [congruence | simpl; lia]. }
  rewrite Hp. unfold _progress. rewrite Hnz.
  destruct (Qeq_bool (total_sp m) 0) eqn:E.
  - left. split; [now apply Qeq_bool_iff | apply py_max_min_clamp].
  - right. split; [now apply Qeq_bool_neq | apply py_max_min_clamp].
Qed.

(** X3. For an Epic of the data model with at least one child, [progress]
    is 100 exactly when every child is ["Done"], and it is 0 when no
    child is. *)
Theorem progress_complete_iff (clk : Clock) (epic : EpicData) :
  children epic <> [] ->
  nonnegative_points (children epic) ->
  let m := calculate_metrics clk epic in
  ((progress m == 100)%Q <->
   forall c, In c (children epic) -> is_done c = true) /\
  ((forall c, In c (children epic) -> is_done c = false) ->
   (progress m == 0)%Q).
Proof.
  intros Hne Hnn m.
  destruct (calculate_metrics_scalars clk epic Hne)
    as (Hti & Hci & Ht & Hd & _).
  fold m in Hti, Hci, Ht, Hd.
  destruct (story_points_bounds clk epic Hnn) as (Hc0 & Hct).
  fold m in Hc0, Hct.
  assert (Hlen : 0 < len (children epic)).
  { unfold len. destruct (children epic); [congruence | simpl; lia]. }
  set (cs := children epic) in *.
  pose proof (count_bounds is_done cs) as Hb.
  set (r := (inject_Z (completed_issues m) / inject_Z (total_issues m))%Q).
  assert (Hr : (0 <= r <= 1)%Q /\ (r == 1 <-> completed_issues m = total_issues m)%Q).
  { assert (H1 : (0 <= inject_Z (completed_issues m)
                  <= inject_Z (total_issues m))%Q).
    { change 0%Q with (inject_Z 0). rewrite <- !Zle_Qle. lia. }
    assert (H2 : (0 < inject_Z (total_issues m))%Q).
    { change 0%Q with (inject_Z 0). rewrite <- Zlt_Qlt. lia. }
    destruct (ratio_unit _ _ H1 H2) as [Hr1 Hr2]. split; [exact Hr1|].
    unfold r. rewrite Hr2. split; [apply inject_Z_injective | now intros ->]. }
  destruct Hr as [[Hr0 Hr1] Hreq].
  assert (Hall : completed_issues m = total_issues m <->
                 forall c, In c cs -> is_done c = true).
  { rewrite Hci, Hti. apply count_all. }
  assert (Hnone : (forall c, In c cs -> is_done c = false) ->
                  (r == 0)%Q).
  { intro H. apply count_none in H. unfold r. rewrite Hci, H.
    unfold Qdiv. change (inject_Z 0) with 0%Q. ring. }
  destruct (progress_value clk epic Hne) as [[Hz Hp]|[Hnz Hp]];
    fold m in Hz || fold m in Hnz; fold m r in Hp; rewrite Hp.
  - split.
    + rewrite clamp_full, <- Hall, <- Hreq. split; intro; lra.
    + intro H. rewrite clamp_zero, (Hnone H). lra.
  - assert (Hpos : (0 < total_sp m)%Q) by lra.
    destruct (ratio_unit _ _ (conj Hc0 Hct) Hpos) as [[Ha0 Ha1] Haeq].
    set (a := (completed_sp m / total_sp m)%Q) in *.
    split.
    + rewrite clamp_full, <- Hall. split.
      * intro H. apply Hreq. assert (Har : (a * r <= r)%Q).
        { rewrite <- (Qmult_1_l r) at 2. apply Qmult_le_compat_r; lra. }
        lra.
      * intro H. assert (Hr1' : (r == 1)%Q) by (apply Hreq, H).
        pose proof (proj1 Hall H) as Hdone.
        assert (Hfull : (completed_sp m == total_sp m)%Q).
        { rewrite Hd, Ht.
          rewrite (filter_ext_in
                     (fun c => truthy (story_points c) && is_done c)
                     (fun c => truthy (story_points c)) cs); [reflexivity|].
          intros c Hc. rewrite (Hdone c Hc). apply andb_true_r. }
        apply Haeq in Hfull. rewrite Hfull, Hr1'. lra.
    + intro H. rewrite clamp_zero, (Hnone H). lra.
Qed.

Lemma progress_complete_iff_witness :
  children Sample.partial <> [] /\
  nonnegative_points (children Sample.partial) /\
  (let m := calculate_metrics Sample.clock Sample.partial in
   ((progress m == 100)%Q <->
    forall c, In c (children Sample.partial) -> is_done c = true) /\
   ((forall c, In c (children Sample.partial) -> is_done c = false) ->
    (progress m == 0)%Q)).
Proof.
  assert (H1 : children Sample.partial <> []) by discriminate.
  assert (H2 : nonnegative_points (children Sample.partial))
    by solve_nonnegative.
  split; [exact H1|]. split; [exact H2|].
  exact (progress_complete_iff Sample.clock Sample.partial H1 H2).
Defined.

(** ** Cycle time *)

Lemma cycle_durations_In (cs : list JiraIssue) (x : Q) :
  In x (cycle_durations cs) <->
  exists c cr rs,
    In c cs /\ is_done c = true /\ created c = Some cr /\ resolved c = Some rs /\
    x = (inject_Z (instant rs - instant cr) / inject_Z US_PER_DAY)%Q.
Proof.
  unfold cycle_durations. rewrite in_flat_map. split.
  - intros (c & Hc & Hx).
    destruct (created c) as [cr|] eqn:Ecr; [|contradiction].
    destruct (resolved c) as [rs|] eqn:Ers; [|contradiction].
    destruct (is_done c) eqn:Ed; [|contradiction].
    destruct Hx as [<-|[]]. exists c, cr, rs. auto.
  - intros (c & cr & rs & Hc & Hd & Hcr & Hrs & ->).
    exists c. split; [exact Hc|]. rewrite Hcr, Hrs, Hd. now left.
Qed.

(** X4. [avg_cycle_time_days] is [None] exactly when no child is ["Done"]
    with both a [created] and a [resolved] timestamp. *)
Theorem avg_cycle_time_defined (clk : Clock) (epic : EpicData) :
  let m := calculate_metrics clk epic in
  avg_cycle_time_days m = None <->
  forall c, In c (children epic) -> ~ has_cycle_time c.
Proof.
  intro m.
  destruct (calculate_metrics_counts clk epic) as (_ & _ & _ & _ & _ & Ha).
  fold m in Ha. rewrite Ha. unfold _avg_cycle_time.
  pose proof (cycle_durations_In (children epic)) as HIn.
  destruct (cycle_durations (children epic)) as [|d ds] eqn:Ed.
  - split; [|reflexivity]. intros _ c Hc (Hd & Hcr & Hrs).
    destruct (created c) as [cr|] eqn:Ecr; [|congruence].
    destruct (resolved c) as [rs|] eqn:Ers; [|congruence].
    apply (proj2 (HIn (inject_Z (instant rs - instant cr)
                       / inject_Z US_PER_DAY)%Q)).
    exists c, cr, rs. repeat split; auto.
  - split; [discriminate|]. intro H. exfalso.
    destruct (proj1 (HIn d) (or_introl eq_refl))
      as (c & cr & rs & Hc & Hd & Hcr & Hrs & _).
    apply (H c Hc). repeat split; congruence.
Qed.

(** ** Velocity and forecast *)



(** X6. A forecast date is never before today, and there is one only
    with a positive velocity and story points left. *)
Theorem forecast_not_before_today (clk : Clock) (epic : EpicData) (d : date) :
  forecast_date (calculate_metrics clk epic) = Some d ->
  today clk <= d /\
  (0 < remaining_sp (calculate_metrics clk epic))%Q /\
  exists v, velocity_sp_per_week (calculate_metrics clk epic) = Some v /\
            (0 < v)%Q.
Proof.
  intro Hd.
  destruct (calculate_metrics_optional clk epic) as (_ & _ & Hf).
  rewrite Hf in Hd. unfold _forecast in Hd.
  destruct (velocity_sp_per_week (calculate_metrics clk epic)) as [v|];
    [|discriminate].
  destruct (Qeq_bool v 0 || Qle_bool v 0
            || Qle_bool (remaining_sp (calculate_metrics clk epic)) 0) eqn:E;
    [discriminate|].
  apply orb_false_iff in E as [E E3]. apply orb_false_iff in E as [_ E2].
  assert (Hv : (0 < v)%Q).
  { apply Qnot_le_lt. intro H. apply Qle_bool_iff in H. congruence. }
  assert (Hr : (0 < remaining_sp (calculate_metrics clk epic))%Q).
  { apply Qnot_le_lt. intro H. apply Qle_bool_iff in H. congruence. }
  injection Hd as <-.
  split; [|split; [exact Hr | now exists v]].
  set (w := (remaining_sp (calculate_metrics clk epic) / v)%Q).
  assert (Hw : (0 <= w)%Q).
  { apply Qle_shift_div_l; [exact Hv | lra]. }
  pose proof (timedelta_of_weeks_days w) as [Hlo _].
  assert (H0 : Qfloor 0 <= Qfloor (7 * w)) by (apply Qfloor_resp_le; lra).
  change (Qfloor 0) with 0 in H0.
  unfold date_add. lia.
Qed.

Lemma forecast_not_before_today_witness :
  forecast_date (calculate_metrics Sample.clock Sample.five_of_thirteen)
  = Some (Sample.day0 + 44) /\
  today Sample.clock <= Sample.day0 + 44.
Proof.
  assert (H : forecast_date
                (calculate_metrics Sample.clock Sample.five_of_thirteen)
              = Some (Sample.day0 + 44)) by (vm_compute; reflexivity).
  split; [exact H|].
  exact (proj1 (forecast_not_before_today Sample.clock Sample.five_of_thirteen
                  (Sample.day0 + 44) H)).
Defined.

(** ** The days of the time series *)

Lemma min_datetime_spec (cur : datetime) (rest : list datetime) :
  In (min_datetime cur rest) (cur :: rest) /\
  forall x, In x (cur :: rest) -> instant (min_datetime cur rest) <= instant x.
Proof.
  revert cur. induction rest as [|y rest IH]; intro cur; simpl.
  - split; [now left | intros x [<-|[]]; lia].
  - destruct (IH (if dt_ltb y cur then y else cur)) as [Hin Hmin].
    assert (Hstep : instant (if dt_ltb y cur then y else cur) <= instant cur /\
                    instant (if dt_ltb y cur then y else cur) <= instant y).
    { unfold dt_ltb. destruct (instant y <? instant cur) eqn:E.
      - apply Z.ltb_lt in E. lia.
      - apply Z.ltb_ge in E. lia. }
    split.
    + destruct Hin as [Hin|Hin]; [|now right; right].
      destruct (dt_ltb y cur); rewrite <- Hin; [right; now left | now left].
    + intros x [<-|[<-|Hx]].
      * pose proof (Hmin _ (or_introl eq_refl)). lia.
      * pose proof (Hmin _ (or_introl eq_refl)). lia.
      * apply Hmin. now right.
Qed.

Lemma day_range_snoc (day max_date : date) :
  day <= max_date ->
  day_range day max_date = day_range day (max_date - 1) ++ [max_date].
Proof.
  intro H. unfold day_range.
  replace (Z.to_nat (max_date + 1 - day))
    with (S (Z.to_nat (max_date - 1 + 1 - day))) by lia.
  rewrite seq_S, map_app. cbn [map]. do 2 f_equal. lia.
Qed.

Lemma day_range_last (day max_date d : date) :
  day <= max_date -> last (day_range day max_date) d = max_date.
Proof. intro H. rewrite (day_range_snoc _ _ H). apply last_last. Qed.

Lemma day_range_head (day max_date : date) :
  day <= max_date -> exists tl, day_range day max_date = day :: tl.
Proof. intro H. rewrite (day_range_cons _ _ H). now eexists. Qed.

(** The dates of any Epic: nothing, or the days from the creation date
    [_build_time_series] starts at up to today. *)
Lemma calculate_metrics_dates clk epic :
  let m := calculate_metrics clk epic in
  dates m = [] \/
  exists first,
    In first (map snd (dated_children (children epic))) /\
    (forall dt, In dt (map snd (dated_children (children epic))) ->
                instant first <= instant dt) /\
    dt_date first < today clk /\
    dates m = day_range (dt_date first) (today clk).
Proof.
  cbv zeta. unfold calculate_metrics.
  destruct (children epic) as [|c0 cs0]; [now left|].
  cbv beta iota zeta. unfold _build_time_series.
  set (dated := dated_children (c0 :: cs0)).
  destruct dated as [|[c dt] rest] eqn:Hd; [now left|].
  cbv beta iota zeta.
  destruct (min_datetime_spec dt (map snd rest)) as [Hin Hmin].
  destruct (today clk <=? dt_date (min_datetime dt (map snd rest))) eqn:E;
    [now left|].
  apply Z.leb_gt in E. right.
  exists (min_datetime dt (map snd rest)).
  split; [exact Hin|]. split; [exact Hmin|]. split; [exact E|].
  rewrite series_loop_spec. reflexivity.
Qed.

(** X7. When there is a time series, its dates are the consecutive days
    from the creation date of an earliest-created child up to today: the
    first is that date, which is before today, the last is today, and
    there is one entry for each day between them. *)
Theorem dates_span (clk : Clock) (epic : EpicData) :
  dates (calculate_metrics clk epic) <> [] ->
  exists (c : JiraIssue) (first : datetime),
    In c (children epic) /\ created c = Some first /\
    (forall c' dt, In c' (children epic) -> created c' = Some dt ->
                   instant first <= instant dt) /\
    dt_date first < today clk /\
    dates (calculate_metrics clk epic) = day_range (dt_date first) (today clk) /\
    hd_error (dates (calculate_metrics clk epic)) = Some (dt_date first) /\
    last (dates (calculate_metrics clk epic)) 0 = today clk /\
    len (dates (calculate_metrics clk epic)) = today clk - dt_date first + 1.
Proof.
  intro Hne.
  destruct (calculate_metrics_dates clk epic)
    as [Hnil|(first & Hin & Hmin & Hlt & Hd)]; [contradiction|].
  apply in_map_iff in Hin as ([c dt] & Heq & Hin). simpl in Heq. subst dt.
  apply dated_children_In in Hin as [Hc Hcr].
  exists c, first. split; [exact Hc|]. split; [exact Hcr|].
  split.
  { intros c' dt Hc' Hcr'. apply Hmin.
    apply in_map_iff. exists (c', dt). split; [reflexivity|].
    apply dated_children_In. now split. }
  split; [exact Hlt|]. split; [exact Hd|].
  rewrite Hd.
  destruct (day_range_head (dt_date first) (today clk)) as [tl Htl]; [lia|].
  split; [now rewrite Htl|].
  split; [apply day_range_last; lia|].
  unfold len. rewrite day_range_length. lia.
Qed.

Lemma dates_span_witness :
  dates (calculate_metrics Sample.clock Sample.five_of_thirteen) <> [] /\
  exists (c : JiraIssue) (first : datetime),
    In c (children Sample.five_of_thirteen) /\ created c = Some first /\
    (forall c' dt, In c' (children Sample.five_of_thirteen) ->
                   created c' = Some dt -> instant first <= instant dt) /\
    dt_date first < today Sample.clock /\
    dates (calculate_metrics Sample.clock Sample.five_of_thirteen)
    = day_range (dt_date first) (today Sample.clock) /\
    hd_error (dates (calculate_metrics Sample.clock Sample.five_of_thirteen))
    = Some (dt_date first) /\
    last (dates (calculate_metrics Sample.clock Sample.five_of_thirteen)) 0
    = today Sample.clock /\
    len (dates (calculate_metrics Sample.clock Sample.five_of_thirteen))
    = today Sample.clock - dt_date first + 1.
Proof.
  assert (H : dates (calculate_metrics Sample.clock Sample.five_of_thirteen)
              <> []) by (vm_compute; discriminate).
  split; [exact H|].
  exact (dates_span Sample.clock Sample.five_of_thirteen H).
Defined.

(** X8. An Epic none of whose children was created before today has no
    time series: all five arrays stay empty, whether the children carry
    no creation time or were all created today or later. *)
Theorem no_series_without_history (clk : Clock) (epic : EpicData) :
  (forall c dt, In c (children epic) -> created c = Some dt ->
                today clk <= dt_date dt) ->
  let m := calculate_metrics clk epic in
  dates m = [] /\ total_sp_over_time m = [] /\ completed_sp_over_time m = [] /\
  cumulative_issues m = [] /\ cumulative_unestimated m = [].
Proof.
  intros Hall m.
  assert (Hd : dates m = []).
  { destruct (calculate_metrics_dates clk epic)
      as [Hnil|(first & Hin & _ & Hlt & _)]; [exact Hnil|].
    apply in_map_iff in Hin as ([c dt] & Heq & Hin). simpl in Heq. subst dt.
    apply dated_children_In in Hin as [Hc Hcr].
    specialize (Hall c first Hc Hcr). lia. }
  destruct (calculate_metrics_series clk epic)
    as (days & _ & Hdays & Ht & Hc & Hi & Hu).
  fold m in Hdays, Ht, Hc, Hi, Hu.
  rewrite Hd in Hdays. subst days.
  rewrite Ht, Hc, Hi, Hu. repeat split; assumption || reflexivity.
Qed.

Lemma no_series_without_history_witness :
  (forall c dt, In c (children Sample_created_today) -> created c = Some dt ->
                today Sample.clock <= dt_date dt) /\
  dates (calculate_metrics Sample.clock Sample_created_today) = [].
Proof.
  assert (H : forall c dt, In c (children Sample_created_today) ->
                created c = Some dt -> today Sample.clock <= dt_date dt).
  { intros c dt [<-|[<-|[]]] Hc; simpl in Hc; injection Hc as <-;
      vm_compute; discriminate. }
  split; [exact H|].
  exact (proj1 (no_series_without_history Sample.clock Sample_created_today H)).
Defined.

(** ** The time series against the totals *)

Lemma sumQ_map_ext {A : Type} (f g : A -> Q) (l : list A) :
  (forall x, In x l -> f x == g x)%Q -> (sumQ (map f l) == sumQ (map g l))%Q.
Proof.
  induction l as [|a l IH]; intro H; [reflexivity|].
  cbn [map]. rewrite !sumQ_cons, (H a (or_introl eq_refl)).
  rewrite (IH (fun x Hx => H x (or_intror Hx))). reflexivity.
Qed.

Lemma or_zero_sp_value (c : JiraIssue) :
  (or_zero (story_points c) == sp_value c)%Q.
Proof.
  unfold or_zero, sp_value. destruct (story_points c) as [q|]; [|reflexivity].
  destruct (Qeq_bool q 0) eqn:E; [|reflexivity].
  apply Qeq_bool_iff in E. now rewrite E.
Qed.

(** The issues of the dated pairs are the children that have a creation
    time, in their order. *)
Lemma dated_children_fst (cs : list JiraIssue) :
  map fst (dated_children cs)
  = filter (fun c => match created c with Some _ => true | None => false end) cs.
Proof.
  induction cs as [|c cs IH]; [reflexivity|].
  unfold dated_children in *. cbn [flat_map filter].
  destruct (created c); cbn [app map fst]; now rewrite IH.
Qed.

(** The sum over a part of the children, estimated or not, as the code
    takes it over the estimated ones. *)
Lemma sum_truthy_filter (p : JiraIssue -> bool) (cs : list JiraIssue) :
  (sumQ (map sp_value (filter (fun c => truthy (story_points c) && p c) cs))
   == sumQ (map sp_value (filter p cs)))%Q.
Proof.
  induction cs as [|c cs IH]; simpl; [reflexivity|].
  destruct (p c).
  - destruct (truthy (story_points c)) eqn:Et; simpl.
    + rewrite !sumQ_cons, IH. reflexivity.
    + rewrite sumQ_cons, IH, (truthy_false_value c Et). lra.
  - rewrite andb_false_r. exact IH.
Qed.

(** The story points of the children created by a day are among those of
    all the children. *)
Lemma total_sp_on_le_total (cs : list JiraIssue) (d : date) :
  nonnegative_points cs ->
  (total_sp_on (dated_children cs) d <= sumQ (map sp_value cs))%Q.
Proof.
  intro Hnn. pose proof (nonnegative_sp_value cs Hnn) as Hsp.
  set (dated := dated_children cs).
  set (g := fun p : JiraIssue * datetime => sp_value (fst p)).
  assert (Hg : forall x, In x dated -> (0 <= g x)%Q).
  { intros [c dt] Hin. apply dated_children_In in Hin as [Hin _].
    now apply Hsp. }
  apply Qle_trans with (sumQ (map g dated)).
  - rewrite total_sp_on_filter.
    rewrite (sumQ_map_ext (fun p => or_zero (story_points (fst p))) g)
      by (intros; apply or_zero_sp_value).
    rewrite <- (filter_all (fun _ : JiraIssue * datetime => true) dated
                  (fun _ _ => eq_refl)) at 2.
    apply sum_filter_mono; [reflexivity | exact Hg].
  - unfold g. rewrite <- (map_map fst sp_value). unfold dated.
    rewrite dated_children_fst.
    rewrite <- (filter_all (fun _ : JiraIssue => true) cs (fun _ _ => eq_refl)) at 2.
    apply sum_filter_mono; [reflexivity | exact Hsp].
Qed.

Lemma total_sp_all clk epic :
  (total_sp (calculate_metrics clk epic) == sumQ (map sp_value (children epic)))%Q.
Proof.
  destruct (children epic) as [|c0 cs0] eqn:Hc.
  { unfold calculate_metrics. rewrite Hc. reflexivity. }
  assert (Hne : children epic <> []) by congruence.
  destruct (calculate_metrics_scalars clk epic Hne) as (_ & _ & Ht & _).
  rewrite Ht, Hc. apply sum_truthy_all.
Qed.

Lemma completed_sp_done clk epic :
  (completed_sp (calculate_metrics clk epic)
   == sumQ (map sp_value (filter is_done (children epic))))%Q.
Proof.
  destruct (children epic) as [|c0 cs0] eqn:Hc.
  { unfold calculate_metrics. rewrite Hc. reflexivity. }
  assert (Hne : children epic <> []) by congruence.
  destruct (calculate_metrics_scalars clk epic Hne) as (_ & _ & _ & Hd & _).
  rewrite Hd, Hc. apply sum_truthy_filter.
Qed.

(** ** Progress

    The claim is stated over the children themselves: what is counted
    and summed is written out, so that the formula is about the numbers
    of this Epic. *)

(** C1. For an Epic with at least one child, [calculate_metrics] sets
    [total_issues] to the number of children, which is not zero,
    [completed_issues] to the number of children whose status category is
    ["Done"], [total_sp] and [completed_sp] to the sums of the story
    points of the children and of the ["Done"] children (a missing
    estimate adding nothing), and [progress] to
    [clamp(completed_issues/total_issues*100, 0, 100)] when
    [total_sp == 0], to
    [clamp((completed_sp/total_sp)*(completed_issues/total_issues)*100, 0, 100)]
    when [total_sp > 0]; [progress] lies in [0, 100]. *)
Theorem progress_formula (clk : Clock) (epic : EpicData) :
  children epic <> [] ->
  let cs := children epic in
  let done := filter (fun c => (status_category c =? "Done")%string) cs in
  let points := fun c : JiraIssue =>
                  match story_points c with Some q => q | None => 0%Q end in
  let m := calculate_metrics clk epic in
  let issue_ratio := (inject_Z (completed_issues m) / inject_Z (total_issues m))%Q in
  total_issues m = Z.of_nat (length cs) /\
  0 < total_issues m /\
  completed_issues m = Z.of_nat (length done) /\
  (total_sp m == sumQ (map points cs))%Q /\
  (completed_sp m == sumQ (map points done))%Q /\
  (total_sp m == 0 -> progress m == clamp (issue_ratio * 100) 0 100)%Q /\
  (0 < total_sp m ->
   progress m == clamp ((completed_sp m / total_sp m) * issue_ratio * 100) 0 100)%Q /\
  (0 <= progress m <= 100)%Q.
Proof.
  intros Hne cs done points m ratio.
  destruct (calculate_metrics_scalars clk epic Hne)
    as (Hti & Hci & _ & _ & _ & Hp & _).
  fold m cs in Hti, Hci, Hp.
  assert (Hpos : 0 < total_issues m).
  { rewrite Hti. unfold len. subst cs.
    destruct (children epic); [congruence | simpl; lia]. }
  assert (Hnz : (total_issues m =? 0) = false) by (apply Z.eqb_neq; lia).
  assert (Hcases :
    (total_sp m == 0 /\ progress m == clamp (ratio * 100) 0 100)%Q \/
    (~ total_sp m == 0 /\
     progress m == clamp ((completed_sp m / total_sp m) * ratio * 100) 0 100)%Q).
  { rewrite Hp. unfold _progress. rewrite Hnz.
    destruct (Qeq_bool (total_sp m) 0) eqn:E.
    - left. split; [now apply Qeq_bool_iff | apply py_max_min_clamp].
    - right. split; [now apply Qeq_bool_neq | apply py_max_min_clamp]. }
  split; [exact Hti|]. split; [exact Hpos|]. split; [exact Hci|].
  split; [exact (total_sp_all clk epic)|].
  split; [exact (completed_sp_done clk epic)|].
  split; [|split].
  - intro H0. destruct Hcases as [[_ H]|[Hn _]]; [exact H | contradiction].
  - intro Hgt. destruct Hcases as [[H0 _]|[_ H]]; [lra | exact H].
  - destruct Hcases as [[_ H]|[_ H]]; rewrite H; apply clamp_bounds.
Qed.

Lemma progress_formula_witness :
  children Sample.partial <> [] /\
  (let cs := children Sample.partial in
   let done := filter (fun c => (status_category c =? "Done")%string) cs in
   let points := fun c : JiraIssue =>
                   match story_points c with Some q => q | None => 0%Q end in
   let m := calculate_metrics Sample.clock Sample.partial in
   let issue_ratio :=
     (inject_Z (completed_issues m) / inject_Z (total_issues m))%Q in
   total_issues m = Z.of_nat (length cs) /\
   0 < total_issues m /\
   completed_issues m = Z.of_nat (length done) /\
   (total_sp m == sumQ (map points cs))%Q /\
   (completed_sp m == sumQ (map points done))%Q /\
   (total_sp m == 0 -> progress m == clamp (issue_ratio * 100) 0 100)%Q /\
   (0 < total_sp m ->
    progress m
    == clamp ((completed_sp m / total_sp m) * issue_ratio * 100) 0 100)%Q /\
   (0 <= progress m <= 100)%Q).
Proof.
  split; [discriminate|].
  apply (progress_formula Sample.clock Sample.partial). discriminate.
Defined.

(** X9. On every day of the time series the unestimated issues are among
    the issues created so far, which are among the children; and, for an
    Epic of the data model (no negative story points), the completed
    story points are among the story points created so far, which are
    among the total. *)
Theorem series_within_totals (clk : Clock) (epic : EpicData) :
  let m := calculate_metrics clk epic in
  forall (i : nat) (n u : Z) (t c : Q),
    nth_error (cumulative_issues m) i = Some n ->
    nth_error (cumulative_unestimated m) i = Some u ->
    nth_error (total_sp_over_time m) i = Some t ->
    nth_error (completed_sp_over_time m) i = Some c ->
    0 <= u <= n /\ n <= total_issues m /\
    (nonnegative_points (children epic) ->
     (0 <= c <= t)%Q /\ (t <= total_sp m)%Q).
Proof.
  intros m i n u t c Hn Hu Ht Hc.
  destruct (calculate_metrics_series clk epic)
    as (days & _ & _ & Et & Ec & Ei & Eu).
  fold m in Et, Ec, Ei, Eu.
  rewrite Ei, nth_error_map in Hn. rewrite Eu, nth_error_map in Hu.
  rewrite Et, nth_error_map in Ht. rewrite Ec, nth_error_map in Hc.
  destruct (nth_error days i) as [d|]; [|discriminate].
  simpl in Hn, Hu, Ht, Hc.
  injection Hn as <-. injection Hu as <-. injection Ht as <-. injection Hc as <-.
  set (dated := dated_children (children epic)).
  destruct (calculate_metrics_counts clk epic) as (Hti & _).
  fold m in Hti.
  split; [|split].
  - rewrite cum_unest_on_filter, cum_issues_on_filter. split; [lia|].
    apply inj_le, length_filter_mono.
    intros x _ H. now apply andb_true_iff in H as [H _].
  - rewrite cum_issues_on_filter, Hti. unfold len.
    pose proof (filter_length_le (fun p => dt_date (snd p) <=? d) dated).
    pose proof (dated_children_length (children epic)). fold dated in H0. lia.
  - intro Hnn.
    assert (Hsp : forall x, In x dated ->
                    (0 <= or_zero (story_points (fst x)))%Q).
    { intros [c dt] Hin. apply dated_children_In in Hin as [Hin _].
      apply or_zero_nonneg. intros q Hq. exact (Hnn c q Hin Hq). }
    split.
    + rewrite completed_sp_on_filter, total_sp_on_filter. split.
      * now apply sum_filter_nonneg.
      * apply sum_filter_mono; [|exact Hsp].
        intros x _ H. now apply andb_true_iff in H as [H _].
    + pose proof (total_sp_all clk epic) as Hts. fold m in Hts.
      rewrite Hts. now apply total_sp_on_le_total.
Qed.

Lemma series_within_totals_witness :
  nonnegative_points (children Sample.five_of_thirteen) /\
  (let m := calculate_metrics Sample.clock Sample.five_of_thirteen in
   nth_error (cumulative_issues m) 10 = Some 2 /\
   nth_error (cumulative_unestimated m) 10 = Some 0 /\
   nth_error (total_sp_over_time m) 10 = Some 13%Q /\
   nth_error (completed_sp_over_time m) 10 = Some 5%Q /\
   0 <= 0 <= 2 /\ 2 <= total_issues m /\
   (0 <= 5 <= 13)%Q /\ (13 <= total_sp m)%Q).
Proof.
  assert (H : nonnegative_points (children Sample.five_of_thirteen))
    by solve_nonnegative.
  split; [exact H|]. intro m.
  assert (Hn : nth_error (cumulative_issues m) 10 = Some 2)
    by (vm_compute; reflexivity).
  assert (Hu : nth_error (cumulative_unestimated m) 10 = Some 0)
    by (vm_compute; reflexivity).
  assert (Ht : nth_error (total_sp_over_time m) 10 = Some 13%Q)
    by (vm_compute; reflexivity).
  assert (Hc : nth_error (completed_sp_over_time m) 10 = Some 5%Q)
    by (vm_compute; reflexivity).
  destruct (series_within_totals Sample.clock Sample.five_of_thirteen
              10%nat 2 0 13%Q 5%Q Hn Hu Ht Hc) as (H1 & H2 & H3).
  destruct (H3 H) as (H4 & H5).
  repeat (split; try assumption).
Defined.

(** ** The end of the time series *)

Lemma last_map {A B : Type} (f : A -> B) (l : list A) (a : A) (b : B) :
  l <> [] -> last (map f l) b = f (last l a).
Proof.
  induction l as [|x l IH]; intro H; [congruence|].
  destruct l as [|y l]; [reflexivity|].
  change (last (map f (y :: l)) b = f (last (y :: l) a)).
  apply IH. discriminate.
Qed.

(** With every child created by today, the children created by today
    are all the children. *)
Lemma created_by_today_all clk cs :
  all_created_by_today clk cs ->
  created_by (dated_children cs) (today clk) = cs.
Proof.
  intro Hall. unfold created_by.
  rewrite filter_all.
  - rewrite dated_children_fst. apply filter_all.
    intros c Hc. destruct (Hall c Hc) as (dt & -> & _). reflexivity.
  - intros [c dt] Hin. apply dated_children_In in Hin as [Hc Hcr].
    destruct (Hall c Hc) as (dt' & Hcr' & Hle).
    rewrite Hcr in Hcr'. injection Hcr' as <-.
    cbn [snd]. now apply Z.leb_le.
Qed.

(** X10. When every child has a creation time that is not after today,
    the time series ends at the totals: its last entries are
    [total_issues], [unestimated_issues] and [total_sp], and, when every
    ["Done"] child also has a resolution time not after the end of today,
    [completed_sp]. *)
Theorem series_ends_at_totals (clk : Clock) (epic : EpicData) :
  dates (calculate_metrics clk epic) <> [] ->
  all_created_by_today clk (children epic) ->
  let m := calculate_metrics clk epic in
  last (cumulative_issues m) 0 = total_issues m /\
  last (cumulative_unestimated m) 0 = unestimated_issues m /\
  (last (total_sp_over_time m) 0 == total_sp m)%Q /\
  (all_done_resolved_by_today clk (children epic) ->
   (last (completed_sp_over_time m) 0 == completed_sp m)%Q).
Proof.
  intros Hne Hall m.
  destruct (calculate_metrics_dates clk epic)
    as [Hnil|(first & _ & _ & Hlt & Hd)]; [contradiction|].
  destruct (calculate_metrics_series clk epic)
    as (days & _ & Ed & Et & Ec & Ei & Eu).
  fold m in Hd, Ed, Et, Ec, Ei, Eu.
  assert (Hdays : days = day_range (dt_date first) (today clk)) by congruence.
  assert (Hdne : days <> []).
  { rewrite Hdays.
    destruct (day_range_head (dt_date first) (today clk)) as [tl ->];
      [lia | discriminate]. }
  assert (Hlast : last days 0 = today clk).
  { rewrite Hdays. apply day_range_last. lia. }
  destruct (calculate_metrics_counts clk epic) as (Hti & _ & _ & Hun & _).
  fold m in Hti, Hun.
  pose proof (created_by_today_all clk (children epic) Hall) as Hcb.
  rewrite Ei, Eu, Et, Ec.
  rewrite !(last_map _ days 0 _ Hdne), Hlast.
  unfold cum_issues_on, cum_unest_on, total_sp_on, completed_sp_on, done_by.
  rewrite Hcb. split; [now rewrite Hti|]. split; [now rewrite Hun|]. split.
  - pose proof (total_sp_all clk epic) as Hts. fold m in Hts. rewrite Hts.
    apply sumQ_map_ext. intros; apply or_zero_sp_value.
  - intro Hres.
    pose proof (completed_sp_done clk epic) as Hcs. fold m in Hcs. rewrite Hcs.
    rewrite (filter_ext_in
               (fun c => is_done c && resolved_by (day_end clk (today clk)) c)
               is_done (children epic)).
    + apply sumQ_map_ext. intros; apply or_zero_sp_value.
    + intros c Hc. destruct (is_done c) eqn:E; [|reflexivity].
      now rewrite (Hres c Hc E).
Qed.

Lemma series_ends_at_totals_witness :
  dates (calculate_metrics Sample.clock Sample.five_of_thirteen) <> [] /\
  all_created_by_today Sample.clock (children Sample.five_of_thirteen) /\
  (let m := calculate_metrics Sample.clock Sample.five_of_thirteen in
   last (cumulative_issues m) 0 = total_issues m /\
   last (cumulative_unestimated m) 0 = unestimated_issues m /\
   (last (total_sp_over_time m) 0 == total_sp m)%Q /\
   (all_done_resolved_by_today Sample.clock (children Sample.five_of_thirteen) ->
    (last (completed_sp_over_time m) 0 == completed_sp m)%Q)).
Proof.
  assert (H1 : dates (calculate_metrics Sample.clock Sample.five_of_thirteen)
               <> []) by (vm_compute; discriminate).
  assert (H2 : all_created_by_today Sample.clock
                 (children Sample.five_of_thirteen)).
  { intros c [<-|[<-|[]]]; eexists; (split; [reflexivity|]);
      vm_compute; discriminate. }
  split; [exact H1|]. split; [exact H2|].
  exact (series_ends_at_totals Sample.clock Sample.five_of_thirteen H1 H2).
Defined.

(** ** Scope change and the order of the children *)

Lemma sort_by_created_head_instant l l' c f r c' f' r' :
  Permutation l l' ->
  sort_by_created l = (c, f) :: r ->
  sort_by_created l' = (c', f') :: r' ->
  instant f = instant f'.
Proof.
  intros Hp Hs Hs'.
  pose proof (sort_by_created_head l) as Hh. rewrite Hs in Hh.
  pose proof (sort_by_created_head l') as Hh'. rewrite Hs' in Hh'.
  simpl in Hh, Hh'. rewrite Forall_forall in Hh, Hh'.
  assert (H1 : In (c', f') ((c, f) :: r)).
  { rewrite <- Hs.
    apply (Permutation_in _ (Permutation_sym (sort_by_created_perm l))).
    apply (Permutation_in _ (Permutation_sym Hp)).
    apply (Permutation_in _ (sort_by_created_perm l')).
    rewrite Hs'. now left. }
  assert (H2 : In (c, f) ((c', f') :: r')).
  { rewrite <- Hs'.
    apply (Permutation_in _ (Permutation_sym (sort_by_created_perm l'))).
    apply (Permutation_in _ Hp).
    apply (Permutation_in _ (sort_by_created_perm l)).
    rewrite Hs. now left. }
  specialize (Hh _ H1). specialize (Hh' _ H2). simpl in Hh, Hh'. lia.
Qed.

(** X11. The scope change does not depend on the order in which the
    children are listed. *)
Theorem scope_change_order_independent (cs cs' : list JiraIssue) :
  Permutation cs cs' -> _scope_change cs = _scope_change cs'.
Proof.
  intro Hp.
  assert (Hd : Permutation (dated_children cs) (dated_children cs')).
  { unfold dated_children. now apply Permutation_flat_map. }
  pose proof (Permutation_length Hp) as Hl.
  pose proof (Permutation_length Hd) as Hdl.
  destruct (scope_change_cases cs)
    as [[Hlen Hnone]|(Hlen & c0 & first & rest & Hsort & Hsome)];
    destruct (scope_change_cases cs')
      as [[Hlen' Hnone']|(Hlen' & c0' & first' & rest' & Hsort' & Hsome')];
    try lia.
  - congruence.
  - rewrite Hsome, Hsome'. rewrite !created_later_count.
    rewrite (sort_by_created_head_instant _ _ _ _ _ _ _ _ Hd Hsort Hsort').
    unfold len. rewrite Hl.
    assert (Hcount :
      created_later (instant first')
        (map (fun p => instant (snd p)) (sort_by_created (dated_children cs)))
      = created_later (instant first')
          (map (fun p => instant (snd p)) (sort_by_created (dated_children cs')))).
    2: { now rewrite Hcount. }
    unfold created_later, count.
    apply (f_equal Z.of_nat), filter_length_perm, Permutation_map.
    rewrite (sort_by_created_perm (dated_children cs)), Hd.
    symmetry. apply sort_by_created_perm.
Qed.

Lemma scope_change_order_independent_witness :
  Permutation (children Sample.grown) (rev (children Sample.grown)) /\
  _scope_change (children Sample.grown)
  = _scope_change (rev (children Sample.grown)).
Proof.
  assert (H : Permutation (children Sample.grown) (rev (children Sample.grown)))
    by apply Permutation_rev.
  split; [exact H|].
  exact (scope_change_order_independent _ _ H).
Defined.

(** * Further properties of the chart renderer *)

(** ** Weekend bands *)

Lemma band_step_invariant (a d : date) (st : BandState) :
  a <= d -> bands_invariant a d st -> bands_invariant a (d + 1) (band_step st d).
Proof.
  intros Had (Hb & Hin & Hout & Hcov).
  unfold band_step.
  destruct (5 <=? weekday d) eqn:Ew.
  - apply Z.leb_le in Ew.
    destruct (in_weekend st) eqn:Ei; cbn [negb].
    + (* the weekend goes on *)
      destruct (Hin eq_refl) as (s & Hs & Hs1 & Hs2 & Hs3 & Hs4 & Hs5).
      assert (Hsd : s = d - 1).
      { unfold weekday in *. Z.div_mod_to_equations. lia. }
      split; [|split; [|split]].
      * intros s' e' H. specialize (Hb s' e' H). lia.
      * intros _. exists s. rewrite Hs.
        replace (d + 1 - 1) with d by lia. repeat split; try lia; auto.
      * rewrite Ei. discriminate.
      * intros x Hx Hwx.
        destruct (Z.eq_dec x d) as [->|Hne].
        { right. split; [exact Ei|]. exists s. split; [exact Hs | lia]. }
        destruct (Hcov x ltac:(lia) Hwx)
          as [(s' & e' & H & Hse)|(_ & s' & Hs' & Hle)].
        -- left. now exists s', e'.
        -- right. split; [exact Ei|]. exists s'. now split.
    + (* a weekend starts *)
      split; [|split; [|split]]; cbn [bands in_weekend band_start].
      * intros s' e' H. specialize (Hb s' e' H). lia.
      * intros _. exists d. replace (d + 1 - 1) with d by lia.
        repeat split; try lia; auto.
      * discriminate.
      * intros x Hx Hwx.
        destruct (Z.eq_dec x d) as [->|Hne].
        -- right. split; [reflexivity|]. exists d. split; [reflexivity | lia].
        -- destruct (Hcov x ltac:(lia) Hwx)
             as [(s' & e' & H & Hse)|(Hcontra & _)]; [|congruence].
           left. now exists s', e'.
  - apply Z.leb_gt in Ew.
    destruct (in_weekend st) eqn:Ei.
    + (* the weekend ends: the band is closed *)
      destruct (Hin eq_refl) as (s & Hs & Hs1 & Hs2 & Hs3 & Hs4 & Hs5).
      rewrite Hs.
      split; [|split; [|split]]; cbn [bands in_weekend band_start].
      * intros s' e' H. apply in_app_or in H as [H|[H|[]]].
        -- specialize (Hb s' e' H). lia.
        -- injection H as <- <-.
           unfold weekday in *. Z.div_mod_to_equations. lia.
      * discriminate.
      * intros _. right. replace (d + 1 - 1) with d by lia. exact Ew.
      * intros x Hx Hwx. left.
        assert (Hxd : x <> d) by (intros ->; lia).
        destruct (Hcov x ltac:(lia) Hwx)
          as [(s' & e' & H & Hse)|(_ & s' & Hs' & Hle)].
        -- exists s', e'. split; [apply in_or_app; now left | exact Hse].
        -- exists s, d. split; [apply in_or_app; right; now left|].
           assert (s' = s) by congruence. lia.
    + (* an ordinary day *)
      assert (Hsame :
        match band_start st with
        | Some _ => st
        | None => st
        end = st) by (destruct (band_start st); reflexivity).
      replace (match band_start st with Some _ => st | None => st end) with st.
      split; [|split; [|split]].
      * intros s' e' H. specialize (Hb s' e' H). lia.
      * intro H. congruence.
      * intros _. right. replace (d + 1 - 1) with d by lia. exact Ew.
      * intros x Hx Hwx.
        assert (Hxd : x <> d) by (intros ->; lia).
        destruct (Hcov x ltac:(lia) Hwx) as [H|[H _]]; [now left | congruence].
Qed.

Lemma bands_fold_invariant (a b : date) (n : nat) :
  forall (d : date) (st : BandState),
    Z.of_nat n = b + 1 - d -> a <= d ->
    bands_invariant a d st ->
    bands_invariant a (b + 1) (fold_left band_step (day_range d b) st).
Proof.
  induction n as [|n IH]; intros d st Hn Had Hinv.
  - rewrite day_range_nil by lia. simpl.
    replace (b + 1) with d by lia. exact Hinv.
  - rewrite day_range_cons by lia. cbn [fold_left].
    apply IH; [lia | lia |]. now apply band_step_invariant.
Qed.

Lemma bands_invariant_init (a : date) :
  bands_invariant a a (mkBandState false None []).
Proof.
  split; [|split; [|split]]; cbn.
  - intros s e [].
  - discriminate.
  - intros _. left. lia.
  - intros x Hx. lia.
Qed.

(** X12. Over consecutive days, such as the dates of a time series, the
    weekend bands are these: every band starts on a Saturday or Sunday of
    the range and ends no more than two days later, on the Monday that
    follows or on the last day of the range, and every Saturday and
    Sunday of the range lies inside a band. *)
Theorem weekend_bands_consecutive (a b : date) :
  a <= b ->
  (forall s e, In (s, e) (_draw_weekend_bands (day_range a b)) ->
     a <= s /\ s <= e /\ e <= b /\ e <= s + 2 /\ 5 <= weekday s /\
     (weekday e = 0 \/ e = b)) /\
  (forall x, a <= x <= b -> 5 <= weekday x ->
     exists s e, In (s, e) (_draw_weekend_bands (day_range a b)) /\ s <= x <= e).
Proof.
  intro Hab.
  pose proof (bands_fold_invariant a b (Z.to_nat (b + 1 - a)) a
                (mkBandState false None []) ltac:(lia) ltac:(lia)
                (bands_invariant_init a)) as (Hb & Hin & _ & Hcov).
  unfold _draw_weekend_bands.
  destruct (day_range_head a b Hab) as [tl Htl].
  pose proof (day_range_last a b 0 Hab) as Hlast.
  rewrite Htl in *.
  set (st := fold_left band_step (a :: tl) (mkBandState false None [])) in *.
  replace (b + 1 - 1) with b in * by lia.
  destruct (in_weekend st) eqn:Ei.
  - destruct (Hin eq_refl) as (s0 & Hs0 & H1 & H2 & H3 & H4 & H5).
    rewrite Hs0, Hlast. split.
    + intros s e H. apply in_app_or in H as [H|[H|[]]].
      * specialize (Hb s e H). lia.
      * injection H as <- <-. lia.
    + intros x Hx Hwx.
      destruct (Hcov x Hx Hwx) as [(s & e & H & Hse)|(_ & s & Hs & Hle)].
      * exists s, e. split; [apply in_or_app; now left | exact Hse].
      * exists s0, b. split; [apply in_or_app; right; now left|].
        assert (s = s0) by congruence. lia.
  - assert (Hbands :
      match band_start st with
      | Some _ => bands st
      | None => bands st
      end = bands st) by (destruct (band_start st); reflexivity).
    split.
    + intros s e H. specialize (Hb s e H). lia.
    + intros x Hx Hwx.
      destruct (Hcov x Hx Hwx) as [H|[H _]]; [exact H | congruence].
Qed.

Lemma weekend_bands_consecutive_witness :
  Sample.day0 <= Sample.day0 + 8 /\
  _draw_weekend_bands (day_range Sample.day0 (Sample.day0 + 8))
  = [(Sample.day0 + 4, Sample.day0 + 6)] /\
  (forall x, Sample.day0 <= x <= Sample.day0 + 8 -> 5 <= weekday x ->
     exists s e,
       In (s, e) (_draw_weekend_bands (day_range Sample.day0 (Sample.day0 + 8)))
       /\ s <= x <= e).
Proof.
  assert (H : Sample.day0 <= Sample.day0 + 8) by (vm_compute; discriminate).
  split; [exact H|]. split; [vm_compute; reflexivity|].
  exact (proj2 (weekend_bands_consecutive Sample.day0 (Sample.day0 + 8) H)).
Defined.

(** * Further properties of the document renderer *)

(** ** Strings *)

Lemma string_length_append (a b : string) :
  String.length (a ++ b)%string = (String.length a + String.length b)%nat.
Proof. induction a as [|c a IH]; simpl; [reflexivity | now rewrite IH]. Qed.

Lemma substring_prefix_length (n : nat) (s : string) :
  String.length (String.substring 0 n s) = Nat.min n (String.length s).
Proof.
  revert s. induction n as [|n IH]; intro s.
  - destruct s; reflexivity.
  - destruct s as [|c s]; [reflexivity|]. simpl. now rewrite IH.
Qed.

Lemma substring_prefix_all (n : nat) (s : string) :
  (String.length s <= n)%nat -> String.substring 0 n s = s.
Proof.
  revert s. induction n as [|n IH]; intros s H.
  - destruct s; [reflexivity | simpl in H; lia].
  - destruct s as [|c s]; [reflexivity|]. simpl in *. rewrite IH; [reflexivity | lia].
Qed.

Lemma substring_prefix (n : nat) (s : string) :
  String.prefix (String.substring 0 n s) s = true.
Proof.
  revert s. induction n as [|n IH]; intro s.
  - destruct s; reflexivity.
  - destruct s as [|c s]; [reflexivity|]. simpl.
    destruct (ascii_dec c c) as [_|Hne]; [apply IH | congruence].
Qed.

Lemma prefix_append (u t : string) : String.prefix u (u ++ t)%string = true.
Proof.
  induction u as [|c u IH]; simpl.
  - destruct t; reflexivity.
  - destruct (ascii_dec c c) as [_|Hne]; [exact IH | congruence].
Qed.

Lemma append_empty (s : string) : (s ++ EmptyString)%string = s.
Proof. induction s as [|c s IH]; simpl; [reflexivity | now rewrite IH]. Qed.

(** ** The summary table *)

(** X13. The summary shown in the summary table is the Epic's summary
    when that has at most 80 characters, and otherwise its first 80
    characters followed by three dots; it never has more than 83
    characters and it always starts with a prefix of the summary. *)
Theorem summary_text_bounded (s : string) :
  (String.length (summary_text s) <= 83)%nat /\
  ((String.length s <= 80)%nat -> summary_text s = s) /\
  ((80 < String.length s)%nat ->
   summary_text s = (String.substring 0 80 s ++ "...")%string /\
   String.length (summary_text s) = 83%nat) /\
  String.prefix (String.substring 0 80 s) (summary_text s) = true /\
  String.prefix (String.substring 0 80 s) s = true.
Proof.
  unfold summary_text.
  pose proof (substring_prefix_length 80 s) as Hl.
  pose proof (prefix_append (String.substring 0 80 s)) as Hpre.
  destruct (80 <? String.length s)%nat eqn:E.
  - apply Nat.ltb_lt in E.
    rewrite string_length_append, Hl. simpl String.length.
    repeat split; try lia; auto using substring_prefix.
  - apply Nat.ltb_ge in E.
    rewrite string_length_append, Hl. simpl String.length.
    split; [lia|]. split.
    + intros _. rewrite substring_prefix_all by exact E.
      apply append_empty.
    + split; [intro; lia|]. split; [apply Hpre | apply substring_prefix].
Qed.

Lemma str_mul_length (s : string) (n : Z) :
  String.length (str_mul s n) = (String.length s * Z.to_nat n)%nat.
Proof.
  unfold str_mul. induction (Z.to_nat n) as [|k IH]; [simpl; lia|].
  cbn [repeat]. destruct k as [|k].
  - cbn. lia.
  - cbn [repeat String.concat] in *.
    rewrite string_length_append. cbn [append String.length] in *.
    rewrite IH. lia.
Qed.

(** The progress of any Epic lies between 0 and 100. *)
Lemma progress_range clk epic :
  (0 <= progress (calculate_metrics clk epic) <= 100)%Q.
Proof.
  destruct (children epic) as [|c0 cs0] eqn:Hc.
  { unfold calculate_metrics. rewrite Hc. cbn. lra. }
  assert (Hne : children epic <> []) by congruence.
  destruct (progress_value clk epic Hne) as [[_ H]|[_ H]]; rewrite H;
    apply clamp_bounds.
Qed.

Lemma bar_len_range (pct : Q) :
  (0 <= pct <= 100)%Q ->
  1 <= bar_len pct <= 20 /\ bar_len pct = Z.max 1 (Qfloor (pct / 5)).
Proof.
  intros [H0 H100]. unfold bar_len, int_of_float.
  assert (Hq : (0 <= pct / 5 <= 20)%Q).
  { unfold Qdiv. change (/ 5)%Q with (1 # 5)%Q. lra. }
  destruct Hq as [Hq0 Hq20].
  apply Qle_bool_iff in Hq0 as Hb. rewrite Hb.
  pose proof (Qfloor_resp_le _ _ Hq0) as Hf0.
  pose proof (Qfloor_resp_le _ _ Hq20) as Hf20.
  change (Qfloor 0) with 0 in Hf0. change (Qfloor 20) with 20 in Hf20.
  split; [lia | reflexivity].
Qed.

(** X14. For the progress of any Epic the bar of the summary table has
    exactly 20 cells, between 1 and 20 of them filled: one filled cell
    for every full 5 percent, and one even at 0 percent. *)
Theorem progress_bar_cells (clk : Clock) (epic : EpicData) :
  let pct := progress (calculate_metrics clk epic) in
  1 <= bar_len pct <= 20 /\
  bar_len pct = Z.max 1 (Qfloor (pct / 5)) /\
  progress_bar pct
  = (str_mul FULL_BLOCK (bar_len pct)
     ++ str_mul LIGHT_SHADE (20 - bar_len pct))%string /\
  String.length (str_mul FULL_BLOCK (bar_len pct))
  = (String.length FULL_BLOCK * Z.to_nat (bar_len pct))%nat /\
  (Z.to_nat (bar_len pct) + Z.to_nat (20 - bar_len pct) = 20)%nat /\
  String.length (progress_bar pct) = (String.length FULL_BLOCK * 20)%nat.
Proof.
  intro pct.
  destruct (bar_len_range pct (progress_range clk epic)) as [Hr He].
  split; [exact Hr|]. split; [exact He|]. split; [reflexivity|].
  split; [apply str_mul_length|]. split; [lia|].
  unfold progress_bar. rewrite string_length_append, !str_mul_length.
  change (String.length LIGHT_SHADE) with (String.length FULL_BLOCK).
  rewrite <- Nat.mul_add_distr_l. f_equal. lia.
Qed.

Lemma nth_error_combine {A B : Type} (l : list A) (l' : list B) (i : nat) (a : A) (b : B) :
  nth_error l i = Some a -> nth_error l' i = Some b ->
  nth_error (combine l l') i = Some (a, b).
Proof.
  revert l' i. induction l as [|x l IH]; intros l' i Ha Hb.
  - destruct i; discriminate.
  - destruct l' as [|y l']; [destruct i; discriminate|].
    destruct i as [|i]; simpl in *.
    + congruence.
    + now apply IH.
Qed.

(** X15. The summary table has its header row and one row for each
    Epic that has metrics at the same position: the row after the header
    at position [i] shows Epic [i] with metrics [i], every row has the
    ten cells of the header, and Epics or metrics beyond the shorter of
    the two lists get no row. *)
Theorem summary_table_rows (hexval : string -> string) (report : ReportData)
        (pal : list (string * string)) :
  let rows := summary_table_data hexval report pal in
  length rows
  = S (Nat.min (length (epics report)) (length (metrics report))) /\
  (forall i e m,
     nth_error (epics report) i = Some e ->
     nth_error (metrics report) i = Some m ->
     nth_error rows (S i) = Some (summary_row hexval pal (e, m))) /\
  (forall row, In row rows -> length row = 10%nat).
Proof.
  intro rows. subst rows. unfold summary_table_data.
  split; [|split].
  - cbn [length]. now rewrite length_map, length_combine.
  - intros i e m He Hm. cbn [nth_error].
    rewrite nth_error_map, (nth_error_combine _ _ _ _ _ He Hm). reflexivity.
  - intros row [<-|Hin]; [reflexivity|].
    apply in_map_iff in Hin as ([e m] & <- & _). reflexivity.
Qed.

Lemma alternate_rows_In (n : nat) (colour : string) (cmd : StyleCmd) :
  In cmd (alternate_rows n colour) <->
  exists i : Z, 1 <= i < Z.of_nat n /\ i mod 2 = 0 /\
                cmd = mkStyleCmd "BACKGROUND" (0, i) (-1, i) [colour].
Proof.
  unfold alternate_rows. rewrite in_flat_map. split.
  - intros (k & Hk & Hin). apply in_seq in Hk.
    destruct (Z.of_nat k mod 2 =? 0) eqn:E; [|contradiction].
    destruct Hin as [<-|[]]. apply Z.eqb_eq in E.
    exists (Z.of_nat k). repeat split; lia || auto.
  - intros (i & Hi & Hm & ->). exists (Z.to_nat i). split.
    + apply in_seq. lia.
    + rewrite Z2Nat.id by lia. rewrite Hm. cbn. now left.
Qed.

(** X16. In the summary table the rows shaded with the alternate colour
    are the rows with an even index from 2 on, that is every second data
    row beginning with the second; the header and the first data row are
    never shaded so. *)
Theorem summary_table_shading (dark : bool) (n : nat) (i : Z) :
  let pal := if dark then _DARK_PALETTE else _LIGHT_PALETTE in
  In (mkStyleCmd "BACKGROUND" (0, i) (-1, i) [pal_get pal "row_alt"])
     (summary_table_style n pal)
  <-> 2 <= i < Z.of_nat n /\ i mod 2 = 0.
Proof.
  intro pal. unfold summary_table_style. rewrite in_app_iff, alternate_rows_In.
  split.
  - intros [Hfix|(j & Hj & Hm & Heq)].
    + exfalso. subst pal. destruct dark; cbn in Hfix;
        repeat (destruct Hfix as [Hfix|Hfix]; [discriminate Hfix|]);
        contradiction.
    + injection Heq as H1 _. rewrite H1. split; [|exact Hm].
      assert (j <> 1) by (intros ->; discriminate). lia.
  - intros [Hi Hm]. right. exists i. repeat split; lia || auto.
Qed.

(** ** The sidebar *)

Lemma percent_not_NA (s : string) : (s ++ "%")%string <> "N/A"%string.
Proof.
  destruct s as [|a [|b [|c [|d s]]]]; cbn [append]; discriminate.
Qed.

Lemma sp_per_week_not_NA (s : string) : (s ++ " SP/wk")%string <> "N/A"%string.
Proof.
  destruct s as [|a [|b [|c [|d s]]]]; cbn [append]; discriminate.
Qed.

Lemma fmt_date_not_NA (d : date) : _fmt_date d "%b %d, %Y" <> "N/A"%string.
Proof.
  unfold _fmt_date.
  generalize (Z.to_nat (month_of d - 1)). intro k.
  change (replace2 "%" "B" (nth k _MONTHS_FULL EmptyString) "%b %d, %Y")
    with "%b %d, %Y"%string.
  do 12 (destruct k as [|k]; [cbn; discriminate|]).
  destruct k; cbn; discriminate.
Qed.

(** Splits [In row rows] for rows written out, dropping the rows whose
    label differs. *)
Ltac rows_cases H :=
  unfold _build_summary_box, metric_row in H; cbn [In] in H;
  repeat (destruct H as [H|H]; [try discriminate H|]);
  try contradiction.

(** X17. In the sidebar the scope change and the forecast read ["N/A"]
    exactly when the metric is [None]; the velocity reads ["N/A"] when it
    is [None] or zero and not otherwise. *)
Theorem sidebar_fallbacks (m : EpicMetrics) :
  (In (metric_row "Scope Change" "N/A") (_build_summary_box m)
   <-> scope_change_pct m = None) /\
  (In (metric_row "Forecast" "N/A") (_build_summary_box m)
   <-> forecast_date m = None) /\
  (In (metric_row "Velocity (4wk)" "N/A") (_build_summary_box m)
   <-> velocity_sp_per_week m = None \/
       exists v, velocity_sp_per_week m = Some v /\ (v == 0)%Q).
Proof.
  split; [|split]; split.
  - intro H. rows_cases H.
    destruct (scope_change_pct m) as [x|]; [|reflexivity].
    injection H as H. now apply percent_not_NA in H.
  - intro H. unfold _build_summary_box. rewrite H. cbn [In]. tauto.
  - intro H. rows_cases H.
    destruct (forecast_date m) as [d|]; [|reflexivity].
    injection H as H. now apply fmt_date_not_NA in H.
  - intro H. unfold _build_summary_box. rewrite H. cbn [In]. tauto.
  - intro H. rows_cases H.
    destruct (velocity_sp_per_week m) as [v|]; [|now left].
    right. exists v. split; [reflexivity|].
    destruct (Qeq_bool v 0) eqn:E; [now apply Qeq_bool_iff|].
    injection H as H. now apply sp_per_week_not_NA in H.
  - intro H. unfold _build_summary_box.
    destruct H as [->|(v & -> & Hv)].
    + cbn [In]. tauto.
    + apply Qeq_bool_iff in Hv. rewrite Hv. cbn [In]. tauto.
Qed.


(** ** The page of an Epic *)

(** X20. An Epic without children still gets its page: the chart cell is
    the no-chart-data paragraph and the sidebar shows 0 for every count
    and every sum and ["N/A"] for the cycle time, the velocity, the scope
    change and the forecast. *)
Theorem epic_page_without_children (png_chunks : Figure -> list byte)
        (hexval : string -> string) (clk : Clock) (story : list Flowable)
        (epic : EpicData) (pal : list (string * string)) (dark : bool) :
  children epic = [] ->
  exists heading status widths style,
    _add_epic_page png_chunks hexval story epic (calculate_metrics clk epic)
                   pal dark
    = story ++ [ Para heading "heading"; Para status "body"; Spacer 1 4;
                 Table [[NO_CHART; CellText EmptyString;
                         CellBox
                           [ [Paragraph "<b>Summary</b>" "section_heading";
                              Plain EmptyString];
                             metric_row "Total Issues" "0";
                             metric_row "Completed" "0";
                             metric_row "Open" "0";
                             metric_row "Unestimated" "0";
                             metric_row "Total SP" "0";
                             metric_row "Done SP" "0";
                             metric_row "Remaining SP" "0";
                             metric_row "Avg Cycle Time" "N/A";
                             [Paragraph "<b>Additional</b>" "section_heading";
                              Plain EmptyString];
                             metric_row "Velocity (4wk)" "N/A";
                             metric_row "Scope Change" "N/A";
                             metric_row "Blocked" "0";
                             metric_row "Forecast" "N/A" ]]]
                       widths 0 style ].
Proof.
  intro Hnil.
  assert (Hm : calculate_metrics clk epic = EpicMetrics_default).
  { unfold calculate_metrics. now rewrite Hnil. }
  rewrite Hm. do 4 eexists. reflexivity.
Qed.

Lemma epic_page_without_children_witness :
  children (Sample.make_epic []) = [] /\
  exists heading status widths style,
    _add_epic_page (fun _ => []) (fun c => c) [] (Sample.make_epic [])
                   (calculate_metrics Sample.clock (Sample.make_epic []))
                   _LIGHT_PALETTE false
    = [] ++ [ Para heading "heading"; Para status "body"; Spacer 1 4;
              Table [[NO_CHART; CellText EmptyString;
                      CellBox
                        [ [Paragraph "<b>Summary</b>" "section_heading";
                           Plain EmptyString];
                          metric_row "Total Issues" "0";
                          metric_row "Completed" "0";
                          metric_row "Open" "0";
                          metric_row "Unestimated" "0";
                          metric_row "Total SP" "0";
                          metric_row "Done SP" "0";
                          metric_row "Remaining SP" "0";
                          metric_row "Avg Cycle Time" "N/A";
                          [Paragraph "<b>Additional</b>" "section_heading";
                           Plain EmptyString];
                          metric_row "Velocity (4wk)" "N/A";
                          metric_row "Scope Change" "N/A";
                          metric_row "Blocked" "0";
                          metric_row "Forecast" "N/A" ]]]
                    widths 0 style ].
Proof.
  split; [reflexivity|].
  exact (epic_page_without_children (fun _ => []) (fun c => c) Sample.clock []
           (Sample.make_epic []) _LIGHT_PALETTE false eq_refl).
Defined.

(** ** The story of a report *)

Lemma page_breaks_app (s t : list Flowable) :
  page_breaks (s ++ t) = (page_breaks s + page_breaks t)%nat.
Proof. unfold page_breaks. now rewrite filter_app, length_app. Qed.

Lemma epic_layouts_app (s t : list Flowable) :
  epic_layouts (s ++ t) = (epic_layouts s + epic_layouts t)%nat.
Proof. unfold epic_layouts. now rewrite filter_app, length_app. Qed.

Lemma title_page_counts (cfg : ReportConfig) :
  page_breaks (_add_title_page [] cfg) = 0%nat /\
  epic_layouts (_add_title_page [] cfg) = 0%nat.
Proof.
  unfold _add_title_page.
  destruct (nonempty (project_display_name cfg)), (nonempty (author cfg)),
    (confidential cfg && nonempty (company_name cfg)); split; reflexivity.
Qed.

Lemma summary_table_counts hexval story report pal :
  page_breaks (_add_summary_table hexval story report pal) = page_breaks story /\
  epic_layouts (_add_summary_table hexval story report pal) = epic_layouts story.
Proof.
  unfold _add_summary_table. cbv zeta.
  rewrite page_breaks_app, epic_layouts_app. split.
  - cbn. lia.
  - unfold epic_layouts at 2. cbn [filter is_epic_layout].
    unfold summary_table_data.
    destruct (map (summary_row hexval pal) _); cbn; lia.
Qed.

Lemma epic_page_counts png_chunks hexval story epic m pal dark :
  page_breaks (_add_epic_page png_chunks hexval story epic m pal dark)
  = page_breaks story /\
  epic_layouts (_add_epic_page png_chunks hexval story epic m pal dark)
  = S (epic_layouts story).
Proof.
  unfold _add_epic_page. cbv zeta.
  rewrite page_breaks_app, epic_layouts_app. split; cbn; lia.
Qed.

Lemma epic_pages_counts png_chunks hexval pal dark
      (l : list (EpicData * EpicMetrics)) (story : list Flowable) :
  let story' :=
    fold_left (fun story em =>
                 _add_epic_page png_chunks hexval (story ++ [PageBreak])
                                (fst em) (snd em) pal dark) l story in
  page_breaks story' = (page_breaks story + length l)%nat /\
  epic_layouts story' = (epic_layouts story + length l)%nat.
Proof.
  revert story. induction l as [|[e m] l IH]; intro story; cbn [fold_left length].
  - split; lia.
  - destruct (IH (_add_epic_page png_chunks hexval (story ++ [PageBreak])
                    (fst (e, m)) (snd (e, m)) pal dark)) as [H1 H2].
    destruct (epic_page_counts png_chunks hexval (story ++ [PageBreak])
                (fst (e, m)) (snd (e, m)) pal dark) as [H3 H4].
    cbv zeta in H1, H2. rewrite H1, H2, H3, H4.
    rewrite page_breaks_app, epic_layouts_app. cbn. split; lia.
Qed.

Lemma story_counts png_chunks hexval report :
  page_breaks (generate_pdf_story png_chunks hexval report)
  = S (Nat.min (length (epics report)) (length (metrics report))) /\
  epic_layouts (generate_pdf_story png_chunks hexval report)
  = Nat.min (length (epics report)) (length (metrics report)).
Proof.
  unfold generate_pdf_story. cbv zeta.
  match goal with
  | |- context [fold_left ?f ?l ?s] =>
      destruct (epic_pages_counts png_chunks hexval
                  (if dark_mode (config report)
                   then _DARK_PALETTE else _LIGHT_PALETTE)
                  (dark_mode (config report)) l s) as [H1 H2]
  end.
  cbv zeta in H1, H2. rewrite H1, H2.
  match goal with
  | |- context [_add_summary_table ?h ?s ?r ?p] =>
      destruct (summary_table_counts h s r p) as [H3 H4]
  end.
  rewrite H3, H4, page_breaks_app, epic_layouts_app.
  destruct (title_page_counts (config report)) as [H5 H6].
  rewrite H5, H6, length_combine. cbn. split; lia.
Qed.


(** * Properties of the report run *)

Lemma run_fold fetch clk (keys : list string) (r : ReportData) :
  let sp := story_points_field (config r) in
  let el := epic_link_field (config r) in
  let r' := fold_left (run_step fetch clk) keys r in
  config r' = config r /\
  epics r'
  = epics r ++ flat_map (fun k => match fetch k sp el with
                                  | Some e => [e]
                                  | None => []
                                  end) keys /\
  metrics r'
  = metrics r ++ map (calculate_metrics clk)
                     (flat_map (fun k => match fetch k sp el with
                                         | Some e => [e]
                                         | None => []
                                         end) keys) /\
  errors r'
  = errors r ++ flat_map (fun k => match fetch k sp el with
                                   | Some _ => []
                                   | None => [not_found_message k]
                                   end) keys.
Proof.
  revert r. induction keys as [|k keys IH]; intro r; cbn [fold_left flat_map map].
  - rewrite !app_nil_r. auto.
  - destruct (IH (run_step fetch clk r k)) as (Hc & He & Hm & Her).
    cbv zeta in *. rewrite Hc, He, Hm, Her.
    unfold run_step.
    destruct (fetch k (story_points_field (config r))
                    (epic_link_field (config r))) as [e|];
      cbn [config epics metrics errors app map];
      rewrite <- ?app_assoc; auto.
Qed.

(** X22. A report run keeps the Epics and the metrics in step: the Epics
    of the report are the ones the fetch returned, in the order of the
    keys, the metrics are those of these Epics at the same positions,
    and every key whose fetch returned nothing gives one error message
    naming it and no Epic, so that Epics and errors together are as many
    as the keys. *)
Theorem run_invariant (fetch : string -> string -> string -> option EpicData)
        (clk : Clock) (cfg : ReportConfig) :
  let r := run fetch clk cfg in
  let fetched k := fetch k (story_points_field cfg) (epic_link_field cfg) in
  config r = cfg /\
  epics r = flat_map (fun k => match fetched k with
                               | Some e => [e]
                               | None => []
                               end) (epic_keys cfg) /\
  metrics r = map (calculate_metrics clk) (epics r) /\
  length (metrics r) = length (epics r) /\
  errors r = flat_map (fun k => match fetched k with
                                | Some _ => []
                                | None => [not_found_message k]
                                end) (epic_keys cfg) /\
  (length (epics r) + length (errors r) = length (epic_keys cfg))%nat.
Proof.
  intros r fetched. subst r fetched. unfold run.
  destruct (run_fold fetch clk (epic_keys cfg) (ReportData_new cfg))
    as (Hc & He & Hm & Her).
  cbv zeta in *. cbn [ReportData_new config epics metrics errors app] in *.
  rewrite Hc, He, Hm, Her.
  repeat split; try reflexivity.
  - now rewrite length_map.
  - clear. induction (epic_keys cfg) as [|k keys IH]; [reflexivity|].
    cbn [flat_map]. rewrite !length_app.
    destruct (fetch k (story_points_field cfg) (epic_link_field cfg));
      cbn [length]; lia.
Qed.

(** X23. In the document of a report run every fetched Epic has its row
    in the summary table and its own page: the table has one row more
    than there are Epics, and the story has as many Epic pages as Epics
    and one page break more. *)
Theorem run_document (png_chunks : Figure -> list byte)
        (hexval : string -> string)
        (fetch : string -> string -> string -> option EpicData)
        (clk : Clock) (cfg : ReportConfig) :
  let r := run fetch clk cfg in
  let pal := if dark_mode cfg then _DARK_PALETTE else _LIGHT_PALETTE in
  length (summary_table_data hexval r pal) = S (length (epics r)) /\
  epic_layouts (generate_pdf_story png_chunks hexval r) = length (epics r) /\
  page_breaks (generate_pdf_story png_chunks hexval r) = S (length (epics r)).
Proof.
  intros r pal.
  assert (Hlen : length (metrics r) = length (epics r)).
  { subst r. unfold run.
    destruct (run_fold fetch clk (epic_keys cfg) (ReportData_new cfg))
      as (_ & He & Hm & _).
    cbv zeta in *. cbn [ReportData_new config epics metrics app] in *.
    rewrite He, Hm. now rewrite length_map. }
  destruct (story_counts png_chunks hexval r) as [H1 H2].
  rewrite H1, H2. unfold summary_table_data. cbn [length].
  rewrite length_map, length_combine, Hlen, Nat.min_id. auto.
Qed.

(** * Properties of the Jira searches *)

(** ** Retries *)

(** X24. A search calls the server until a call does anything but fail
    with status 429, four times at most, and ends as that last call did:
    it returns what the call found or raises its error.  Before the
    second, third and fourth call it sleeps 1, 2 and 4 seconds, and it
    never ends by returning the empty list after the loop. *)
Theorem search_with_retry_spec (Raw : Type) (server : nat -> CallOutcome Raw) :
  let r := _search_with_retry server in
  (1 <= calls r <= 4)%nat /\
  slept r = firstn (calls r - 1) [1; 2; 4]%Q /\
  (forall k, (k < calls r - 1)%nat -> server k = JIRAError 429) /\
  match outcome r with
  | Returned results => server (calls r - 1)%nat = Found results
  | Raised code =>
      server (calls r - 1)%nat = JIRAError code /\
      (code <> 429 \/ calls r = 4%nat)
  end.
Proof.
  unfold _search_with_retry, _MAX_RETRIES. cbn [retry_loop].
  destruct (server 0%nat) as [r0|c0] eqn:E0.
  { cbn. repeat split; auto; intros; lia. }
  destruct (c0 =? 429) eqn:C0; cbn [andb Nat.ltb Nat.leb Nat.sub _MAX_RETRIES].
  2: { apply Z.eqb_neq in C0. cbn. repeat split; auto; intros; lia. }
  apply Z.eqb_eq in C0. subst c0. cbn.
  assert (H0 : forall k, (k < 1)%nat -> server k = JIRAError 429).
  { intros k Hlt. destruct k as [|k]; [exact E0 | lia]. }
  destruct (server 1%nat) as [r1|c1] eqn:E1.
  { cbn. repeat split; auto; lia. }
  destruct (c1 =? 429) eqn:C1; cbn.
  2: { apply Z.eqb_neq in C1. repeat split; auto; lia. }
  apply Z.eqb_eq in C1. subst c1.
  assert (H01 : forall k, (k < 2)%nat -> server k = JIRAError 429).
  { intros k Hlt. destruct k as [|[|k]]; [exact E0 | exact E1 | lia]. }
  destruct (server 2%nat) as [r2|c2] eqn:E2.
  { cbn. repeat split; auto; lia. }
  destruct (c2 =? 429) eqn:C2; cbn.
  2: { apply Z.eqb_neq in C2. repeat split; auto; lia. }
  apply Z.eqb_eq in C2. subst c2.
  assert (H012 : forall k, (k < 3)%nat -> server k = JIRAError 429).
  { intros k Hlt. destruct k as [|[|[|k]]]; [exact E0 | exact E1 | exact E2 | lia]. }
  destruct (server 3%nat) as [r3|c3] eqn:E3.
  { cbn. repeat split; auto; lia. }
  rewrite andb_false_r. cbn. repeat split; auto; lia.
Qed.

(** ** Pages *)

Lemma firstn_add {A : Type} (a b : nat) (l : list A) :
  firstn (a + b) l = firstn a l ++ firstn b (skipn a l).
Proof.
  revert l. induction a as [|a IH]; intro l; [reflexivity|].
  destruct l as [|x l]; [cbn; now rewrite firstn_nil|].
  cbn. now rewrite IH.
Qed.

Lemma fetch_pages_paged (Raw : Type) (to_issue : Raw -> JiraIssue)
      (all : list Raw) (fuel : nat) :
  forall (k : nat),
    (100 * k <= length all)%nat ->
    (length all < 100 * (k + fuel))%nat ->
    fetch_pages to_issue (paged all) fuel (Z.of_nat (100 * k))
                (map to_issue (firstn (100 * k) all))
    = Children (map to_issue all).
Proof.
  induction fuel as [|fuel IH]; intros k Hk Hfuel; [lia|].
  cbn [fetch_pages]. unfold paged, _MAX_RESULTS.
  rewrite Nat2Z.id. change (Z.to_nat 100) with 100%nat.
  pose proof (length_skipn (100 * k) all) as Hrest.
  set (rest := skipn (100 * k) all) in *.
  pose proof (length_firstn 100 rest) as Hpage.
  pose proof (firstn_add (100 * k) 100 all) as Hjoin. fold rest in Hjoin.
  destruct (firstn 100 rest) as [|x page] eqn:Ep.
  - assert (Hz : length rest = 0%nat).
    { cbn [length] in Hpage. lia. }
    f_equal. f_equal. apply firstn_all2. lia.
  - rewrite <- map_app, <- Hjoin. unfold len.
    destruct (Z.of_nat (length (x :: page)) <? 100) eqn:E.
    + apply Z.ltb_lt in E. f_equal. f_equal. apply firstn_all2. lia.
    + apply Z.ltb_ge in E.
      replace (Z.of_nat (100 * k) + 100) with (Z.of_nat (100 * (k + 1))) by lia.
      replace (100 * k + 100)%nat with (100 * (k + 1))%nat by lia.
      apply IH; lia.
Qed.

Lemma fetch_pages_short (Raw : Type) (to_issue : Raw -> JiraIssue)
      (all : list Raw) (fuel : nat) :
  forall (k : nat) (children : list JiraIssue),
    (100 * (k + fuel) <= length all)%nat ->
    fetch_pages to_issue (paged all) fuel (Z.of_nat (100 * k)) children
    = OutOfFuel.
Proof.
  induction fuel as [|fuel IH]; intros k children Hfuel; [reflexivity|].
  cbn [fetch_pages]. unfold paged, _MAX_RESULTS.
  rewrite Nat2Z.id. change (Z.to_nat 100) with 100%nat.
  pose proof (length_skipn (100 * k) all) as Hrest.
  set (rest := skipn (100 * k) all) in *.
  pose proof (length_firstn 100 rest) as Hpage.
  destruct (firstn 100 rest) as [|x page] eqn:Ep.
  - cbn [length] in Hpage. lia.
  - unfold len.
    destruct (Z.of_nat (length (x :: page)) <? 100) eqn:E.
    + apply Z.ltb_lt in E. lia.
    + replace (Z.of_nat (100 * k) + 100) with (Z.of_nat (100 * (k + 1))) by lia.
      apply IH. lia.
Qed.

(** X25. Against a server that answers each search with the page of at
    most 100 issues starting at the given position, fetching the children
    returns every issue once and in order, and it takes one request more
    than there are full pages: with fewer requests the loop is not
    done. *)
Theorem fetch_children_all (Raw : Type) (to_issue : Raw -> JiraIssue)
        (all : list Raw) (fuel : nat) :
  ((length all / 100 < fuel)%nat ->
   _fetch_children to_issue (paged all) fuel = Children (map to_issue all)) /\
  ((fuel <= length all / 100)%nat ->
   _fetch_children to_issue (paged all) fuel = OutOfFuel).
Proof.
  pose proof (Nat.div_mod_eq (length all) 100) as Hdm.
  pose proof (Nat.mod_upper_bound (length all) 100 ltac:(lia)) as Hmod.
  unfold _fetch_children. split; intro H.
  - apply (fetch_pages_paged Raw to_issue all fuel 0); cbn; lia.
  - apply (fetch_pages_short Raw to_issue all fuel 0 []). cbn [Nat.add]. lia.
Qed.

(** * Properties across the pipeline *)

(** X26. For an Epic of the data model the velocity never exceeds a
    quarter of the completed story points: the points resolved within
    the last four weeks are among the completed ones. *)
Theorem velocity_within_completed (clk : Clock) (epic : EpicData) (v : Q) :
  nonnegative_points (children epic) ->
  velocity_sp_per_week (calculate_metrics clk epic) = Some v ->
  (v * 4 <= completed_sp (calculate_metrics clk epic))%Q.
Proof.
  intros Hnn Hv.
  destruct (calculate_metrics_optional clk epic) as (Hvel & _).
  rewrite Hvel in Hv. unfold _velocity in Hv. cbv zeta in Hv.
  set (sp := sumQ _) in Hv.
  destruct (Qeq_bool sp 0); [discriminate|]. injection Hv as <-.
  assert (Hdiv : (sp / inject_Z 4 * 4 == sp)%Q) by (field).
  rewrite Hdiv.
  destruct (children epic) as [|c0 cs0] eqn:Hc.
  { unfold calculate_metrics. rewrite Hc. cbn. unfold sp. cbn. lra. }
  assert (Hne : children epic <> []) by congruence.
  destruct (calculate_metrics_scalars clk epic Hne) as (_ & _ & _ & Hd & _).
  rewrite Hd, Hc. unfold sp.
  apply sum_filter_mono.
  - intros x _ H. now apply andb_true_iff in H as [H _].
  - now apply nonnegative_sp_value.
Qed.

Lemma velocity_within_completed_witness :
  nonnegative_points (children Sample.five_of_thirteen) /\
  velocity_sp_per_week (calculate_metrics Sample.clock Sample.five_of_thirteen)
  = Some (5 # 4)%Q /\
  ((5 # 4) * 4
   <= completed_sp (calculate_metrics Sample.clock Sample.five_of_thirteen))%Q.
Proof.
  assert (H1 : nonnegative_points (children Sample.five_of_thirteen))
    by solve_nonnegative.
  assert (H2 : velocity_sp_per_week
                 (calculate_metrics Sample.clock Sample.five_of_thirteen)
               = Some (5 # 4)%Q) by (vm_compute; reflexivity).
  split; [exact H1|]. split; [exact H2|].
  exact (velocity_within_completed Sample.clock Sample.five_of_thirteen
           (5 # 4)%Q H1 H2).
Defined.

(** X27. An Epic none of whose children was created before today gets no
    chart: the chart renderer returns [None] for its metrics and its page
    shows the no-chart-data paragraph. *)
Theorem no_chart_without_history (png_chunks : Figure -> list byte)
        (hexval : string -> string) (clk : Clock) (epic : EpicData)
        (dpi : Z) (dark : bool) (story : list Flowable)
        (pal : list (string * string)) :
  (forall c dt, In c (children epic) -> created c = Some dt ->
                today clk <= dt_date dt) ->
  generate_epic_chart png_chunks (calculate_metrics clk epic) dpi dark = None /\
  exists heading status widths style,
    _add_epic_page png_chunks hexval story epic (calculate_metrics clk epic)
                   pal dark
    = story ++ [ Para heading "heading"; Para status "body"; Spacer 1 4;
                 Table [[NO_CHART; CellText EmptyString;
                         CellBox (_build_summary_box (calculate_metrics clk epic))]]
                       widths 0 style ].
Proof.
  intro Hall.
  assert (Hd : dates (calculate_metrics clk epic) = []).
  { destruct (calculate_metrics_dates clk epic)
      as [Hnil|(first & Hin & _ & Hlt & _)]; [exact Hnil|].
    apply in_map_iff in Hin as ([c dt] & Heq & Hin). simpl in Heq. subst dt.
    apply dated_children_In in Hin as [Hc Hcr].
    specialize (Hall c first Hc Hcr). lia. }
  unfold _add_epic_page, _build_chart_image, generate_epic_chart.
  rewrite Hd. split; [reflexivity|]. do 4 eexists. reflexivity.
Qed.

Lemma no_chart_without_history_witness :
  (forall c dt, In c (children Sample_created_today) -> created c = Some dt ->
                today Sample.clock <= dt_date dt) /\
  generate_epic_chart (fun _ => [])
    (calculate_metrics Sample.clock Sample_created_today) 150 false = None.
Proof.
  assert (H : forall c dt, In c (children Sample_created_today) ->
                created c = Some dt -> today Sample.clock <= dt_date dt).
  { intros c dt [<-|[<-|[]]] Hc; simpl in Hc; injection Hc as <-;
      vm_compute; discriminate. }
  split; [exact H|].
  exact (proj1 (no_chart_without_history (fun _ => []) (fun c => c) Sample.clock
                  Sample_created_today 150 false [] _LIGHT_PALETTE H)).
Defined.
